(** * pg_cuckoo: a shallow embedding of the fingerprint storage engine

    The development follows the C++ sources of the extension:
    - [ckutils.cpp]  : [initCuckooState], [computeFingerprint],
                       [CuckooFormTuple], [CuckooPageAddItem],
                       [CuckooNewBuffer], [CuckooInitPage], metapage set-up;
    - [ckinsert.cpp] : [cuckooBuildCallback], [ckbuild], [ckinsert];
    - [ckscan.cpp]   : [ckbeginscan], [ckrescan], [ckgetbitmap];
    - [ckvacuum.cpp] : [ckbulkdelete], [ckvacuumcleanup];
    - [ckcost.cpp]   : [calculateFalsePositiveRate].

    Machine integers are [Z] with their wrap-around written out, a page is
    a record of its header fields, its trailer ("opaque") fields and the
    array of tuple slots between them, and the relation is the metapage
    (block 0) followed by the data pages (blocks 1, 2, ...).  Operations
    that can [elog(ERROR)] return a [Result]. *)

From Stdlib Require Import ZArith List Lia Bool QArith SpecFloat.
From stdpp Require Import base list.

Local Open Scope Z_scope.

(** ** Machine integers *)

Definition uint16 (z : Z) : Z := z mod 2 ^ 16.
Definition uint32 (z : Z) : Z := z mod 2 ^ 32.
Definition uint64 (z : Z) : Z := z mod 2 ^ 64.

(** [a << n] on a 32-bit unsigned operand.  C++ ([expr.shift]) defines the
    result only when [0 <= n < 32]; outside that range the expression has
    no defined value, which is [None] here. *)
Definition shl_u32 (a n : Z) : option Z :=
  if (0 <=? n) && (n <? 32) then Some (uint32 (Z.shiftl a n)) else None.

(** [a << n] on a 64-bit unsigned operand ([1ULL << n]). *)
Definition shl_u64 (a n : Z) : option Z :=
  if (0 <=? n) && (n <? 64) then Some (uint64 (Z.shiftl a n)) else None.

(** ** Errors and results *)

Inductive Error : Type :=
| ErrNotCuckoo            (* elog: "Relation is not a cuckoo index" *)
| ErrAlreadyContainsData  (* elog: "index ... already contains data" *)
| ErrEmptyPageFull        (* elog: "could not add new cuckoo tuple to empty page" *)
| ErrBadBlock             (* ReadBuffer on a block that is not a data block *)
| ErrUndefined.           (* an operation the language leaves undefined *)

Inductive Result (A : Type) : Type :=
| Ok (a : A)
| Err (e : Error).

Arguments Ok {A} a.
Arguments Err {A} e.

Definition bind {A B : Type} (r : Result A) (k : A -> Result B) : Result B :=
  match r with
  | Ok a => k a
  | Err e => Err e
  end.

Notation "x <- e1 ;; e2" := (bind e1 (fun x => e2))
  (at level 100, e1 at next level, right associativity).

Definition of_option {A : Type} (e : Error) (o : option A) : Result A :=
  match o with
  | Some a => Ok a
  | None => Err e
  end.

(** ** Data model ([cuckoo.h]) *)

(** [Datum] and [BlockNumber] are machine integers. *)
Abbreviation Datum := Z (only parsing).
Abbreviation BlockNumber := Z (only parsing).

Definition InvalidBlockNumber : BlockNumber := 0xFFFFFFFF.
Definition CUCKOO_METAPAGE_BLKNO : BlockNumber := 0.
Definition CUCKOO_HEAD_BLKNO : BlockNumber := 1.

Definition CUCKOO_META : Z := 1.
Definition CUCKOO_DELETED : Z := 2.
Definition CUCKOO_PAGE_ID : Z := 0xFF84.
Definition CUCKOO_MAGIC_NUMBER : Z := 0xC0C000CF.

Definition DEFAULT_BITS_PER_TAG : Z := 12.
Definition MIN_BITS_PER_TAG : Z := 4.
Definition MAX_BITS_PER_TAG : Z := 32.
Definition DEFAULT_TAGS_PER_BUCKET : Z := 4.
Definition MIN_TAGS_PER_BUCKET : Z := 2.
Definition MAX_TAGS_PER_BUCKET : Z := 8.
Definition DEFAULT_MAX_KICKS : Z := 500.

(** Row locator ([ItemPointerData]): heap block and line number. *)
Record ItemPointerData : Type := mkItemPointer {
  ip_blkid : Z;
  ip_posid : Z
}.

Record CuckooTuple : Type := mkTuple {
  heapPtr : ItemPointerData;
  fingerprint : Z
}.

Record CuckooOptions : Type := mkOptions {
  vl_len_ : Z;
  bitsPerTag : Z;
  tagsPerBucket : Z;
  maxKicks : Z
}.

Record CuckooMetaPageData : Type := mkMeta {
  magicNumber : Z;
  nStart : Z;
  nEnd : Z;
  opts : CuckooOptions;
  notFullPage : list BlockNumber
}.

(** [hashFn i v] stands for
    [FunctionCall1Coll(&state->hashFn[i], state->collations[i], v)]: the
    opclass hash procedure of column [i] under that column's collation. *)
Record CuckooState : Type := mkState {
  hashFn : nat -> Datum -> Z;
  state_opts : CuckooOptions;
  nColumns : nat;
  sizeOfCuckooTuple : Z;
  tagMask : Z;
  state_tagsPerBucket : Z;
  state_maxKicks : Z
}.

(** A page: the header fields the code reads or writes, the opaque trailer
    ([CuckooPageOpaqueData]) and the content area seen as an array of
    tuple slots.  Slots past [maxoff] keep whatever was last written. *)
Record Page : Type := mkPage {
  pd_lower : Z;
  pd_upper : Z;
  pd_special : Z;
  maxoff : Z;
  flags : Z;
  cuckoo_page_id : Z;
  items : list CuckooTuple
}.

Definition zeroTuple : CuckooTuple := mkTuple (mkItemPointer 0 0) 0.

(** Layout constants of the host (PostgreSQL on a 64-bit platform):
    [offsetof(PageHeaderData, pd_linp)], the maximal alignment, and the
    sizes of the structures declared in [cuckoo.h]. *)
Definition SizeOfPageHeaderData : Z := 24.
Definition MAXIMUM_ALIGNOF : Z := 8.
Definition MAXALIGN (len : Z) : Z :=
  (len + (MAXIMUM_ALIGNOF - 1)) / MAXIMUM_ALIGNOF * MAXIMUM_ALIGNOF.
Definition MAXALIGN_DOWN (len : Z) : Z :=
  len / MAXIMUM_ALIGNOF * MAXIMUM_ALIGNOF.
Definition sizeof_CuckooTuple : Z := 12.
Definition sizeof_CuckooPageOpaqueData : Z := 8.
Definition sizeof_CuckooOptions : Z := 16.
Definition sizeof_BlockNumber : Z := 4.

Definition PageIsNew (page : Page) : bool := pd_upper page =? 0.
Definition CuckooPageGetMaxOffset (page : Page) : Z := maxoff page.
Definition CuckooPageIsMeta (page : Page) : bool :=
  negb (Z.land (flags page) CUCKOO_META =? 0).
Definition CuckooPageIsDeleted (page : Page) : bool :=
  negb (Z.land (flags page) CUCKOO_DELETED =? 0).

Definition CuckooPageSetDeleted (page : Page) : Page :=
  mkPage (pd_lower page) (pd_upper page) (pd_special page) (maxoff page)
         (Z.lor (flags page) CUCKOO_DELETED) (cuckoo_page_id page)
         (items page).

(** [CuckooPageGetTuple(state, page, offset)]: offsets are 1-based.  The
    macro steps by [state->sizeOfCuckooTuple], which [initCuckooState]
    always sets to [sizeof(CuckooTuple)], so the tuple at [offset] is slot
    [offset - 1] of the array. *)
Definition CuckooPageGetTuple (page : Page) (offset : Z) : CuckooTuple :=
  default zeroTuple (items page !! Z.to_nat (offset - 1)).

(** The live tuples of a page: slots 1..maxoff. *)
Definition liveTuples (page : Page) : list CuckooTuple :=
  take (Z.to_nat (maxoff page)) (items page).

(** ** Fingerprints ([ckutils.cpp]) *)

(** One round of the loop body of [computeFingerprint]. *)
Definition mixHash (hash colHash : Z) : Z :=
  let h1 := Z.lxor hash colHash in
  let h2 := uint32 (h1 * 0x5bd1e995) in
  Z.lxor h2 (Z.shiftr h2 15).

(** The [for] loop of [computeFingerprint], from column [i], [n] columns
    to go. *)
Fixpoint fingerprintLoop (state : CuckooState) (values : list Datum)
    (isnull : list bool) (i n : nat) (hash : Z) : Z :=
  match n with
  | O => hash
  | S n' =>
      if default true (isnull !! i) then
        fingerprintLoop state values isnull (S i) n' hash
      else
        let colHash := uint32 (hashFn state i (default 0 (values !! i))) in
        fingerprintLoop state values isnull (S i) n' (mixHash hash colHash)
  end.

Definition computeFingerprint (state : CuckooState) (values : list Datum)
    (isnull : list bool) : Z :=
  let hash := fingerprintLoop state values isnull 0 (nColumns state) 0 in
  let fp := Z.land hash (tagMask state) in
  if fp =? 0 then 1 else fp.

Definition CuckooFormTuple (state : CuckooState) (iptr : ItemPointerData)
    (values : list Datum) (isnull : list bool) : CuckooTuple :=
  mkTuple iptr (computeFingerprint state values isnull).

(** Scan keys ([ScanKeyData]) and scan descriptors. *)
Definition SK_ISNULL : Z := 1.

Record ScanKeyData : Type := mkScanKey {
  sk_flags : Z;
  sk_attno : Z;
  sk_argument : Datum
}.

Record CuckooScanOpaqueData : Type := mkScanOpaque {
  so_fingerprint : Z;
  fingerprintValid : bool;
  so_state : CuckooState
}.

Record IndexScanDescData : Type := mkScan {
  numberOfKeys : nat;
  keyData : list ScanKeyData;
  opaque : CuckooScanOpaqueData
}.

(** The bitmap receives row locators; it is kept as the list of the
    locators added, in the order [tbm_add_tuples] was called. *)
Definition TIDBitmap := list ItemPointerData.

(** Block 0: the opaque flags of the metapage and its [CuckooMetaPageData]. *)
Record MetaPage : Type := mkMetaPage {
  mp_flags : Z;
  mp_meta : CuckooMetaPageData
}.

(** The index relation as the code sees it: the descriptor ([rd_att->natts],
    the hash support procedures, [rd_options]), its blocks, and the host's
    free-space map of recyclable index pages.  [rd_meta = None] is a
    relation of zero blocks; data block [b >= 1] is [rd_pages !! (b - 1)]. *)
Record Relation : Type := mkRelation {
  rd_natts : nat;
  rd_hashproc : nat -> Datum -> Z;
  rd_options : option CuckooOptions;
  rd_meta : option MetaPage;
  rd_pages : list Page;
  rd_fsm : list BlockNumber
}.

Definition RelationGetNumberOfBlocks (index : Relation) : Z :=
  match rd_meta index with
  | None => 0
  | Some _ => 1 + Z.of_nat (length (rd_pages index))
  end.

(** [ReadBuffer] of a data block.  Reading past the end of the relation is
    an error of the host; block 0 is the metapage and is never read as a
    data page by a relation the code has built, so it is refused too. *)
Definition readPage (index : Relation) (blkno : BlockNumber) : Result Page :=
  if blkno <? CUCKOO_HEAD_BLKNO then Err ErrBadBlock
  else of_option ErrBadBlock (rd_pages index !! Z.to_nat (blkno - 1)).

(** Committing a page image ([GenericXLogFinish]) for a data block. *)
Definition writePage (index : Relation) (blkno : BlockNumber) (page : Page)
    : Relation :=
  mkRelation (rd_natts index) (rd_hashproc index) (rd_options index)
             (rd_meta index)
             (<[Z.to_nat (blkno - 1) := page]> (rd_pages index))
             (rd_fsm index).

Definition writeMeta (index : Relation) (mp : MetaPage) : Relation :=
  mkRelation (rd_natts index) (rd_hashproc index) (rd_options index)
             (Some mp) (rd_pages index) (rd_fsm index).

Definition setFsm (index : Relation) (fsm : list BlockNumber) : Relation :=
  mkRelation (rd_natts index) (rd_hashproc index) (rd_options index)
             (rd_meta index) (rd_pages index) fsm.

Definition setMetaData (mp : MetaPage) (md : CuckooMetaPageData) : MetaPage :=
  mkMetaPage (mp_flags mp) md.

(** ** State initialisation ([ckutils.cpp]) *)

Definition makeDefaultCuckooOptions : CuckooOptions :=
  mkOptions (Z.shiftl sizeof_CuckooOptions 2) (* SET_VARSIZE *)
            DEFAULT_BITS_PER_TAG DEFAULT_TAGS_PER_BUCKET DEFAULT_MAX_KICKS.

(** [state->tagMask = (1U << state->opts.bitsPerTag) - 1]. *)
Definition computeTagMask (o : CuckooOptions) : option Z :=
  match shl_u32 1 (bitsPerTag o) with
  | Some s => Some (uint32 (s - 1))
  | None => None
  end.

(** [initCuckooState].  The options are read from the metapage (the copy
    cached in [rd_amcache] is the same record: nothing rewrites the
    options of a built index). *)
Definition initCuckooState (index : Relation) : Result CuckooState :=
  match rd_meta index with
  | None => Err ErrBadBlock
  | Some mp =>
      if Z.land (mp_flags mp) CUCKOO_META =? 0 then Err ErrNotCuckoo
      else if negb (magicNumber (mp_meta mp) =? CUCKOO_MAGIC_NUMBER)
      then Err ErrNotCuckoo
      else
        let o := opts (mp_meta mp) in
        mask <- of_option ErrUndefined (computeTagMask o) ;;
        Ok (mkState (rd_hashproc index) o (rd_natts index)
                    sizeof_CuckooTuple mask (tagsPerBucket o) (maxKicks o))
  end.

(** ** Pages ([ckutils.cpp], [cuckoo.h]) *)

(** The block size of the host build ([BLCKSZ], 8192 by default; the host
    accepts the powers of two from 1024 to 32768).  It is a compile-time
    constant of the host, hence a parameter of everything that depends on
    the page layout. *)
Class BlockSize : Type := BLCKSZ : Z.

Section Engine.

Context {blockSize : BlockSize}.

(** Number of tuple slots in the content area of a data page. *)
Definition pageCapacity : nat :=
  Z.to_nat ((BLCKSZ - MAXALIGN SizeOfPageHeaderData
             - MAXALIGN sizeof_CuckooPageOpaqueData) / sizeof_CuckooTuple).

(** [sizeof(CuckooFreeBlockArray) / sizeof(BlockNumber)]. *)
Definition CuckooMetaBlockN : Z :=
  MAXALIGN_DOWN (BLCKSZ - SizeOfPageHeaderData
                 - MAXALIGN sizeof_CuckooPageOpaqueData
                 - MAXALIGN (2 * 2 + 4 + sizeof_CuckooOptions))
  / sizeof_BlockNumber.

(** [CuckooPageGetFreeSpace]: the arithmetic is carried out in [Size]
    (unsigned 64-bit). *)
Definition CuckooPageGetFreeSpace (state : CuckooState) (page : Page) : Z :=
  uint64 (BLCKSZ - MAXALIGN SizeOfPageHeaderData
          - CuckooPageGetMaxOffset page * sizeOfCuckooTuple state
          - MAXALIGN sizeof_CuckooPageOpaqueData).

(** Byte offset, from the start of the page, of the slot at [offset]. *)
Definition tupleLocation (state : CuckooState) (offset : Z) : Z :=
  MAXALIGN SizeOfPageHeaderData + sizeOfCuckooTuple state * (offset - 1).

Definition CuckooPageAddItem (state : CuckooState) (page : Page)
    (tuple : CuckooTuple) : bool * Page :=
  if CuckooPageGetFreeSpace state page <? sizeOfCuckooTuple state then
    (false, page)
  else
    let items' := <[Z.to_nat (maxoff page + 1 - 1) := tuple]> (items page) in
    let maxoff' := uint16 (maxoff page + 1) in
    (true,
     mkPage (uint16 (tupleLocation state (maxoff' + 1)))
            (pd_upper page) (pd_special page) maxoff' (flags page)
            (cuckoo_page_id page) items').

(** A block as the host hands it out when the relation is extended: all
    zero bytes. *)
Definition zeroPage : Page :=
  mkPage 0 0 0 0 0 0 (replicate pageCapacity zeroTuple).

(** [CuckooInitPage]: [PageInit(page, BLCKSZ, sizeof(CuckooPageOpaqueData))]
    zeroes the page and sets [pd_lower], [pd_upper] and [pd_special]; then
    the opaque fields are filled in. *)
Definition CuckooInitPage (flags : Z) : Page :=
  let special := BLCKSZ - MAXALIGN sizeof_CuckooPageOpaqueData in
  mkPage SizeOfPageHeaderData special special 0 flags CUCKOO_PAGE_ID
         (replicate pageCapacity zeroTuple).

(** [CuckooFillMetapage]: the page is initialised with the [CUCKOO_META]
    flag, the metadata is zeroed, then stamped with the magic number and
    the options. *)
Definition CuckooFillMetapage (index : Relation) : MetaPage :=
  let o := match rd_options index with
           | Some o => o
           | None => makeDefaultCuckooOptions
           end in
  mkMetaPage CUCKOO_META
    (mkMeta CUCKOO_MAGIC_NUMBER 0 0 o
            (replicate (Z.to_nat CuckooMetaBlockN) 0)).

(** [CuckooInitMetapage] extends the relation by one block and asserts
    that it is block 0: it runs on a relation of zero blocks, which has
    exactly the metapage afterwards. *)
Definition CuckooInitMetapage (index : Relation) : Relation :=
  mkRelation (rd_natts index) (rd_hashproc index) (rd_options index)
             (Some (CuckooFillMetapage index)) [] (rd_fsm index).

(** [CuckooNewBuffer]: candidates are taken from the free-space map
    ([GetFreeIndexPage] removes the block it returns) until one is a new
    or deleted page; otherwise the relation is extended by a zero page.
    (With one backend at a time [ConditionalLockBuffer] always succeeds.) *)
Fixpoint newBufferFromFsm (index : Relation) (fsm : list BlockNumber)
    : Result (option BlockNumber * list BlockNumber) :=
  match fsm with
  | [] => Ok (None, [])
  | blkno :: rest =>
      page <- readPage index blkno ;;
      if PageIsNew page then Ok (Some blkno, rest)
      else if CuckooPageIsDeleted page then Ok (Some blkno, rest)
      else newBufferFromFsm index rest
  end.

Definition CuckooNewBuffer (index : Relation)
    : Result (BlockNumber * Relation) :=
  r <- newBufferFromFsm index (rd_fsm index) ;;
  match r with
  | (Some blkno, rest) => Ok (blkno, setFsm index rest)
  | (None, rest) =>
      let blkno := RelationGetNumberOfBlocks index in
      Ok (blkno,
          mkRelation (rd_natts index) (rd_hashproc index) (rd_options index)
                     (rd_meta index) (rd_pages index ++ [zeroPage]) rest)
  end.

(** ** Insertion and build ([ckinsert.cpp]) *)

(** "Handle recently deleted pages": a new or deleted page taken from the
    free list is re-initialised before the append. *)
Definition reinitIfUnused (page : Page) : Page :=
  if PageIsNew page || CuckooPageIsDeleted page then CuckooInitPage 0
  else page.

Definition setNStart (mp : MetaPage) (n : Z) : MetaPage :=
  let md := mp_meta mp in
  setMetaData mp (mkMeta (magicNumber md) n (nEnd md) (opts md)
                         (notFullPage md)).

(** The last part of [ckinsert]: "No space in existing pages, allocate a
    new one", then reset the free list to that page alone. *)
Definition insertNewPage (state : CuckooState) (index : Relation)
    (mp : MetaPage) (itup : CuckooTuple) : Result Relation :=
  r <- CuckooNewBuffer index ;;
  let '(blkno, index1) := r in
  match CuckooPageAddItem state (CuckooInitPage 0) itup with
  | (false, _) => Err ErrEmptyPageFull
  | (true, page') =>
      let md := mp_meta mp in
      let md' := mkMeta (magicNumber md) 0 1 (opts md)
                        (<[0%nat := blkno]> (notFullPage md)) in
      Ok (writeMeta (writePage index1 blkno page') (setMetaData mp md'))
  end.

(** The [for (;;)] loop of [ckinsert] over the remaining free-list
    entries; [fuel] bounds the number of iterations, [nStart] is the local
    walk position (an [OffsetNumber]). *)
Fixpoint insertSlowLoop (fuel : nat) (state : CuckooState) (index : Relation)
    (mp : MetaPage) (itup : CuckooTuple) (nStart : Z) : Result Relation :=
  if nStart >=? nEnd (mp_meta mp) then insertNewPage state index mp itup
  else
    match fuel with
    | O => insertNewPage state index mp itup
    | S fuel' =>
        blkno <- of_option ErrUndefined
                   (notFullPage (mp_meta mp) !! Z.to_nat nStart) ;;
        page <- readPage index blkno ;;
        match CuckooPageAddItem state (reinitIfUnused page) itup with
        | (true, page') =>
            Ok (writeMeta (writePage index blkno page') (setNStart mp nStart))
        | (false, _) =>
            insertSlowLoop fuel' state index mp itup (uint16 (nStart + 1))
        end
    end.

(** The slow path: skip the first entry when the fast path already tried
    it, then walk the rest. *)
Definition insertSlowPath (state : CuckooState) (index : Relation)
    (mp : MetaPage) (itup : CuckooTuple) (blkno : BlockNumber)
    : Result Relation :=
  let md := mp_meta mp in
  let nStart0 := nStart md in
  let tried :=
    (nStart0 <? nEnd md)
    && match notFullPage md !! Z.to_nat nStart0 with
       | Some b => blkno =? b
       | None => false
       end in
  let nStart1 := if tried then uint16 (nStart0 + 1) else nStart0 in
  insertSlowLoop (Z.to_nat (nEnd md - nStart1)) state index mp itup nStart1.

Definition ckinsert (index : Relation) (values : list Datum)
    (isnull : list bool) (ht_ctid : ItemPointerData) : Result Relation :=
  state <- initCuckooState index ;;
  let itup := CuckooFormTuple state ht_ctid values isnull in
  mp <- of_option ErrBadBlock (rd_meta index) ;;
  let md := mp_meta mp in
  if nEnd md >? nStart md then
    blkno <- of_option ErrUndefined (notFullPage md !! Z.to_nat (nStart md)) ;;
    page <- readPage index blkno ;;
    match CuckooPageAddItem state (reinitIfUnused page) itup with
    | (true, page') => Ok (writePage index blkno page')
    | (false, _) => insertSlowPath state index mp itup blkno
    end
  else insertSlowPath state index mp itup InvalidBlockNumber.

(** Serial build.  [CuckooBuildState]: the cached page, the number of
    tuples on it and the running total. *)
Record CuckooBuildState : Type := mkBuildState {
  ckstate : CuckooState;
  indtuples : Z;
  data : Page;
  count : Z
}.

(** A heap row handed to the build callback. *)
Record HeapRow : Type := mkHeapRow {
  row_tid : ItemPointerData;
  row_values : list Datum;
  row_isnull : list bool
}.

Definition flushCachedPage (index : Relation) (buildstate : CuckooBuildState)
    : Result Relation :=
  r <- CuckooNewBuffer index ;;
  let '(blkno, index1) := r in
  Ok (writePage index1 blkno (data buildstate)).

Definition initCachedPage (buildstate : CuckooBuildState) : CuckooBuildState :=
  mkBuildState (ckstate buildstate) (indtuples buildstate)
               (CuckooInitPage 0) 0.

Definition cuckooBuildCallback (index : Relation) (row : HeapRow)
    (buildstate : CuckooBuildState) : Result (Relation * CuckooBuildState) :=
  let itup := CuckooFormTuple (ckstate buildstate) (row_tid row)
                              (row_values row) (row_isnull row) in
  match CuckooPageAddItem (ckstate buildstate) (data buildstate) itup with
  | (true, page') =>
      Ok (index,
          mkBuildState (ckstate buildstate) (indtuples buildstate + 1)
                       page' (count buildstate + 1))
  | (false, _) =>
      index1 <- flushCachedPage index buildstate ;;
      let bs1 := initCachedPage buildstate in
      match CuckooPageAddItem (ckstate bs1) (data bs1) itup with
      | (false, _) => Err ErrEmptyPageFull
      | (true, page') =>
          Ok (index1,
              mkBuildState (ckstate bs1) (indtuples bs1 + 1)
                           page' (count bs1 + 1))
      end
  end.

(** [table_index_build_scan]: the callback is run on every heap row. *)
Fixpoint buildScan (index : Relation) (rows : list HeapRow)
    (buildstate : CuckooBuildState) : Result (Relation * CuckooBuildState) :=
  match rows with
  | [] => Ok (index, buildstate)
  | row :: rest =>
      r <- cuckooBuildCallback index row buildstate ;;
      buildScan (fst r) rest (snd r)
  end.

(** [ckbuild] (serial path): returns the built relation and
    [index_tuples]. *)
Definition ckbuild (heap : list HeapRow) (index : Relation)
    : Result (Relation * Z) :=
  if negb (RelationGetNumberOfBlocks index =? 0) then
    Err ErrAlreadyContainsData
  else
    let index0 := CuckooInitMetapage index in
    state <- initCuckooState index0 ;;
    let bs0 := initCachedPage (mkBuildState state 0 zeroPage 0) in
    r <- buildScan index0 heap bs0 ;;
    let '(index1, bs1) := r in
    if count bs1 >? 0 then
      index2 <- flushCachedPage index1 bs1 ;;
      Ok (index2, indtuples bs1)
    else Ok (index1, indtuples bs1).

(** ** Scans ([ckscan.cpp]) *)

(** The data blocks a full walk visits: blocks [CUCKOO_HEAD_BLKNO] up to
    [RelationGetNumberOfBlocks]. *)
Definition dataBlocks (index : Relation) : list Page :=
  match rd_meta index with
  | None => []
  | Some _ => rd_pages index
  end.

(** [ckbeginscan].  [RelationGetIndexScan] allocates [nkeys] scan keys and
    leaves them uninitialised: [keyData0] is whatever they hold. *)
Definition ckbeginscan (r : Relation) (nkeys : nat)
    (keyData0 : list ScanKeyData) : Result IndexScanDescData :=
  state <- initCuckooState r ;;
  Ok (mkScan nkeys keyData0 (mkScanOpaque 0 false state)).

(** [ckrescan]: the cached fingerprint is invalidated and, when keys are
    passed, [numberOfKeys] of them are copied over the stored ones. *)
Definition ckrescan (scan : IndexScanDescData)
    (scankey : option (list ScanKeyData)) : IndexScanDescData :=
  let so := opaque scan in
  let so' := mkScanOpaque (so_fingerprint so) false (so_state so) in
  let n := numberOfKeys scan in
  match scankey with
  | Some keys =>
      if (0 <? Z.of_nat n)
      then mkScan n (take n keys ++ drop n (keyData scan)) so'
      else mkScan n (keyData scan) so'
  | None => mkScan n (keyData scan) so'
  end.

Definition ckendscan (scan : IndexScanDescData) : IndexScanDescData := scan.

(** "Fill in values from scan keys": [None] is the early [return 0] on a
    key flagged [SK_ISNULL].  A key whose attribute number is outside
    [1..nColumns] would be written outside the two arrays, which are then
    left as they are. *)
Fixpoint fillScanKeys (ncols : nat) (skey : list ScanKeyData)
    (values : list Datum) (isnull : list bool)
    : option (list Datum * list bool) :=
  match skey with
  | [] => Some (values, isnull)
  | k :: rest =>
      if negb (Z.land (sk_flags k) SK_ISNULL =? 0) then None
      else
        let attno := sk_attno k - 1 in
        if (0 <=? attno) && (attno <? Z.of_nat ncols) then
          fillScanKeys ncols rest
                       (<[Z.to_nat attno := sk_argument k]> values)
                       (<[Z.to_nat attno := false]> isnull)
        else fillScanKeys ncols rest values isnull
  end.

(** The inner loop of [ckgetbitmap] over the offsets of one page. *)
Fixpoint scanTuples (fp : Z) (page : Page) (offset : Z) (n : nat)
    (acc : TIDBitmap * Z) : TIDBitmap * Z :=
  match n with
  | O => acc
  | S n' =>
      let itup := CuckooPageGetTuple page offset in
      let acc' := if fingerprint itup =? fp
                  then (fst acc ++ [heapPtr itup], snd acc + 1)
                  else acc in
      scanTuples fp page (offset + 1) n' acc'
  end.

(** The outer loop of [ckgetbitmap] over the data blocks. *)
Fixpoint scanPages (fp : Z) (pages : list Page) (acc : TIDBitmap * Z)
    : TIDBitmap * Z :=
  match pages with
  | [] => acc
  | page :: rest =>
      let acc' :=
        if negb (PageIsNew page) && negb (CuckooPageIsDeleted page)
        then scanTuples fp page 1
                        (Z.to_nat (CuckooPageGetMaxOffset page)) acc
        else acc in
      scanPages fp rest acc'
  end.

(** [ckgetbitmap]: the number of matches, the bitmap and the scan
    descriptor (whose cached fingerprint may have been filled in). *)
Definition ckgetbitmap (index : Relation) (scan : IndexScanDescData)
    (tbm : TIDBitmap) : Z * TIDBitmap * IndexScanDescData :=
  let so := opaque scan in
  let cached :=
    if fingerprintValid so then Some so
    else
      let ncols := nColumns (so_state so) in
      match fillScanKeys ncols (take (numberOfKeys scan) (keyData scan))
                         (replicate ncols 0) (replicate ncols true) with
      | None => None
      | Some (values, isnull) =>
          Some (mkScanOpaque
                  (computeFingerprint (so_state so) values isnull)
                  true (so_state so))
      end in
  match cached with
  | None => (0, tbm, scan)
  | Some so' =>
      let '(tbm', ntids) :=
        scanPages (so_fingerprint so') (dataBlocks index) (tbm, 0) in
      (ntids, tbm', mkScan (numberOfKeys scan) (keyData scan) so')
  end.

(** ** Vacuum ([ckvacuum.cpp]) *)

Definition IndexBulkDeleteCallback := ItemPointerData -> bool.

Definition setMaxoff (page : Page) (m : Z) : Page :=
  mkPage (pd_lower page) (pd_upper page) (pd_special page) m (flags page)
         (cuckoo_page_id page) (items page).

Definition setItems (page : Page) (l : list CuckooTuple) : Page :=
  mkPage (pd_lower page) (pd_upper page) (pd_special page) (maxoff page)
         (flags page) (cuckoo_page_id page) l.

Definition setPdLower (page : Page) (l : Z) : Page :=
  mkPage l (pd_upper page) (pd_special page) (maxoff page) (flags page)
         (cuckoo_page_id page) (items page).

(** The [while (itup < itupEnd)] loop of [ckbulkdelete] on the working
    image of a page: [itup] and [itupPtr] are slot indices (from 0), [n]
    is the number of slots still to examine, [removed] is
    [stats->tuples_removed]. *)
Fixpoint vacuumLoop (callback : IndexBulkDeleteCallback) (n : nat)
    (page : Page) (itup itupPtr : nat) (removed : Z)
    : Page * nat * nat * Z :=
  match n with
  | O => (page, itup, itupPtr, removed)
  | S n' =>
      let t := default zeroTuple (items page !! itup) in
      if callback (heapPtr t) then
        vacuumLoop callback n' (setMaxoff page (uint16 (maxoff page - 1)))
                   (S itup) itupPtr (removed + 1)
      else
        let page' :=
          if negb (Nat.eqb itupPtr itup)
          then setItems page (<[itupPtr := t]> (items page))
          else page in
        vacuumLoop callback n' page' (S itup) (S itupPtr) removed
  end.

(** One iteration of the page loop of [ckbulkdelete]: the committed image
    of the page, the local [notFullPage] array (its length is
    [countPage]) and [tuples_removed]. *)
Definition bulkDeletePage (state : CuckooState)
    (callback : IndexBulkDeleteCallback) (blkno : BlockNumber) (page : Page)
    (notFull : list BlockNumber) (removed : Z)
    : Page * list BlockNumber * Z :=
  if PageIsNew page || CuckooPageIsDeleted page then (page, notFull, removed)
  else
    let '(work, itup, itupPtr, removed') :=
      vacuumLoop callback (Z.to_nat (CuckooPageGetMaxOffset page)) page
                 0%nat 0%nat removed in
    let notFull' :=
      if negb (CuckooPageGetMaxOffset work =? 0)
         && (CuckooPageGetFreeSpace state work >=? sizeOfCuckooTuple state)
         && (Z.of_nat (length notFull) <? CuckooMetaBlockN)
      then notFull ++ [blkno] else notFull in
    if negb (Nat.eqb itupPtr itup) then
      let work1 := if CuckooPageGetMaxOffset work =? 0
                   then CuckooPageSetDeleted work else work in
      let work2 :=
        setPdLower work1
          (uint16 (tupleLocation state (Z.of_nat itupPtr + 1))) in
      (work2, notFull', removed')
    else (page, notFull', removed').

Fixpoint bulkDeletePages (state : CuckooState)
    (callback : IndexBulkDeleteCallback) (blkno : BlockNumber)
    (pages : list Page) (notFull : list BlockNumber) (removed : Z)
    : list Page * list BlockNumber * Z :=
  match pages with
  | [] => ([], notFull, removed)
  | page :: rest =>
      let '(page', notFull', removed') :=
        bulkDeletePage state callback blkno page notFull removed in
      let '(rest', notFull'', removed'') :=
        bulkDeletePages state callback (blkno + 1) rest notFull' removed' in
      (page' :: rest', notFull'', removed'')
  end.

(** [ckbulkdelete]: [stats] is [None] for a [NULL] argument, otherwise the
    [tuples_removed] carried over; the result is the relation and the
    updated [tuples_removed]. *)
Definition ckbulkdelete (index : Relation) (stats : option Z)
    (callback : IndexBulkDeleteCallback) : Result (Relation * Z) :=
  let removed0 := default 0 stats in
  state <- initCuckooState index ;;
  mp <- of_option ErrBadBlock (rd_meta index) ;;
  let '(pages', notFull, removed) :=
    bulkDeletePages state callback CUCKOO_HEAD_BLKNO (rd_pages index)
                    [] removed0 in
  let md := mp_meta mp in
  let countPage := length notFull in
  let md' := mkMeta (magicNumber md) 0 (uint16 (Z.of_nat countPage)) (opts md)
                    (notFull ++ drop countPage (notFullPage md)) in
  Ok (mkRelation (rd_natts index) (rd_hashproc index) (rd_options index)
                 (Some (setMetaData mp md')) pages' (rd_fsm index),
      removed).

(** The statistics [ckvacuumcleanup] reports. *)
Record CleanupStats : Type := mkCleanupStats {
  num_pages : Z;
  pages_free : Z;
  num_index_tuples : Z
}.

Fixpoint cleanupPages (blkno : BlockNumber) (pages : list Page)
    (fsm : list BlockNumber) (free tuples : Z)
    : list BlockNumber * Z * Z :=
  match pages with
  | [] => (fsm, free, tuples)
  | page :: rest =>
      if PageIsNew page || CuckooPageIsDeleted page
      then cleanupPages (blkno + 1) rest (fsm ++ [blkno]) (free + 1) tuples
      else cleanupPages (blkno + 1) rest fsm free
                        (tuples + CuckooPageGetMaxOffset page)
  end.

(** [ckvacuumcleanup]: free pages are recorded in the free-space map
    ([RecordFreeIndexPage]); [None] when only [ANALYZE] statistics are
    requested and no statistics were passed in. *)
Definition ckvacuumcleanup (index : Relation) (analyze_only : bool)
    (stats : option CleanupStats) : Relation * option CleanupStats :=
  if analyze_only then (index, stats)
  else
    let '(fsm', free, tuples) :=
      cleanupPages CUCKOO_HEAD_BLKNO (dataBlocks index) (rd_fsm index) 0 0 in
    (setFsm index fsm',
     Some (mkCleanupStats (RelationGetNumberOfBlocks index) free tuples)).

(** ** Sequences of operations on a built index *)

Inductive Op : Type :=
| OpInsert (values : list Datum) (isnull : list bool)
           (ht_ctid : ItemPointerData)
| OpBulkDelete (callback : IndexBulkDeleteCallback)
| OpVacuumCleanup.

Definition applyOp (index : Relation) (op : Op) : Result Relation :=
  match op with
  | OpInsert values isnull ht_ctid => ckinsert index values isnull ht_ctid
  | OpBulkDelete callback =>
      r <- ckbulkdelete index None callback ;; Ok (fst r)
  | OpVacuumCleanup => Ok (fst (ckvacuumcleanup index false None))
  end.

Fixpoint runOps (index : Relation) (ops : list Op) : Result Relation :=
  match ops with
  | [] => Ok index
  | op :: rest => index' <- applyOp index op ;; runOps index' rest
  end.

(** ** Cost model ([ckcost.cpp]) *)

(** IEEE 754 binary64, through the standard library's executable
    specification of the format ([SpecFloat]). *)
Definition prec : Z := 53.
Definition emax : Z := 1024.
Definition double := spec_float.

(** Conversion of an integer to [double] ([(double)n], [2.0 * n]). *)
Definition double_of_Z (z : Z) : double := binary_normalize prec emax z 0 false.

(** The literals [1.0] and [0.0001]; the latter is the binary64 number
    with bit pattern [0x3F1A36E2EB1C432D]. *)
Definition double_1_0 : double := S754_finite false 4503599627370496 (-52).
Definition double_0_0001 : double := S754_finite false 0x1A36E2EB1C432D (-66).

Definition calculateFalsePositiveRate (bitsPerTag tagsPerBucket : Z)
    : option double :=
  match shl_u64 1 bitsPerTag with
  | None => None
  | Some d =>
      let denominator := double_of_Z d in
      let fpr := SFdiv prec emax
                   (SFmul prec emax (double_of_Z 2) (double_of_Z tagsPerBucket))
                   denominator in
      let fpr := if SFltb double_1_0 fpr then double_1_0 else fpr in
      let fpr := if SFltb fpr double_0_0001 then double_0_0001 else fpr in
      Some fpr
  end.

(** The rational number a finite [double] denotes. *)
Definition double_value (f : double) : option Q :=
  match f with
  | S754_zero _ => Some 0%Q
  | S754_finite s m e =>
      Some (inject_Z (if s then Z.neg m else Z.pos m) * Qpower 2 e)%Q
  | _ => None
  end.

(** The formula of the cost hint over the rationals:
    [(2 * tagsPerBucket) / 2^bitsPerTag]. *)
Definition fprFormula (bitsPerTag tagsPerBucket : Z) : Q :=
  (inject_Z (2 * tagsPerBucket) / inject_Z (2 ^ bitsPerTag))%Q.

(** Clamping to an interval [lo, hi]. *)
Definition Qclamp (lo hi q : Q) : Q :=
  if Qle_bool q hi then (if Qle_bool lo q then q else lo) else hi.

(** Structural equality of two [double]s. *)
Definition double_eqb (x y : double) : bool :=
  match x, y with
  | S754_zero s, S754_zero s' => Bool.eqb s s'
  | S754_infinity s, S754_infinity s' => Bool.eqb s s'
  | S754_nan, S754_nan => true
  | S754_finite s m e, S754_finite s' m' e' =>
      Bool.eqb s s' && Pos.eqb m m' && Z.eqb e e'
  | _, _ => false
  end.

(** The integers [lo, lo + 1, ...], [n] of them. *)
Definition zrange (lo : Z) (n : nat) : list Z :=
  map (fun i => lo + Z.of_nat i) (seq 0 n).

(** The check of the cost hint at one pair of options: the computed
    [double] denotes the formula's value clamped to [0.0001, 1] when that
    value is at least 0.0001, and is the literal [0.0001] otherwise. *)
Definition fprCheck (bitsPerTag tagsPerBucket : Z) : bool :=
  match calculateFalsePositiveRate bitsPerTag tagsPerBucket with
  | Some r =>
      match double_value r with
      | Some v =>
          let q := fprFormula bitsPerTag tagsPerBucket in
          if Qle_bool (1 # 10000) q
          then Qeq_bool v (Qclamp (1 # 10000) 1 q)
          else double_eqb r double_0_0001
      | None => false
      end
  | None => false
  end.

(** ** Predicates used in the statements *)

(** A state as [initCuckooState] leaves it: tuples have their C size. *)
Definition state_ok (state : CuckooState) : Prop :=
  sizeOfCuckooTuple state = sizeof_CuckooTuple.

(** The page is in use: neither new nor flagged deleted. *)
Definition pageLive (page : Page) : bool :=
  negb (PageIsNew page) && negb (CuckooPageIsDeleted page).

(** The content area has its [pageCapacity] slots and the live count is
    within it. *)
Definition page_wf (page : Page) : Prop :=
  length (items page) = pageCapacity /\
  0 <= maxoff page <= Z.of_nat pageCapacity.

(** Every data block has its slots, and the blocks in use have a live
    count within the capacity. *)
Definition pagesWf (pages : list Page) : Prop :=
  forall page, page ∈ pages ->
    length (items page) = pageCapacity /\
    (pageLive page = true -> 0 <= maxoff page <= Z.of_nat pageCapacity).

Definition relation_wf (index : Relation) : Prop := pagesWf (rd_pages index).

(** Tuple [t] is stored: it is among the live tuples of a data block in
    use. *)
Definition storedIn (pages : list Page) (t : CuckooTuple) : Prop :=
  exists page, page ∈ pages /\ pageLive page = true /\ t ∈ liveTuples page.

Definition stored (index : Relation) (t : CuckooTuple) : Prop :=
  storedIn (dataBlocks index) t.

(** The tuples a full walk sees: the live tuples of the data blocks in
    use, in block order. *)
Definition storedTuples (index : Relation) : list CuckooTuple :=
  flat_map (fun page => if pageLive page then liveTuples page else [])
           (dataBlocks index).

(** The row locators of the tuples carrying fingerprint [fp]. *)
Definition matching (fp : Z) (l : list CuckooTuple) : list ItemPointerData :=
  map heapPtr (List.filter (fun t => fingerprint t =? fp) l).

(** A scan key flagged [SK_ISNULL]. *)
Definition keyIsNull (k : ScanKeyData) : bool :=
  negb (Z.land (sk_flags k) SK_ISNULL =? 0).

(** The scan descriptors the access-method interface can produce: made by
    [ckbeginscan], then passed through [ckrescan], [ckgetbitmap] and
    [ckendscan] in any order. *)
Inductive scanReachable : IndexScanDescData -> Prop :=
| reach_begin r nkeys keyData0 scan :
    ckbeginscan r nkeys keyData0 = Ok scan -> scanReachable scan
| reach_rescan scan scankey :
    scanReachable scan -> scanReachable (ckrescan scan scankey)
| reach_getbitmap index scan tbm :
    scanReachable scan -> scanReachable (snd (ckgetbitmap index scan tbm))
| reach_endscan scan :
    scanReachable scan -> scanReachable (ckendscan scan).

(** A cached fingerprint is the one of the keys the descriptor holds. *)
Definition scanInv (scan : IndexScanDescData) : Prop :=
  fingerprintValid (opaque scan) = true ->
  exists values isnull,
    fillScanKeys (nColumns (so_state (opaque scan)))
                 (take (numberOfKeys scan) (keyData scan))
                 (replicate (nColumns (so_state (opaque scan))) 0)
                 (replicate (nColumns (so_state (opaque scan))) true)
    = Some (values, isnull) /\
    so_fingerprint (opaque scan)
    = computeFingerprint (so_state (opaque scan)) values isnull.

(** The tuples of [l] whose row the callback does not report dead. *)
Definition survivors (callback : IndexBulkDeleteCallback)
    (l : list CuckooTuple) : list CuckooTuple :=
  List.filter (fun t => negb (callback (heapPtr t))) l.

(** The number of tuples the callback reports dead on the pages in use. *)
Fixpoint droppedTotal (callback : IndexBulkDeleteCallback)
    (pages : list Page) : Z :=
  match pages with
  | [] => 0
  | page :: rest =>
      (if pageLive page
       then maxoff page
            - Z.of_nat (length (survivors callback (liveTuples page)))
       else 0)
      + droppedTotal callback rest
  end.

(** The free-list entries between [nStart] and [nEnd]. *)
Definition freeListEntries (md : CuckooMetaPageData) : list BlockNumber :=
  drop (Z.to_nat (nStart md)) (take (Z.to_nat (nEnd md)) (notFullPage md)).

(** A free-list entry references a page with room for one more tuple. *)
Definition hasRoom (state : CuckooState) (index : Relation)
    (blkno : BlockNumber) : Prop :=
  exists page, readPage index blkno = Ok page /\
               sizeOfCuckooTuple state <= CuckooPageGetFreeSpace state page.

(** The non-null columns' hashes, in column order, from column [i] on. *)
Fixpoint nonNullHashes (state : CuckooState) (values : list Datum)
    (isnull : list bool) (i n : nat) : list Z :=
  match n with
  | O => []
  | S n' =>
      (if default true (isnull !! i) then []
       else [uint32 (hashFn state i (default 0 (values !! i)))])
      ++ nonNullHashes state values isnull (S i) n'
  end.

(** The accumulator as the specification words it: starting from 0, one
    round per non-null column: XOR with the column hash, multiply by
    [0x5bd1e995], XOR with the right shift by 15. *)
Definition specAccumulator (hashes : list Z) : Z :=
  fold_left
    (fun acc h =>
       let x := uint32 (Z.lxor acc h * 0x5bd1e995) in
       Z.lxor x (Z.shiftr x 15))
    hashes 0.

(** Zero is reserved: a zero tag is forced to 1. *)
Definition forceNonZero (fp : Z) : Z := if fp =? 0 then 1 else fp.

(** Every free-list entry of the metapage references a page with at least
    one tuple's worth of free space. *)
Definition freeListHasRoom (index : Relation) : Prop :=
  forall state mp, initCuckooState index = Ok state ->
    rd_meta index = Some mp ->
    forall blkno, blkno ∈ freeListEntries (mp_meta mp) ->
      hasRoom state index blkno.

Definition insertOrBulkDelete (op : Op) : bool :=
  match op with
  | OpInsert _ _ _ => true
  | OpBulkDelete _ => true
  | OpVacuumCleanup => false
  end.

(** The states an index goes through: built by [ckbuild], then any
    sequence of inserts and bulk deletes. *)
Definition reachable (index : Relation) : Prop :=
  exists heap index0 built ntuples ops,
    ckbuild heap index0 = Ok (built, ntuples) /\
    forallb insertOrBulkDelete ops = true /\
    runOps built ops = Ok index.

(** The page a free-list entry names has no room for a tuple. *)
Definition entryIsFull (state : CuckooState) (index : Relation)
    (blkno : BlockNumber) : bool :=
  match readPage index blkno with
  | Ok page => CuckooPageGetFreeSpace state page <? sizeOfCuckooTuple state
  | Err _ => true
  end.

(** The part of the metapage that no operation rewrites: the opaque
    flags, the magic number and the option record. *)
Definition metaStatic (mp : MetaPage) : Z * Z * CuckooOptions :=
  (mp_flags mp, magicNumber (mp_meta mp), opts (mp_meta mp)).

(** Two relations with the same descriptor and the same static part of
    the metapage. *)
Definition sameIndex (index index' : Relation) : Prop :=
  rd_natts index' = rd_natts index /\
  rd_hashproc index' = rd_hashproc index /\
  rd_options index' = rd_options index /\
  option_map metaStatic (rd_meta index')
  = option_map metaStatic (rd_meta index).

(** How a successful [ckinsert] changes the relation: one page, taken
    from the free list or newly allocated, receives the tuple. *)
Definition insertOutcome (state : CuckooState) (index : Relation)
    (mp : MetaPage) (itup : CuckooTuple) (index' : Relation) : Prop :=
  (exists blkno page page' mp',
     readPage index blkno = Ok page /\
     CuckooPageAddItem state (reinitIfUnused page) itup = (true, page') /\
     index' = writeMeta (writePage index blkno page') mp' /\
     metaStatic mp' = metaStatic mp) \/
  (exists blkno index1 page' mp',
     CuckooNewBuffer index = Ok (blkno, index1) /\
     CuckooPageAddItem state (CuckooInitPage 0) itup = (true, page') /\
     index' = writeMeta (writePage index1 blkno page') mp' /\
     metaStatic mp' = metaStatic mp).

(** The scan keys supply the non-null column values of a row: no key is
    flagged null, every key names a column of the index on which the row
    is not null and carries the row's value for it, and every non-null
    column of the row has a key. *)
Definition keyMatchesRow (ncols : nat) (values : list Datum)
    (isnull : list bool) (k : ScanKeyData) : Prop :=
  keyIsNull k = false /\
  1 <= sk_attno k <= Z.of_nat ncols /\
  default true (isnull !! Z.to_nat (sk_attno k - 1)) = false /\
  default 0 (values !! Z.to_nat (sk_attno k - 1)) = sk_argument k.

Definition keysSupply (ncols : nat) (keys : list ScanKeyData)
    (values : list Datum) (isnull : list bool) : Prop :=
  (forall k, k ∈ keys -> keyMatchesRow ncols values isnull k) /\
  (forall j, (j < ncols)%nat -> default true (isnull !! j) = false ->
     exists k, k ∈ keys /\ sk_attno k = Z.of_nat j + 1).

(** Boolean form of [pagesWf]. *)
Definition pageWfb (page : Page) : bool :=
  Nat.eqb (length (items page)) pageCapacity
  && (negb (pageLive page)
      || ((0 <=? maxoff page) && (maxoff page <=? Z.of_nat pageCapacity))).

(** What a tuple needs to stay stored through an operation: no bulk
    delete reports its row dead. *)
Definition spares (t : CuckooTuple) (op : Op) : Prop :=
  match op with
  | OpBulkDelete callback => callback (heapPtr t) = false
  | _ => True
  end.

(** The tuples a walk sees on one page. *)
Definition visibleTuples (page : Page) : list CuckooTuple :=
  if pageLive page then liveTuples page else [].

(** The pages [ckbulkdelete] lists as not full, read off the pages it
    leaves: the blocks in use that are not empty and have room, up to the
    capacity of the array. *)
Fixpoint notFullOf (state : CuckooState) (blkno : BlockNumber)
    (pages : list Page) (acc : list BlockNumber) : list BlockNumber :=
  match pages with
  | [] => acc
  | page :: rest =>
      notFullOf state (blkno + 1) rest
        (if pageLive page
            && negb (maxoff page =? 0)
            && (CuckooPageGetFreeSpace state page >=? sizeOfCuckooTuple state)
            && (Z.of_nat (length acc) <? CuckooMetaBlockN)
         then acc ++ [blkno] else acc)
  end.

(** The metapage free list is in order: the array has its
    [CuckooMetaBlockN] entries, [nStart] and [nEnd] are within it, and the
    entries between them name data blocks of the relation. *)
Definition freeListOk (index : Relation) (mp : MetaPage) : Prop :=
  let md := mp_meta mp in
  length (notFullPage md) = Z.to_nat CuckooMetaBlockN /\
  0 <= nStart md /\ nEnd md <= CuckooMetaBlockN /\
  forall n b, nStart md <= n < nEnd md ->
    notFullPage md !! Z.to_nat n = Some b ->
    1 <= b <= Z.of_nat (length (rd_pages index)).

(** The free-space map names data blocks of the relation only. *)
Definition fsmOk (index : Relation) : Prop :=
  forall b, b ∈ rd_fsm index -> 1 <= b <= Z.of_nat (length (rd_pages index)).

(** An index in order: its pages are well formed, its metapage is a
    cuckoo metapage whose options give a defined tag mask, and the free
    list and the free-space map refer to blocks that exist. *)
Definition relation_ok (index : Relation) : Prop :=
  relation_wf index /\
  exists state mp,
    initCuckooState index = Ok state /\ rd_meta index = Some mp /\
    freeListOk index mp /\ fsmOk index.

(** The index tuple the build and [ckinsert] form from a heap row. *)
Definition formRow (state : CuckooState) (row : HeapRow) : CuckooTuple :=
  CuckooFormTuple state (row_tid row) (row_values row) (row_isnull row).

(** The state of a build after the tuples [done] were packed: the
    relation has the descriptor of [index0], the metapage [mp] and an
    empty free-space map; every page written so far is in use and full;
    together with the cached page they hold [done], in order. *)
Definition buildInv (state : CuckooState) (mp : MetaPage)
    (index0 index : Relation) (bs : CuckooBuildState)
    (done : list CuckooTuple) : Prop :=
  ckstate bs = state /\
  index = mkRelation (rd_natts index0) (rd_hashproc index0)
                     (rd_options index0) (Some mp) (rd_pages index) [] /\
  (forall p, p ∈ rd_pages index ->
     page_wf p /\ pageLive p = true /\ maxoff p = Z.of_nat pageCapacity) /\
  page_wf (data bs) /\ pageLive (data bs) = true /\
  flat_map visibleTuples (rd_pages index) ++ liveTuples (data bs) = done /\
  count bs = maxoff (data bs) /\
  (rd_pages index <> [] -> 1 <= maxoff (data bs)).

(** The block at the head of the free list holds [itup] as its last
    tuple. *)
Definition headHolds (index : Relation) (itup : CuckooTuple) : Prop :=
  exists mp blkno page,
    rd_meta index = Some mp /\
    nStart (mp_meta mp) < nEnd (mp_meta mp) /\
    notFullPage (mp_meta mp) !! Z.to_nat (nStart (mp_meta mp)) = Some blkno /\
    readPage index blkno = Ok page /\
    pageLive page = true /\
    last (liveTuples page) = Some itup.

(** Boolean form of [relation_ok]. *)
Definition inRelation (index : Relation) (b : BlockNumber) : bool :=
  (1 <=? b) && (b <=? Z.of_nat (length (rd_pages index))).

Definition relationOkb (index : Relation) : bool :=
  forallb pageWfb (rd_pages index)
  && match initCuckooState index, rd_meta index with
     | Ok _, Some mp =>
         let md := mp_meta mp in
         Nat.eqb (length (notFullPage md)) (Z.to_nat CuckooMetaBlockN)
         && (0 <=? nStart md) && (nEnd md <=? CuckooMetaBlockN)
         && forallb (inRelation index)
              (drop (Z.to_nat (nStart md))
                    (take (Z.to_nat (nEnd md)) (notFullPage md)))
         && forallb (inRelation index) (rd_fsm index)
     | _, _ => false
     end.

Definition isInsert (op : Op) : bool :=
  match op with
  | OpInsert _ _ _ => true
  | _ => false
  end.

(** The header of a data page agrees with its tuple count: [pd_lower] is
    just past the last tuple, [pd_upper] and [pd_special] are at the
    opaque area, and the page carries the cuckoo page id. *)
Definition headerOk (page : Page) : Prop :=
  pd_lower page = SizeOfPageHeaderData + sizeof_CuckooTuple * maxoff page /\
  pd_upper page = BLCKSZ - MAXALIGN sizeof_CuckooPageOpaqueData /\
  pd_special page = pd_upper page /\
  cuckoo_page_id page = CUCKOO_PAGE_ID.

Definition pagesHeaderOk (pages : list Page) : Prop :=
  forall page, page ∈ pages -> pageLive page = true -> headerOk page.

(** The two ways a row comes into an index: [ckinsert] on a well-formed
    index, or [ckbuild] over a heap that has the row. *)
Inductive rowAdded (values : list Datum) (isnull : list bool)
    (ht_ctid : ItemPointerData) : Relation -> Prop :=
| added_by_insert (index index1 : Relation) :
    relation_wf index ->
    ckinsert index values isnull ht_ctid = Ok index1 ->
    rowAdded values isnull ht_ctid index1
| added_by_build (heap : list HeapRow) (index0 built : Relation) (n : Z) :
    ckbuild heap index0 = Ok (built, n) ->
    mkHeapRow ht_ctid values isnull ∈ heap ->
    rowAdded values isnull ht_ctid built.

(** During a build a tuple is held by the relation or by the cached
    page. *)
Definition buildHolds (index : Relation) (bs : CuckooBuildState)
    (t : CuckooTuple) : Prop :=
  storedIn (rd_pages index) t \/ t ∈ liveTuples (data bs).

(** A free-list entry names a page that holds tuples and has room for one
    more. *)
Definition entryHasRoom (state : CuckooState) (index : Relation)
    (blkno : BlockNumber) : Prop :=
  exists page, readPage index blkno = Ok page /\
    maxoff page <> 0 /\
    sizeOfCuckooTuple state <= CuckooPageGetFreeSpace state page.

(** Block numbers in strictly increasing order. *)
Definition increasing (l : list BlockNumber) : Prop :=
  forall i j b c, (i < j)%nat -> l !! i = Some b -> l !! j = Some c -> b < c.

(** The free list past its head: [nStart] and [nEnd] are within the
    array, every entry after the one at [nStart] names a page with room,
    and no block is named twice from [nStart] on. *)
Definition freeListTail (state : CuckooState) (index : Relation)
    (mp : MetaPage) : Prop :=
  let md := mp_meta mp in
  0 <= nStart md /\ nEnd md <= CuckooMetaBlockN /\
  (forall n, nStart md < n < nEnd md ->
     exists blkno, notFullPage md !! Z.to_nat n = Some blkno /\
                   entryHasRoom state index blkno) /\
  (forall n m b, nStart md <= n -> n < m -> m < nEnd md ->
     notFullPage md !! Z.to_nat n = Some b ->
     notFullPage md !! Z.to_nat m = Some b -> False).

Definition freeListInv (index : Relation) : Prop :=
  relation_wf index /\
  exists state mp,
    initCuckooState index = Ok state /\ rd_meta index = Some mp /\
    freeListTail state index mp.

End Engine.

(** * A worked index at the default block size *)

(** The default build: 8192-byte blocks, 680 tuples to a data page and
    2034 entries in the free list of the metapage. *)
Definition BLCKSZ_default : BlockSize := 8192.

Section WorkedIndex.

#[local] Existing Instance BLCKSZ_default.

(** An index on one column whose hash procedure is [v -> 2654435761 * v];
    no options given, so the defaults apply. *)
Definition exRelation : Relation :=
  mkRelation 1 (fun _ v => 2654435761 * v) None None [] [].

Definition exBuilt : Relation :=
  Eval vm_compute in
    match ckbuild [] exRelation with
    | Ok (index, _) => index
    | Err _ => exRelation
    end.

Definition exState : CuckooState :=
  Eval vm_compute in
    match initCuckooState exBuilt with
    | Ok state => state
    | Err _ => mkState (fun _ v => v) makeDefaultCuckooOptions 0 0 0 0 0
    end.

Definition tid1 : ItemPointerData := mkItemPointer 0 1.
Definition tid2 : ItemPointerData := mkItemPointer 0 2.
Definition tid3 : ItemPointerData := mkItemPointer 0 3.

(** The index after the row [(42)] at [tid1] is inserted ... *)
Definition exIndex1 : Relation :=
  Eval vm_compute in
    match ckinsert exBuilt [42] [false] tid1 with
    | Ok index => index
    | Err _ => exRelation
    end.

(** ... and after more rows came, one of them was vacuumed away, and the
    free-space map was refreshed. *)
Definition exOps : list Op :=
  [ OpInsert [7] [false] tid2;
    OpBulkDelete (fun t => ip_posid t =? 2);
    OpVacuumCleanup;
    OpInsert [9] [false] tid3 ].

Definition exIndex2 : Relation :=
  Eval vm_compute in
    match runOps exIndex1 exOps with
    | Ok index => index
    | Err _ => exRelation
    end.

(** ** The theorems at the worked index *)

Definition nullKey : ScanKeyData := mkScanKey SK_ISNULL 1 0.
Definition key42 : ScanKeyData := mkScanKey 0 1 42.

Definition exScan0 : IndexScanDescData :=
  mkScan 1 [nullKey] (mkScanOpaque 0 false exState).

(** An index asked for 32-bit tags. *)
Definition exOptions32 : CuckooOptions := mkOptions 64 32 4 500.

Definition exRelation32 : Relation :=
  mkRelation 1 (fun _ v => 2654435761 * v) (Some exOptions32) None [] [].

Definition exScanBegun : IndexScanDescData :=
  mkScan 1 [key42] (mkScanOpaque 0 false exState).

(** The data page of [exIndex1]: one tuple, 679 free slots. *)
Definition exPage1 : Page :=
  Eval vm_compute in
    match rd_pages exIndex1 with
    | page :: _ => page
    | [] => zeroPage
    end.

Definition exTuple2 : CuckooTuple := CuckooFormTuple exState tid2 [7] [false].

(** [exIndex1] with a second row, then a bulk delete that is told the
    second row is dead. *)
Definition exIndex1b : Relation :=
  Eval vm_compute in
    match ckinsert exIndex1 [7] [false] tid2 with
    | Ok index => index
    | Err _ => exRelation
    end.

Definition exCallback : IndexBulkDeleteCallback := fun t => ip_posid t =? 2.

Definition exVacuumed : Relation :=
  Eval vm_compute in
    match ckbulkdelete exIndex1b None exCallback with
    | Ok (index, _) => index
    | Err _ => exRelation
    end.

Definition exMeta1 : MetaPage :=
  Eval vm_compute in
    match rd_meta exIndex1 with
    | Some mp => mp
    | None => mkMetaPage 0 (mkMeta 0 0 0 makeDefaultCuckooOptions [])
    end.

Definition exKeylessScan : IndexScanDescData :=
  mkScan 0 [] (mkScanOpaque 0 false exState).

(** ** A free-list entry gone stale *)

(** 680 rows inserted one after the other into the freshly built index:
    the first insert allocates block 1 and makes it the only free-list
    entry, the other 679 take the fast path and fill the block. *)
Definition exFillOps : list Op :=
  map (fun i => OpInsert [Z.of_nat i] [false] (mkItemPointer 0 (Z.of_nat i)))
      (seq 1 680).

Definition exFilled : Relation :=
  Eval vm_compute in
    match runOps exBuilt exFillOps with
    | Ok index => index
    | Err _ => exRelation
    end.

Definition exFilledMeta : MetaPage :=
  Eval vm_compute in
    match rd_meta exFilled with
    | Some mp => mp
    | None => mkMetaPage 0 (mkMeta 0 0 0 makeDefaultCuckooOptions [])
    end.

(** ** A heap to build from, and a vacuumed index to insert into *)

(** Three rows; the first and the third have the same value. *)
Definition exHeap : list HeapRow :=
  [ mkHeapRow tid1 [42] [false];
    mkHeapRow tid2 [7] [false];
    mkHeapRow tid3 [42] [false] ].

Definition exBuiltHeap : Relation :=
  Eval vm_compute in
    match ckbuild exHeap exRelation with
    | Ok (index, _) => index
    | Err _ => exRelation
    end.

(** [exIndex1] after [CuckooNewBuffer]: its free-space map is empty, so
    the relation was extended. *)
Definition exExtended : Relation :=
  Eval vm_compute in
    match CuckooNewBuffer exIndex1 with
    | Ok (_, index) => index
    | Err _ => exRelation
    end.

(** The data page of [exVacuumed]: one tuple left. *)
Definition exPageVacuumed : Page :=
  Eval vm_compute in
    match rd_pages exVacuumed with
    | page :: _ => page
    | [] => zeroPage
    end.

(** [exVacuumed] after the clean-up and one more insert. *)
Definition exReused : Relation :=
  Eval vm_compute in
    match ckinsert (fst (ckvacuumcleanup exVacuumed false None))
                   [9] [false] tid3 with
    | Ok index => index
    | Err _ => exRelation
    end.

(** The data page of [exIndex1b], two tuples, and its working image
    after the compaction loop of [ckbulkdelete] under [exCallback]. *)
Definition exPage1b : Page :=
  Eval vm_compute in
    match rd_pages exIndex1b with
    | page :: _ => page
    | [] => zeroPage
    end.

Definition exPageWork : Page :=
  Eval vm_compute in
    fst (fst (fst (vacuumLoop exCallback 2 exPage1b 0 0 0))).

(** The index built from [exHeap] after the operations [exOps]. *)
Definition exIndexHeap2 : Relation :=
  Eval vm_compute in
    match runOps exBuiltHeap exOps with
    | Ok index => index
    | Err _ => exRelation
    end.

(** ** A free list of two entries with a stale head *)

(** [exFillOps], then a 681st row (it opens block 2), a bulk delete that
    is told row 5 is dead (both blocks then have room and are listed),
    and one more row, which fills block 1 again. *)
Definition exTailOps : list Op :=
  exFillOps
  ++ [ OpInsert [681] [false] (mkItemPointer 0 681);
       OpBulkDelete (fun t => ip_posid t =? 5);
       OpInsert [682] [false] (mkItemPointer 0 682) ].

Definition exTail : Relation :=
  Eval vm_compute in
    match runOps exBuilt exTailOps with
    | Ok index => index
    | Err _ => exRelation
    end.

End WorkedIndex.

(** * Properties *)

Section EngineProperties.

Context {blockSize : BlockSize}.
Hypothesis BLCKSZ_range : 1024 <= BLCKSZ <= 32768.

(** ** Arithmetic of the layout *)

Lemma MAXALIGN_header : MAXALIGN SizeOfPageHeaderData = 24.
Proof. reflexivity. Qed.

Lemma MAXALIGN_opaque : MAXALIGN sizeof_CuckooPageOpaqueData = 8.
Proof. reflexivity. Qed.

Lemma pageCapacity_eq : Z.of_nat pageCapacity = (BLCKSZ - 32) / 12.
Proof using BLCKSZ_range.
  unfold pageCapacity. rewrite MAXALIGN_header, MAXALIGN_opaque.
  unfold sizeof_CuckooTuple. rewrite Z2Nat.id.
  - f_equal. lia.
  - apply Z.div_pos; lia.
Qed.

Lemma pageCapacity_bounds :
  82 <= Z.of_nat pageCapacity <= 2728 /\
  12 * Z.of_nat pageCapacity <= BLCKSZ - 32.
Proof using BLCKSZ_range.
  rewrite pageCapacity_eq.
  assert (992 / 12 <= (BLCKSZ - 32) / 12) by (apply Z.div_le_mono; lia).
  assert ((BLCKSZ - 32) / 12 <= 32736 / 12) by (apply Z.div_le_mono; lia).
  change (992 / 12) with 82 in *. change (32736 / 12) with 2728 in *.
  assert (12 * ((BLCKSZ - 32) / 12) <= BLCKSZ - 32)
    by (apply Z.mul_div_le; lia).
  lia.
Qed.

(** On a well-formed page the free-space expression does not wrap. *)
Lemma CuckooPageGetFreeSpace_wf (state : CuckooState) (page : Page) :
  state_ok state -> page_wf page ->
  CuckooPageGetFreeSpace state page = BLCKSZ - 32 - 12 * maxoff page.
Proof using BLCKSZ_range.
  intros Hs [_ Hm]. unfold CuckooPageGetFreeSpace, CuckooPageGetMaxOffset.
  rewrite Hs, MAXALIGN_header, MAXALIGN_opaque. unfold sizeof_CuckooTuple, uint64.
  pose proof pageCapacity_bounds.
  rewrite Z.mod_small; lia.
Qed.

(** Room for one tuple means the next slot exists. *)
Lemma free_space_slot (state : CuckooState) (page : Page) :
  state_ok state -> page_wf page ->
  sizeOfCuckooTuple state <= CuckooPageGetFreeSpace state page ->
  maxoff page < Z.of_nat pageCapacity.
Proof using BLCKSZ_range.
  intros Hs Hw. rewrite CuckooPageGetFreeSpace_wf by done. rewrite Hs.
  unfold sizeof_CuckooTuple. intros H.
  rewrite pageCapacity_eq.
  assert (maxoff page + 1 <= (BLCKSZ - 32) / 12)
    by (apply Z.div_le_lower_bound; lia).
  lia.
Qed.

(** ** Fingerprints *)

Lemma forceNonZero_nonzero (fp : Z) : forceNonZero fp <> 0.
Proof. unfold forceNonZero. destruct (Z.eqb_spec fp 0); lia. Qed.

Lemma computeFingerprint_force (state : CuckooState) (values : list Datum)
    (isnull : list bool) :
  computeFingerprint state values isnull
  = forceNonZero
      (Z.land (fingerprintLoop state values isnull 0 (nColumns state) 0)
              (tagMask state)).
Proof. reflexivity. Qed.

Lemma computeFingerprint_nonzero (state : CuckooState) (values : list Datum)
    (isnull : list bool) :
  computeFingerprint state values isnull <> 0.
Proof. rewrite computeFingerprint_force. apply forceNonZero_nonzero. Qed.

(** The loop with its [continue] is the fold over the non-null columns. *)
Lemma fingerprintLoop_fold (state : CuckooState) (values : list Datum)
    (isnull : list bool) (n i : nat) (hash : Z) :
  fingerprintLoop state values isnull i n hash
  = fold_left mixHash (nonNullHashes state values isnull i n) hash.
Proof.
  revert i hash. induction n as [|n IH]; intros i hash; simpl; [done|].
  destruct (default true (isnull !! i)); simpl; apply IH.
Qed.

Lemma fingerprintLoop_spec (state : CuckooState) (values : list Datum)
    (isnull : list bool) :
  fingerprintLoop state values isnull 0 (nColumns state) 0
  = specAccumulator (nonNullHashes state values isnull 0 (nColumns state)).
Proof. apply fingerprintLoop_fold. Qed.

(** The loop reads a column's value only where the column is not null. *)
Lemma fingerprintLoop_ext (state : CuckooState) (values values' : list Datum)
    (isnull isnull' : list bool) (n i : nat) (hash : Z) :
  (forall j, (i <= j < i + n)%nat ->
     default true (isnull !! j) = default true (isnull' !! j) /\
     (default true (isnull !! j) = false ->
      default 0 (values !! j) = default 0 (values' !! j))) ->
  fingerprintLoop state values isnull i n hash
  = fingerprintLoop state values' isnull' i n hash.
Proof.
  revert i hash. induction n as [|n IH]; intros i hash H; simpl; [done|].
  destruct (H i ltac:(lia)) as [Hn Hv]. rewrite <- Hn.
  destruct (default true (isnull !! i)).
  - apply IH. intros j Hj. apply H. lia.
  - rewrite <- Hv by done. apply IH. intros j Hj. apply H. lia.
Qed.

(** With every column null the loop leaves the accumulator alone. *)
Lemma fingerprintLoop_all_null (state : CuckooState) (values : list Datum)
    (isnull : list bool) (n i : nat) (hash : Z) :
  (forall j, (i <= j < i + n)%nat -> default true (isnull !! j) = true) ->
  fingerprintLoop state values isnull i n hash = hash.
Proof.
  revert i hash. induction n as [|n IH]; intros i hash H; simpl; [done|].
  rewrite (H i ltac:(lia)). apply IH. intros j Hj. apply H. lia.
Qed.

Lemma computeFingerprint_all_null (state : CuckooState) (values : list Datum)
    (isnull : list bool) :
  (forall j, (j < nColumns state)%nat -> default true (isnull !! j) = true) ->
  computeFingerprint state values isnull = 1.
Proof.
  intros H. unfold computeFingerprint.
  rewrite fingerprintLoop_all_null; [reflexivity|].
  intros j Hj. apply H. lia.
Qed.

(** The mask computed by [initCuckooState] for a tag width below 32. *)
Lemma computeTagMask_lt32 (o : CuckooOptions) :
  0 <= bitsPerTag o < 32 ->
  computeTagMask o = Some (Z.ones (bitsPerTag o)).
Proof.
  intros H. unfold computeTagMask, shl_u32.
  replace ((0 <=? bitsPerTag o) && (bitsPerTag o <? 32)) with true
    by (symmetry; apply andb_true_iff; split; [apply Z.leb_le|apply Z.ltb_lt]; lia).
  rewrite Z.shiftl_1_l, Z.ones_equiv. unfold uint32.
  assert (0 < 2 ^ bitsPerTag o <= 2 ^ 31).
  { split; [apply Z.pow_pos_nonneg; lia|apply Z.pow_le_mono_r; lia]. }
  rewrite (Z.mod_small (2 ^ bitsPerTag o)) by lia.
  rewrite Z.mod_small by lia. reflexivity.
Qed.

Lemma computeTagMask_ge32 (o : CuckooOptions) :
  32 <= bitsPerTag o -> computeTagMask o = None.
Proof.
  intros H. unfold computeTagMask, shl_u32.
  replace (bitsPerTag o <? 32) with false by (symmetry; apply Z.ltb_ge; lia).
  rewrite andb_false_r. reflexivity.
Qed.

(** What [initCuckooState] returns when it succeeds. *)
Lemma initCuckooState_Ok (index : Relation) (state : CuckooState) :
  initCuckooState index = Ok state ->
  exists mp, rd_meta index = Some mp /\
    computeTagMask (opts (mp_meta mp)) = Some (tagMask state) /\
    state_opts state = opts (mp_meta mp) /\
    hashFn state = rd_hashproc index /\
    nColumns state = rd_natts index /\
    sizeOfCuckooTuple state = sizeof_CuckooTuple.
Proof.
  unfold initCuckooState. destruct (rd_meta index) as [mp|]; [|done].
  destruct (Z.land (mp_flags mp) CUCKOO_META =? 0); [done|].
  destruct (negb (magicNumber (mp_meta mp) =? CUCKOO_MAGIC_NUMBER)); [done|].
  destruct (computeTagMask (opts (mp_meta mp))) as [m|] eqn:Hm; simpl; [|done].
  intros [= <-]. exists mp. simpl. repeat split; try reflexivity. exact Hm.
Qed.

Lemma initCuckooState_state_ok (index : Relation) (state : CuckooState) :
  initCuckooState index = Ok state -> state_ok state.
Proof.
  intros H. apply initCuckooState_Ok in H as (mp & _ & _ & _ & _ & _ & H).
  exact H.
Qed.

(** ** Appending to a page *)

Lemma CuckooPageAddItem_full (state : CuckooState) (page : Page)
    (tuple : CuckooTuple) :
  CuckooPageGetFreeSpace state page < sizeOfCuckooTuple state ->
  CuckooPageAddItem state page tuple = (false, page).
Proof.
  intros H. unfold CuckooPageAddItem.
  destruct (Z.ltb_spec (CuckooPageGetFreeSpace state page)
                       (sizeOfCuckooTuple state)); [done|lia].
Qed.

Lemma CuckooPageAddItem_room (state : CuckooState) (page : Page)
    (tuple : CuckooTuple) :
  state_ok state -> page_wf page ->
  sizeOfCuckooTuple state <= CuckooPageGetFreeSpace state page ->
  CuckooPageAddItem state page tuple
  = (true,
     mkPage (24 + 12 * (maxoff page + 1)) (pd_upper page) (pd_special page)
            (maxoff page + 1) (flags page) (cuckoo_page_id page)
            (<[Z.to_nat (maxoff page) := tuple]> (items page))).
Proof using BLCKSZ_range.
  intros Hs Hw H. pose proof (free_space_slot _ _ Hs Hw H) as Hlt.
  destruct Hw as [Hlen Hm]. pose proof pageCapacity_bounds as Hc.
  unfold CuckooPageAddItem.
  destruct (Z.ltb_spec (CuckooPageGetFreeSpace state page)
                       (sizeOfCuckooTuple state)); [lia|].
  unfold tupleLocation. rewrite Hs, MAXALIGN_header.
  unfold sizeof_CuckooTuple, uint16.
  rewrite (Z.mod_small (maxoff page + 1)) by lia.
  rewrite Z.mod_small by lia.
  do 2 f_equal; [lia|]. f_equal. lia.
Qed.

(** The outcome of [CuckooPageAddItem] is decided by the free space. *)
Lemma CuckooPageAddItem_true (state : CuckooState) (page page' : Page)
    (tuple : CuckooTuple) :
  CuckooPageAddItem state page tuple = (true, page') ->
  sizeOfCuckooTuple state <= CuckooPageGetFreeSpace state page.
Proof.
  unfold CuckooPageAddItem.
  destruct (Z.ltb_spec (CuckooPageGetFreeSpace state page)
                       (sizeOfCuckooTuple state)); [done|]. intros _. lia.
Qed.

Lemma CuckooPageAddItem_false (state : CuckooState) (page page' : Page)
    (tuple : CuckooTuple) :
  CuckooPageAddItem state page tuple = (false, page') ->
  CuckooPageGetFreeSpace state page < sizeOfCuckooTuple state /\ page' = page.
Proof.
  unfold CuckooPageAddItem.
  destruct (Z.ltb_spec (CuckooPageGetFreeSpace state page)
                       (sizeOfCuckooTuple state)); [|done].
  intros [= <-]. done.
Qed.

(** After a successful append the live tuples are the old ones followed by
    the new one, and the page is still well formed and in use. *)
Lemma CuckooPageAddItem_live (state : CuckooState) (page page' : Page)
    (tuple : CuckooTuple) :
  state_ok state -> page_wf page ->
  CuckooPageAddItem state page tuple = (true, page') ->
  liveTuples page' = liveTuples page ++ [tuple] /\
  page_wf page' /\ maxoff page' = maxoff page + 1 /\
  flags page' = flags page /\ pd_upper page' = pd_upper page.
Proof using BLCKSZ_range.
  intros Hs Hw H. pose proof (CuckooPageAddItem_true _ _ _ _ H) as Hr.
  pose proof (free_space_slot _ _ Hs Hw Hr) as Hlt.
  rewrite CuckooPageAddItem_room in H by done. injection H as <-.
  destruct Hw as [Hlen Hm]. unfold liveTuples, page_wf. simpl.
  split; [|rewrite length_insert; repeat split; lia].
  replace (Z.to_nat (maxoff page + 1)) with (S (Z.to_nat (maxoff page))) by lia.
  erewrite take_S_r; [|apply list_lookup_insert_eq; lia].
  rewrite take_insert_ge by lia. reflexivity.
Qed.

Lemma CuckooInitPage_wf (f : Z) : page_wf (CuckooInitPage f).
Proof.
  unfold page_wf, CuckooInitPage. simpl. rewrite length_replicate. lia.
Qed.

Lemma CuckooInitPage_live : pageLive (CuckooInitPage 0) = true.
Proof using BLCKSZ_range.
  unfold pageLive, PageIsNew, CuckooPageIsDeleted, CuckooInitPage. simpl.
  rewrite MAXALIGN_opaque.
  destruct (Z.eqb_spec (BLCKSZ - 8) 0); [lia|]. reflexivity.
Qed.

Lemma CuckooInitPage_room (state : CuckooState) (f : Z) :
  state_ok state ->
  sizeOfCuckooTuple state <= CuckooPageGetFreeSpace state (CuckooInitPage f).
Proof using BLCKSZ_range.
  intros Hs. rewrite CuckooPageGetFreeSpace_wf by auto using CuckooInitPage_wf.
  rewrite Hs. unfold sizeof_CuckooTuple. simpl. lia.
Qed.

(** A freshly initialised page takes one tuple. *)
Lemma CuckooPageAddItem_init (state : CuckooState) (f : Z)
    (tuple : CuckooTuple) :
  state_ok state ->
  exists page', CuckooPageAddItem state (CuckooInitPage f) tuple = (true, page').
Proof using BLCKSZ_range.
  intros Hs. eexists. apply CuckooPageAddItem_room;
    auto using CuckooInitPage_wf, CuckooInitPage_room.
Qed.

(** ** The "empty page is full" error cannot be raised *)

Lemma bind_Ok {A B : Type} (r : Result A) (k : A -> Result B) (b : B) :
  bind r k = Ok b -> exists a, r = Ok a /\ k a = Ok b.
Proof. destruct r as [a|e]; simpl; [eauto|done]. Qed.

Lemma bind_not_err {A B : Type} (r : Result A) (k : A -> Result B)
    (e : Error) :
  r <> Err e -> (forall a, k a <> Err e) -> bind r k <> Err e.
Proof. destruct r as [a|e']; simpl; [intros _ H; apply H|intros H _ [= ->]; by apply H]. Qed.

Lemma of_option_not_err {A : Type} (e e' : Error) (o : option A) :
  e <> e' -> of_option e o <> Err e'.
Proof. destruct o; simpl; congruence. Qed.

Lemma readPage_not_fatal (index : Relation) (blkno : BlockNumber) :
  readPage index blkno <> Err ErrEmptyPageFull.
Proof.
  unfold readPage. destruct (blkno <? CUCKOO_HEAD_BLKNO); [done|].
  by apply of_option_not_err.
Qed.

Lemma newBufferFromFsm_not_fatal (index : Relation) (fsm : list BlockNumber) :
  newBufferFromFsm index fsm <> Err ErrEmptyPageFull.
Proof.
  induction fsm as [|b rest IH]; simpl; [done|].
  apply bind_not_err; [apply readPage_not_fatal|].
  intros page. destruct (PageIsNew page); [done|].
  destruct (CuckooPageIsDeleted page); [done|apply IH].
Qed.

Lemma CuckooNewBuffer_not_fatal (index : Relation) :
  CuckooNewBuffer index <> Err ErrEmptyPageFull.
Proof.
  unfold CuckooNewBuffer.
  apply bind_not_err; [apply newBufferFromFsm_not_fatal|].
  intros [[b|] rest]; done.
Qed.

Lemma insertNewPage_not_fatal (state : CuckooState) (index : Relation)
    (mp : MetaPage) (itup : CuckooTuple) :
  state_ok state ->
  insertNewPage state index mp itup <> Err ErrEmptyPageFull.
Proof using BLCKSZ_range.
  intros Hs. unfold insertNewPage.
  apply bind_not_err; [apply CuckooNewBuffer_not_fatal|].
  intros [blkno index1].
  destruct (CuckooPageAddItem_init state 0 itup Hs) as [page' ->]. done.
Qed.

Lemma insertSlowLoop_not_fatal (fuel : nat) (state : CuckooState)
    (index : Relation) (mp : MetaPage) (itup : CuckooTuple) (n : Z) :
  state_ok state ->
  insertSlowLoop fuel state index mp itup n <> Err ErrEmptyPageFull.
Proof using BLCKSZ_range.
  intros Hs. revert n.
  induction fuel as [|fuel IH]; intros n; simpl;
    destruct (n >=? nEnd (mp_meta mp));
    try (by apply insertNewPage_not_fatal).
  apply bind_not_err; [by apply of_option_not_err|]. intros blkno.
  apply bind_not_err; [apply readPage_not_fatal|]. intros page.
  destruct (CuckooPageAddItem state (reinitIfUnused page) itup) as [[] p];
    [done|apply IH].
Qed.

Lemma ckinsert_not_fatal (index : Relation) (values : list Datum)
    (isnull : list bool) (ht_ctid : ItemPointerData) :
  ckinsert index values isnull ht_ctid <> Err ErrEmptyPageFull.
Proof using BLCKSZ_range.
  unfold ckinsert.
  destruct (initCuckooState index) as [state|e] eqn:Hst; simpl.
  2:{ intros [= ->]. revert Hst. unfold initCuckooState.
      destruct (rd_meta index) as [mp|]; [|done].
      destruct (_ =? 0); [done|]. destruct (negb _); [done|].
      destruct (computeTagMask _); done. }
  pose proof (initCuckooState_state_ok _ _ Hst) as Hs.
  apply bind_not_err; [by apply of_option_not_err|]. intros mp.
  assert (forall b, insertSlowPath state index mp
                      (CuckooFormTuple state ht_ctid values isnull) b
                    <> Err ErrEmptyPageFull) as Hslow.
  { intros b. unfold insertSlowPath. by apply insertSlowLoop_not_fatal. }
  destruct (nEnd (mp_meta mp) >? nStart (mp_meta mp)); [|apply Hslow].
  apply bind_not_err; [by apply of_option_not_err|]. intros blkno.
  apply bind_not_err; [apply readPage_not_fatal|]. intros page.
  destruct (CuckooPageAddItem state (reinitIfUnused page) _) as [[] p];
    [done|apply Hslow].
Qed.

Lemma cuckooBuildCallback_not_fatal (index : Relation) (row : HeapRow)
    (buildstate : CuckooBuildState) :
  state_ok (ckstate buildstate) ->
  cuckooBuildCallback index row buildstate <> Err ErrEmptyPageFull.
Proof using BLCKSZ_range.
  intros Hs. unfold cuckooBuildCallback.
  destruct (CuckooPageAddItem (ckstate buildstate) (data buildstate) _)
    as [[] p]; [done|].
  apply bind_not_err.
  - unfold flushCachedPage.
    apply bind_not_err; [apply CuckooNewBuffer_not_fatal|]. by intros [].
  - intros index1. simpl.
    destruct (CuckooPageAddItem_init (ckstate buildstate) 0
                (CuckooFormTuple (ckstate buildstate) (row_tid row)
                                 (row_values row) (row_isnull row)) Hs)
      as [page' ->]. done.
Qed.

Lemma cuckooBuildCallback_ckstate (index index' : Relation) (row : HeapRow)
    (bs bs' : CuckooBuildState) :
  cuckooBuildCallback index row bs = Ok (index', bs') ->
  ckstate bs' = ckstate bs.
Proof.
  unfold cuckooBuildCallback.
  destruct (CuckooPageAddItem (ckstate bs) (data bs) _) as [[] p].
  - by intros [= <- <-].
  - intros H. apply bind_Ok in H as (index1 & _ & H). simpl in H.
    destruct (CuckooPageAddItem _ _ _) as [[] p']; [|done].
    by injection H as <- <-.
Qed.

Lemma buildScan_not_fatal (rows : list HeapRow) (index : Relation)
    (bs : CuckooBuildState) :
  state_ok (ckstate bs) -> buildScan index rows bs <> Err ErrEmptyPageFull.
Proof using BLCKSZ_range.
  revert index bs. induction rows as [|row rest IH]; intros index bs Hs;
    simpl; [done|].
  destruct (cuckooBuildCallback index row bs) as [[index' bs']|e] eqn:Hcb;
    simpl.
  - apply IH. by rewrite (cuckooBuildCallback_ckstate _ _ _ _ _ Hcb).
  - intros [= ->]. by apply (cuckooBuildCallback_not_fatal index row bs).
Qed.

Lemma initCuckooState_not_fatal (index : Relation) :
  initCuckooState index <> Err ErrEmptyPageFull.
Proof.
  unfold initCuckooState. destruct (rd_meta index) as [mp|]; [|done].
  destruct (_ =? 0); [done|]. destruct (negb _); [done|].
  destruct (computeTagMask _); done.
Qed.

Lemma ckbuild_not_fatal (heap : list HeapRow) (index : Relation) :
  ckbuild heap index <> Err ErrEmptyPageFull.
Proof using BLCKSZ_range.
  unfold ckbuild. destruct (negb _); [done|].
  destruct (initCuckooState (CuckooInitMetapage index)) as [state|e] eqn:Hst;
    simpl; [|intros [= ->]; by apply (initCuckooState_not_fatal _ Hst)].
  apply bind_not_err.
  - apply buildScan_not_fatal. simpl. by eapply initCuckooState_state_ok.
  - intros [index1 bs1]. destruct (count bs1 >? 0); [|done].
    apply bind_not_err; [|done]. unfold flushCachedPage.
    apply bind_not_err; [apply CuckooNewBuffer_not_fatal|]. by intros [].
Qed.

(** C4. [CuckooPageAddItem] on a well-formed page: when the free space is
    less than one tuple it returns false and the page it leaves is the
    page it was given (tuple array, [maxoff] and [pd_lower] included);
    otherwise it returns true, the tuple is at offset [maxoff + 1], every
    other slot (offsets 1..maxoff in particular) holds what it held, and
    [maxoff] has grown by exactly one. *)
Theorem CuckooPageAddItem_spec (state : CuckooState) (page : Page)
    (tuple : CuckooTuple) :
  state_ok state -> page_wf page ->
  (CuckooPageGetFreeSpace state page < sizeOfCuckooTuple state ->
   CuckooPageAddItem state page tuple = (false, page)) /\
  (sizeOfCuckooTuple state <= CuckooPageGetFreeSpace state page ->
   exists page',
     CuckooPageAddItem state page tuple = (true, page') /\
     CuckooPageGetTuple page' (maxoff page + 1) = tuple /\
     (forall offset, 1 <= offset -> offset <> maxoff page + 1 ->
        CuckooPageGetTuple page' offset = CuckooPageGetTuple page offset) /\
     maxoff page' = maxoff page + 1).
Proof using BLCKSZ_range.
  intros Hs Hw. split; [apply CuckooPageAddItem_full|].
  intros Hr. pose proof (free_space_slot _ _ Hs Hw Hr) as Hlt.
  eexists. split; [by apply CuckooPageAddItem_room|].
  destruct Hw as [Hlen Hm]. unfold CuckooPageGetTuple. simpl.
  repeat split.
  - replace (Z.to_nat (maxoff page + 1 - 1)) with (Z.to_nat (maxoff page))
      by lia.
    rewrite list_lookup_insert_eq by lia. reflexivity.
  - intros offset H1 Hne. rewrite list_lookup_insert_ne by lia. reflexivity.
Qed.

(** C8. A page just produced by [CuckooInitPage] takes one tuple, so the
    error "could not add new cuckoo tuple to empty page" is raised neither
    by [ckinsert] nor by the build callback (nor, then, by [ckbuild]). *)
Theorem empty_page_accepts_tuple :
  (forall state f tuple, state_ok state ->
     fst (CuckooPageAddItem state (CuckooInitPage f) tuple) = true) /\
  (forall index values isnull ht_ctid,
     ckinsert index values isnull ht_ctid <> Err ErrEmptyPageFull) /\
  (forall index row buildstate, state_ok (ckstate buildstate) ->
     cuckooBuildCallback index row buildstate <> Err ErrEmptyPageFull) /\
  (forall heap index, ckbuild heap index <> Err ErrEmptyPageFull).
Proof using BLCKSZ_range.
  repeat split.
  - intros state f tuple Hs.
    destruct (CuckooPageAddItem_init state f tuple Hs) as [page' ->]. done.
  - apply ckinsert_not_fatal.
  - apply cuckooBuildCallback_not_fatal.
  - apply ckbuild_not_fatal.
Qed.

(** ** The tag of a fingerprint *)

(** For a tag width below 32 the fingerprint is the accumulator of the
    non-null column hashes reduced to its low [bitsPerTag] bits, with zero
    replaced by 1; [initCuckooState] succeeds for no other width. *)
Lemma computeFingerprint_low_bits (index : Relation) (state : CuckooState)
    (values : list Datum) (isnull : list bool) :
  initCuckooState index = Ok state ->
  let bits := bitsPerTag (state_opts state) in
  0 <= bits < 32 /\
  tagMask state = 2 ^ bits - 1 /\
  computeFingerprint state values isnull
  = forceNonZero
      (specAccumulator (nonNullHashes state values isnull 0 (nColumns state))
       mod 2 ^ bits) /\
  computeFingerprint state values isnull <> 0.
Proof.
  intros H bits. apply initCuckooState_Ok in H as (mp & _ & Hm & Ho & _).
  subst bits. rewrite Ho.
  assert (0 <= bitsPerTag (opts (mp_meta mp)) < 32) as Hb.
  { destruct (Z_lt_le_dec (bitsPerTag (opts (mp_meta mp))) 32) as [Hlt|Hge].
    - split; [|done].
      destruct (Z_lt_le_dec (bitsPerTag (opts (mp_meta mp))) 0); [|done].
      revert Hm. unfold computeTagMask, shl_u32.
      replace (0 <=? bitsPerTag (opts (mp_meta mp))) with false
        by (symmetry; apply Z.leb_gt; lia). done.
    - rewrite computeTagMask_ge32 in Hm by done. done. }
  rewrite computeTagMask_lt32 in Hm by done. injection Hm as Hm.
  split; [done|]. split; [rewrite <- Hm; rewrite Z.ones_equiv; lia|].
  split; [|apply computeFingerprint_nonzero].
  rewrite computeFingerprint_force, fingerprintLoop_spec, <- Hm.
  rewrite Z.land_ones by lia. reflexivity.
Qed.

(** C2. At the documented maximum [bits_per_tag = 32] the mask
    [(1U << bitsPerTag) - 1] shifts a 32-bit operand by its full width,
    which has no defined value: on an index created with that option
    [initCuckooState] does not produce a state, so no fingerprint made of
    the low 32 bits of the accumulator is computed. *)
Theorem initCuckooState_bitsPerTag_32 (index : Relation) (o : CuckooOptions) :
  rd_options index = Some o -> bitsPerTag o = 32 ->
  computeTagMask o = None /\
  initCuckooState (CuckooInitMetapage index) = Err ErrUndefined.
Proof.
  intros Ho Hb.
  assert (computeTagMask o = None) as Hm by (apply computeTagMask_ge32; lia).
  split; [done|].
  unfold initCuckooState, CuckooInitMetapage, CuckooFillMetapage. simpl.
  rewrite Ho, Hm. reflexivity.
Qed.

(** ** Scans *)

Lemma scanTuples_spec (fp : Z) (page : Page) (n k : nat)
    (acc : TIDBitmap * Z) :
  (k + n <= length (items page))%nat ->
  scanTuples fp page (Z.of_nat k + 1) n acc
  = (fst acc ++ matching fp (take n (drop k (items page))),
     snd acc + Z.of_nat (length (matching fp (take n (drop k (items page)))))).
Proof.
  revert k acc. induction n as [|n IH]; intros k acc Hk; simpl.
  - unfold matching. simpl. rewrite app_nil_r, Z.add_0_r. by destruct acc.
  - destruct (lookup_lt_is_Some_2 (items page) k ltac:(lia)) as [t Ht].
    unfold CuckooPageGetTuple.
    replace (Z.to_nat (Z.of_nat k + 1 - 1)) with k by lia.
    rewrite Ht. simpl. rewrite (drop_S _ _ _ Ht). simpl.
    replace (Z.of_nat k + 1 + 1) with (Z.of_nat (S k) + 1) by lia.
    rewrite IH by lia. unfold matching. simpl.
    destruct (fingerprint t =? fp); simpl; [|done].
    rewrite <- app_assoc. simpl. f_equal. lia.
Qed.

Lemma scanTuples_page (fp : Z) (page : Page) (acc : TIDBitmap * Z) :
  0 <= maxoff page <= Z.of_nat (length (items page)) ->
  scanTuples fp page 1 (Z.to_nat (CuckooPageGetMaxOffset page)) acc
  = (fst acc ++ matching fp (liveTuples page),
     snd acc + Z.of_nat (length (matching fp (liveTuples page)))).
Proof.
  intros H. change 1 with (Z.of_nat 0 + 1).
  rewrite scanTuples_spec by (unfold CuckooPageGetMaxOffset; simpl; lia).
  reflexivity.
Qed.

Lemma matching_app (fp : Z) (l1 l2 : list CuckooTuple) :
  matching fp (l1 ++ l2) = matching fp l1 ++ matching fp l2.
Proof. unfold matching. by rewrite List.filter_app, map_app. Qed.

Lemma scanPages_spec (fp : Z) (pages : list Page) (acc : TIDBitmap * Z) :
  (forall page, page ∈ pages -> pageLive page = true ->
     0 <= maxoff page <= Z.of_nat (length (items page))) ->
  let found :=
    matching fp (flat_map (fun page => if pageLive page then liveTuples page
                                       else []) pages) in
  scanPages fp pages acc = (fst acc ++ found, snd acc + Z.of_nat (length found)).
Proof.
  revert acc. induction pages as [|page rest IH]; intros acc Hwf; simpl.
  - unfold matching. simpl. rewrite app_nil_r, Z.add_0_r. by destruct acc.
  - rewrite IH by (intros p Hp; apply Hwf; by right).
    rewrite matching_app. fold (pageLive page).
    destruct (pageLive page) eqn:Hlive; simpl.
    + rewrite scanTuples_page by (apply Hwf; [left|done]). simpl.
      rewrite length_app, <- app_assoc. f_equal. lia.
    + done.
Qed.

Lemma relation_wf_scan (index : Relation) :
  relation_wf index ->
  forall page, page ∈ dataBlocks index -> pageLive page = true ->
    0 <= maxoff page <= Z.of_nat (length (items page)).
Proof.
  intros Hwf page Hin Hlive. unfold dataBlocks in Hin.
  destruct (rd_meta index); [|by apply elem_of_nil in Hin].
  destruct (Hwf page Hin) as [Hlen Hm]. rewrite Hlen. by apply Hm.
Qed.

(** The early return of [ckgetbitmap] is taken exactly when one of the
    keys is flagged null. *)
Lemma fillScanKeys_None (ncols : nat) (skey : list ScanKeyData)
    (values : list Datum) (isnull : list bool) :
  fillScanKeys ncols skey values isnull = None <->
  exists k, k ∈ skey /\ keyIsNull k = true.
Proof.
  revert values isnull. induction skey as [|k rest IH]; intros values isnull;
    simpl.
  - split; [done|]. intros (k & Hk & _). by apply elem_of_nil in Hk.
  - fold (keyIsNull k). destruct (keyIsNull k) eqn:Hk.
    + split; [|done]. intros _. exists k. split; [left|done].
    + assert ((exists k0, k0 ∈ k :: rest /\ keyIsNull k0 = true) <->
              (exists k0, k0 ∈ rest /\ keyIsNull k0 = true)) as ->.
      { split; intros (k0 & Hin & Hn).
        - apply elem_of_cons in Hin as [->|Hin]; [congruence|eauto].
        - exists k0. split; [by right|done]. }
      destruct ((0 <=? sk_attno k - 1) && (sk_attno k - 1 <? Z.of_nat ncols));
        apply IH.
Qed.

Lemma ckgetbitmap_unchanged_keys (index : Relation) (scan : IndexScanDescData)
    (tbm : TIDBitmap) :
  let scan' := snd (ckgetbitmap index scan tbm) in
  numberOfKeys scan' = numberOfKeys scan /\
  keyData scan' = keyData scan /\
  so_state (opaque scan') = so_state (opaque scan).
Proof.
  unfold ckgetbitmap.
  destruct (fingerprintValid (opaque scan)); simpl.
  - destruct (scanPages _ _ _); done.
  - destruct (fillScanKeys _ _ _ _) as [[v n]|]; simpl; [|done].
    destruct (scanPages _ _ _); done.
Qed.

Lemma scanReachable_inv (scan : IndexScanDescData) :
  scanReachable scan -> scanInv scan.
Proof.
  induction 1 as [r nkeys kd scan H|scan scankey _ _|index scan tbm _ IH
                 |scan _ IH].
  - apply bind_Ok in H as (state & _ & [= <-]). intros Hv. done.
  - intros Hv. unfold ckrescan in Hv.
    destruct scankey as [keys|]; [destruct (0 <? _)|]; done.
  - intros Hv. revert Hv. unfold scanInv in IH. unfold ckgetbitmap.
    destruct (fingerprintValid (opaque scan)) eqn:Hvalid; simpl.
    + destruct (scanPages _ _ _); simpl. intros _.
      destruct (IH eq_refl) as (v & n & H1 & H2). exists v, n.
      destruct (opaque scan); simpl in *. done.
    + destruct (fillScanKeys _ _ _ _) as [[v n]|] eqn:Hfill; simpl.
      * destruct (scanPages _ _ _); simpl. intros _. by exists v, n.
      * intros Hv. congruence.
  - exact IH.
Qed.

(** C3. A scan one of whose keys is flagged null returns 0 and adds no
    row locator to the bitmap (nor does it change the scan descriptor),
    whatever the index holds. *)
Theorem ckgetbitmap_null_key (index : Relation) (scan : IndexScanDescData)
    (tbm : TIDBitmap) (k : ScanKeyData) :
  scanReachable scan ->
  k ∈ take (numberOfKeys scan) (keyData scan) ->
  keyIsNull k = true ->
  ckgetbitmap index scan tbm = (0, tbm, scan).
Proof.
  intros Hreach Hin Hnull. pose proof (scanReachable_inv _ Hreach) as Hinv.
  assert (fillScanKeys (nColumns (so_state (opaque scan)))
            (take (numberOfKeys scan) (keyData scan))
            (replicate (nColumns (so_state (opaque scan))) 0)
            (replicate (nColumns (so_state (opaque scan))) true) = None) as Hf.
  { apply fillScanKeys_None. eauto. }
  unfold ckgetbitmap.
  destruct (fingerprintValid (opaque scan)) eqn:Hv.
  - destruct (Hinv Hv) as (v & n & H1 & _). congruence.
  - rewrite Hf. reflexivity.
Qed.

Lemma replicate_true_null (n j : nat) :
  default true (replicate n true !! j) = true.
Proof.
  destruct (replicate n true !! j) as [b|] eqn:H; [|done].
  apply lookup_replicate in H as [-> _]. done.
Qed.

(** C10. With every indexed column null [computeFingerprint] skips every
    column and returns exactly 1; a scan that supplies no key leaves all
    columns null, so it matches precisely the stored tuples whose
    fingerprint is 1: their row locators are what it adds to the bitmap,
    and their number is what it returns. *)
Theorem all_null_fingerprint_is_1 :
  (forall state values isnull,
     (forall j, (j < nColumns state)%nat ->
        default true (isnull !! j) = true) ->
     computeFingerprint state values isnull = 1) /\
  (forall index scan tbm,
     relation_wf index -> scanReachable scan -> numberOfKeys scan = 0%nat ->
     let found := matching 1 (storedTuples index) in
     exists scan',
       ckgetbitmap index scan tbm
       = (Z.of_nat (length found), tbm ++ found, scan') /\
       so_fingerprint (opaque scan') = 1).
Proof.
  split; [apply computeFingerprint_all_null|].
  intros index scan tbm Hwf Hreach Hn found.
  pose proof (scanReachable_inv _ Hreach) as Hinv. unfold scanInv in Hinv.
  assert (forall so', (fingerprintValid (opaque scan) = true -> so' = opaque scan) ->
            (fingerprintValid (opaque scan) = false ->
             so' = mkScanOpaque
                     (computeFingerprint (so_state (opaque scan))
                        (replicate (nColumns (so_state (opaque scan))) 0)
                        (replicate (nColumns (so_state (opaque scan))) true))
                     true (so_state (opaque scan))) ->
            so_fingerprint so' = 1) as Hfp.
  { intros so' H1 H2. destruct (fingerprintValid (opaque scan)) eqn:Hv.
    - rewrite (H1 eq_refl). destruct (Hinv eq_refl) as (v & n & Hf & ->).
      rewrite Hn in Hf. simpl in Hf. injection Hf as <- <-.
      apply computeFingerprint_all_null. intros j _. apply replicate_true_null.
    - rewrite (H2 eq_refl). simpl.
      apply computeFingerprint_all_null. intros j _. apply replicate_true_null. }
  unfold ckgetbitmap. rewrite Hn. simpl.
  destruct (fingerprintValid (opaque scan)) eqn:Hv.
  - rewrite (Hfp (opaque scan)) by done.
    rewrite scanPages_spec by (by apply relation_wf_scan). simpl.
    eexists. split; [reflexivity|]. simpl. by apply Hfp.
  - simpl.
    rewrite computeFingerprint_all_null
      by (intros j _; apply replicate_true_null).
    rewrite scanPages_spec by (by apply relation_wf_scan). simpl.
    eexists. split; [reflexivity|]. reflexivity.
Qed.

(** C7. When the page named by the first free-list entry accepts the
    tuple, [ckinsert] commits that page only: the metapage ([nStart],
    [nEnd], the [notFullPage] array and the option record) is the one it
    found, and so are the descriptor's options and the free-space map;
    the data blocks differ in that one block. *)
Theorem ckinsert_fast_path_frame (index : Relation) (values : list Datum)
    (isnull : list bool) (ht_ctid : ItemPointerData) (state : CuckooState)
    (mp : MetaPage) (blkno : BlockNumber) (page page' : Page) :
  initCuckooState index = Ok state ->
  rd_meta index = Some mp ->
  nStart (mp_meta mp) < nEnd (mp_meta mp) ->
  notFullPage (mp_meta mp) !! Z.to_nat (nStart (mp_meta mp)) = Some blkno ->
  readPage index blkno = Ok page ->
  CuckooPageAddItem state (reinitIfUnused page)
    (CuckooFormTuple state ht_ctid values isnull) = (true, page') ->
  exists index',
    ckinsert index values isnull ht_ctid = Ok index' /\
    rd_meta index' = Some mp /\
    rd_options index' = rd_options index /\
    rd_fsm index' = rd_fsm index /\
    rd_pages index' = <[Z.to_nat (blkno - 1) := page']> (rd_pages index).
Proof.
  intros Hst Hmeta Hlt Hblk Hread Hadd.
  exists (writePage index blkno page'). split; [|by rewrite <- Hmeta].
  unfold ckinsert. rewrite Hst, Hmeta. simpl.
  destruct (Z.gtb_spec (nEnd (mp_meta mp)) (nStart (mp_meta mp))); [|lia].
  rewrite Hblk. simpl. rewrite Hread. simpl. rewrite Hadd. reflexivity.
Qed.

(** ** Compaction of a page *)

Lemma survivors_app (cb : IndexBulkDeleteCallback) (l1 l2 : list CuckooTuple) :
  survivors cb (l1 ++ l2) = survivors cb l1 ++ survivors cb l2.
Proof. apply List.filter_app. Qed.

Lemma survivors_length (cb : IndexBulkDeleteCallback) (l : list CuckooTuple) :
  (length (survivors cb l) <= length l)%nat.
Proof. apply List.filter_length_le. Qed.

Lemma survivors_all (cb : IndexBulkDeleteCallback) (l : list CuckooTuple) :
  length (survivors cb l) = length l -> survivors cb l = l.
Proof.
  induction l as [|t l IH]; simpl; [done|].
  pose proof (survivors_length cb l) as Hl. unfold survivors in *.
  destruct (negb (cb (heapPtr t))); simpl; intros H.
  - f_equal. apply IH. lia.
  - lia.
Qed.

(** The compaction loop: [n] slots from slot [itup] are examined; the
    survivors are moved down to slot [itupPtr] onwards, each dropped tuple
    decrements [maxoff] and increments [tuples_removed]; slots from the
    final [itup] on, and every other field of the page, are untouched. *)
Lemma vacuumLoop_spec (cb : IndexBulkDeleteCallback) (n : nat) :
  forall (page : Page) (itup itupPtr : nat) (removed : Z)
         (page' : Page) (itup' itupPtr' : nat) (removed' : Z),
  (itupPtr <= itup)%nat -> (itup + n <= length (items page))%nat ->
  Z.of_nat n <= maxoff page < 2 ^ 16 ->
  vacuumLoop cb n page itup itupPtr removed
  = (page', itup', itupPtr', removed') ->
  let kept := survivors cb (take n (drop itup (items page))) in
  itup' = (itup + n)%nat /\
  itupPtr' = (itupPtr + length kept)%nat /\
  take itupPtr' (items page') = take itupPtr (items page) ++ kept /\
  length (items page') = length (items page) /\
  maxoff page' = maxoff page - (Z.of_nat n - Z.of_nat (length kept)) /\
  removed' = removed + (Z.of_nat n - Z.of_nat (length kept)) /\
  flags page' = flags page /\ pd_upper page' = pd_upper page /\
  pd_lower page' = pd_lower page /\ pd_special page' = pd_special page /\
  cuckoo_page_id page' = cuckoo_page_id page.
Proof.
  induction n as [|n IH];
    intros page itup itupPtr removed page' itup' itupPtr' removed' Hj Hlen Hm;
    simpl.
  - intros [= <- <- <- <-]. simpl. rewrite app_nil_r.
    repeat split; lia.
  - destruct (lookup_lt_is_Some_2 (items page) itup ltac:(lia)) as [t Ht].
    rewrite Ht, (drop_S _ _ _ Ht). simpl.
    pose proof (survivors_length cb (take n (drop (S itup) (items page)))) as Hk.
    rewrite length_take in Hk.
    destruct (cb (heapPtr t)) eqn:Hcb; simpl; intros Hloop.
    + apply IH in Hloop; simpl; [|lia|lia|].
      2:{ unfold uint16. rewrite Z.mod_small; lia. }
      simpl in Hloop. unfold uint16 in Hloop.
      rewrite Z.mod_small in Hloop by lia.
      destruct Hloop as (-> & -> & H1 & H2 & H3 & H4 & H5).
      repeat split; try tauto; lia.
    + assert ((if negb (Nat.eqb itupPtr itup)
               then setItems page (<[itupPtr := t]> (items page)) else page)
              = setItems page (<[itupPtr := t]> (items page))) as Heq.
      { destruct (Nat.eqb_spec itupPtr itup) as [->|]; simpl; [|done].
        rewrite list_insert_id by done. by destruct page. }
      rewrite Heq in Hloop. clear Heq.
      apply IH in Hloop; simpl; [|lia|rewrite length_insert; lia|lia].
      simpl in Hloop. rewrite length_insert in Hloop.
      rewrite drop_insert_lt in Hloop by lia.
      destruct Hloop as (-> & -> & H1 & H2 & H3 & H4 & H5).
      repeat split; try tauto; try lia.
      rewrite H1. erewrite take_S_r; [|apply list_lookup_insert_eq; lia].
      rewrite take_insert_ge by lia. rewrite <- app_assoc. reflexivity.
Qed.

Lemma pageLive_unused (page : Page) :
  PageIsNew page || CuckooPageIsDeleted page = negb (pageLive page).
Proof.
  unfold pageLive. destruct (PageIsNew page), (CuckooPageIsDeleted page); done.
Qed.

Lemma CuckooPageGetFreeSpace_maxoff (state : CuckooState) (p q : Page) :
  maxoff p = maxoff q ->
  CuckooPageGetFreeSpace state p = CuckooPageGetFreeSpace state q.
Proof.
  intros H. unfold CuckooPageGetFreeSpace, CuckooPageGetMaxOffset. by rewrite H.
Qed.

(** What [ckbulkdelete] does to one page in use. *)
Lemma bulkDeletePage_live (state : CuckooState) (cb : IndexBulkDeleteCallback)
    (blkno : BlockNumber) (page page' : Page)
    (notFull notFull' : list BlockNumber) (removed removed' : Z) :
  page_wf page -> pageLive page = true ->
  bulkDeletePage state cb blkno page notFull removed
  = (page', notFull', removed') ->
  let kept := survivors cb (liveTuples page) in
  liveTuples page' = kept /\
  maxoff page' = Z.of_nat (length kept) /\
  removed' = removed + (maxoff page - Z.of_nat (length kept)) /\
  length (items page') = length (items page) /\
  pd_upper page' = pd_upper page /\
  (Z.of_nat (length kept) = maxoff page -> page' = page) /\
  (Z.of_nat (length kept) <> maxoff page ->
   flags page' = if maxoff page' =? 0
                 then Z.lor (flags page) CUCKOO_DELETED else flags page) /\
  notFull' = (if negb (maxoff page' =? 0)
                 && (CuckooPageGetFreeSpace state page'
                     >=? sizeOfCuckooTuple state)
                 && (Z.of_nat (length notFull) <? CuckooMetaBlockN)
              then notFull ++ [blkno] else notFull).
Proof using BLCKSZ_range.
  intros [Hlen Hm] Hlive. pose proof pageCapacity_bounds as Hc.
  unfold bulkDeletePage. rewrite pageLive_unused, Hlive. simpl.
  unfold CuckooPageGetMaxOffset.
  destruct (vacuumLoop cb (Z.to_nat (maxoff page)) page 0 0 removed)
    as [[[work i'] j'] r'] eqn:Hloop.
  apply vacuumLoop_spec in Hloop; [|lia|lia|lia].
  cbv zeta in Hloop. rewrite drop_0 in Hloop. simpl in Hloop.
  fold (liveTuples page) in Hloop. rewrite Z2Nat.id in Hloop by lia.
  destruct Hloop as (-> & -> & Htake & Hl & Hmax & -> & Hfl & Hup & _).
  pose proof (survivors_length cb (liveTuples page)) as Hk.
  unfold liveTuples in Hk at 2. rewrite length_take in Hk.
  set (kept := survivors cb (liveTuples page)) in *.
  destruct (Nat.eqb_spec (length kept) (Z.to_nat (maxoff page))) as [He|Hne];
    simpl; intros [= <- <- <-].
  - assert (kept = liveTuples page) as Hall.
    { apply survivors_all. fold kept. unfold liveTuples.
      rewrite length_take. lia. }
    rewrite (CuckooPageGetFreeSpace_maxoff state work page) by lia.
    replace (maxoff work) with (maxoff page) by lia.
    repeat split; try done; try lia.
  - assert (Z.to_nat (maxoff work) = length kept) as Hw by lia.
    assert (take (length kept) (items work) = kept) as Ht by done.
    repeat split; try lia;
      try (unfold liveTuples, setPdLower; simpl;
           destruct (maxoff work =? 0) eqn:E; simpl; rewrite ?Hw, ?E; simpl;
           (done || lia || congruence)).
Qed.

Lemma bulkDeletePage_unused (state : CuckooState)
    (cb : IndexBulkDeleteCallback) (blkno : BlockNumber) (page : Page)
    (notFull : list BlockNumber) (removed : Z) :
  pageLive page = false ->
  bulkDeletePage state cb blkno page notFull removed = (page, notFull, removed).
Proof.
  intros H. unfold bulkDeletePage. by rewrite pageLive_unused, H.
Qed.

Lemma relation_wf_page (index : Relation) (page : Page) :
  relation_wf index -> page ∈ rd_pages index -> pageLive page = true ->
  page_wf page.
Proof.
  intros Hwf Hin Hlive. destruct (Hwf page Hin) as [Hlen Hm].
  split; [done|by apply Hm].
Qed.

Lemma CuckooPageIsDeleted_lor (f : Z) :
  negb (Z.land (Z.lor f CUCKOO_DELETED) CUCKOO_DELETED =? 0) = true.
Proof.
  rewrite Z.land_lor_distr_l. change (Z.land CUCKOO_DELETED CUCKOO_DELETED)
    with 2.
  destruct (Z.eqb_spec (Z.lor (Z.land f CUCKOO_DELETED) 2) 0) as [E|]; [|done].
  apply Z.lor_eq_0_iff in E as [_ E]. done.
Qed.

(** The page loop of [ckbulkdelete], page by page. *)
Lemma bulkDeletePages_spec (state : CuckooState)
    (cb : IndexBulkDeleteCallback) (pages : list Page) :
  forall (blkno : BlockNumber) (notFull : list BlockNumber) (removed : Z)
         (pages' : list Page) (notFull' : list BlockNumber) (removed' : Z),
  (forall page, page ∈ pages -> pageLive page = true -> page_wf page) ->
  bulkDeletePages state cb blkno pages notFull removed
  = (pages', notFull', removed') ->
  length pages' = length pages /\
  (forall i page, pages !! i = Some page ->
     exists page' nf r nf' r',
       pages' !! i = Some page' /\
       bulkDeletePage state cb (blkno + Z.of_nat i) page nf r
       = (page', nf', r')) /\
  removed' = removed + droppedTotal cb pages /\
  (Z.of_nat (length notFull) <= CuckooMetaBlockN ->
   Z.of_nat (length notFull') <= CuckooMetaBlockN) /\
  (forall b, b ∈ notFull' ->
     b ∈ notFull \/
     exists i page', pages' !! i = Some page' /\ b = blkno + Z.of_nat i /\
       maxoff page' <> 0 /\
       sizeOfCuckooTuple state <= CuckooPageGetFreeSpace state page').
Proof using BLCKSZ_range.
  induction pages as [|page rest IH];
    intros blkno notFull removed pages' notFull' removed' Hwf; simpl.
  - intros [= <- <- <-]. repeat split; try done; [lia|auto].
  - destruct (bulkDeletePage state cb blkno page notFull removed)
      as [[p1 nf1] r1] eqn:Hp.
    destruct (bulkDeletePages state cb (blkno + 1) rest nf1 r1)
      as [[ps nf2] r2] eqn:Hrest.
    intros [= <- <- <-].
    apply IH in Hrest as (Hlen & Hpt & Hrem & Hcnt & Hnf);
      [|intros p Hin; apply Hwf; by right].
    assert (r1 = removed
                 + (if pageLive page
                    then maxoff page
                         - Z.of_nat (length (survivors cb (liveTuples page)))
                    else 0) /\
            (nf1 = notFull \/
             (nf1 = notFull ++ [blkno] /\ maxoff p1 <> 0 /\
              sizeOfCuckooTuple state <= CuckooPageGetFreeSpace state p1 /\
              Z.of_nat (length notFull) < CuckooMetaBlockN))) as [Hr1 Hnf1].
    { destruct (pageLive page) eqn:Hlive.
      - pose proof Hp as Hp'.
        apply bulkDeletePage_live in Hp'
          as (_ & _ & Hr & _ & _ & _ & _ & Hn);
          [|apply Hwf; [left|done]|done].
        split; [done|]. rewrite Hn.
        destruct (Z.eqb_spec (maxoff p1) 0); simpl; [by left|].
        destruct (Z.geb_spec (CuckooPageGetFreeSpace state p1)
                             (sizeOfCuckooTuple state)); simpl; [|by left].
        destruct (Z.ltb_spec (Z.of_nat (length notFull)) CuckooMetaBlockN);
          [right|by left].
        repeat split; (done || lia).
      - rewrite bulkDeletePage_unused in Hp by done.
        injection Hp as <- <- <-. split; [lia|by left]. }
    split; [simpl; lia|]. split; [|split; [lia|split]].
    + intros [|i] p Hi; simpl in Hi.
      * injection Hi as <-. exists p1, notFull, removed, nf1, r1.
        split; [done|]. by rewrite Z.add_0_r.
      * destruct (Hpt i p Hi) as (p' & nf & r & nf' & r' & H1 & H2).
        exists p', nf, r, nf', r'. split; [done|].
        rewrite <- H2. f_equal. lia.
    + intros Hle. apply Hcnt.
      destruct Hnf1 as [->|(-> & _ & _ & Hlt)]; [done|].
      rewrite length_app. simpl. lia.
    + intros b Hb. destruct (Hnf b Hb) as [Hin|(i & p' & H1 & -> & H2)].
      * destruct Hnf1 as [->|(-> & Hm & Hf & _)]; [by left|].
        apply elem_of_app in Hin as [Hin|Hin]; [by left|].
        apply list_elem_of_singleton in Hin as ->. right.
        exists 0%nat, p1. split; [done|]. split; [lia|done].
      * right. exists (S i), p'. split; [done|]. split; [lia|done].
Qed.

Lemma ckbulkdelete_Ok (index index' : Relation) (stats : option Z)
    (cb : IndexBulkDeleteCallback) (removed : Z) :
  ckbulkdelete index stats cb = Ok (index', removed) ->
  exists state mp pages' notFull,
    initCuckooState index = Ok state /\ rd_meta index = Some mp /\
    bulkDeletePages state cb CUCKOO_HEAD_BLKNO (rd_pages index) []
                    (default 0 stats) = (pages', notFull, removed) /\
    index' = mkRelation (rd_natts index) (rd_hashproc index)
               (rd_options index)
               (Some (setMetaData mp
                  (mkMeta (magicNumber (mp_meta mp)) 0
                     (uint16 (Z.of_nat (length notFull))) (opts (mp_meta mp))
                     (notFull ++ drop (length notFull)
                                      (notFullPage (mp_meta mp))))))
               pages' (rd_fsm index).
Proof.
  unfold ckbulkdelete. intros H.
  apply bind_Ok in H as (state & Hst & H).
  apply bind_Ok in H as (mp & Hmp & H).
  destruct (rd_meta index) as [mp'|]; [|done]. injection Hmp as ->.
  destruct (bulkDeletePages _ _ _ _ _ _) as [[pages' notFull] r] eqn:Hp.
  injection H as <- <-. by exists state, mp, pages', notFull.
Qed.

(** C5. [ckbulkdelete] on a well-formed index: a page that is new or
    deleted is left alone; a page in use afterwards holds, in slots
    1..maxoff, exactly its original live tuples the callback did not
    report dead, in their original order, with [maxoff] their number; if
    none was dropped the page is unchanged (the mutation is aborted); if
    some were dropped and none is left the page is flagged deleted, and
    it is not flagged otherwise; [tuples_removed] grows by the number of
    tuples dropped over all pages. *)
Theorem ckbulkdelete_compacts (index index' : Relation) (stats : option Z)
    (cb : IndexBulkDeleteCallback) (removed : Z) :
  relation_wf index ->
  ckbulkdelete index stats cb = Ok (index', removed) ->
  length (rd_pages index') = length (rd_pages index) /\
  removed = default 0 stats + droppedTotal cb (rd_pages index) /\
  forall i page, rd_pages index !! i = Some page ->
    exists page', rd_pages index' !! i = Some page' /\
      (pageLive page = false -> page' = page) /\
      (pageLive page = true ->
       let kept := survivors cb (liveTuples page) in
       liveTuples page' = kept /\
       maxoff page' = Z.of_nat (length kept) /\
       (Z.of_nat (length kept) = maxoff page -> page' = page) /\
       (Z.of_nat (length kept) <> maxoff page -> kept = [] ->
        CuckooPageIsDeleted page' = true) /\
       (kept <> [] -> pageLive page' = true)).
Proof using BLCKSZ_range.
  intros Hwf H.
  apply ckbulkdelete_Ok in H as (state & mp & pages' & notFull & Hst & _ & Hp & ->).
  simpl.
  apply bulkDeletePages_spec in Hp as (Hlen & Hpt & Hrem & _);
    [|intros p Hin Hl; by apply (relation_wf_page index)].
  split; [done|]. split; [done|].
  intros i page Hi. destruct (Hpt i page Hi) as (p' & nf & r & nf' & r' & H1 & H2).
  exists p'. split; [done|]. split.
  - intros Hl. rewrite bulkDeletePage_unused in H2 by done. congruence.
  - intros Hl. pose proof Hl as Hl'. unfold pageLive in Hl'.
    apply andb_true_iff in Hl' as [Hnew Hdel].
    apply bulkDeletePage_live in H2 as (Ht & Hm & _ & _ & Hup & Hsame & Hfl & _);
      [|apply (relation_wf_page index); [done|by eapply list_elem_of_lookup_2|done]
       |done].
    simpl. repeat split; try done.
    + intros Hne Hnil. unfold CuckooPageIsDeleted. rewrite (Hfl Hne), Hm, Hnil.
      simpl. apply CuckooPageIsDeleted_lor.
    + intros Hne.
      destruct (Z.eq_dec (Z.of_nat (length (survivors cb (liveTuples page))))
                         (maxoff page)) as [E|E].
      * by rewrite (Hsame E).
      * unfold pageLive, PageIsNew, CuckooPageIsDeleted in *.
        rewrite Hup, (Hfl E), Hm.
        destruct (survivors cb (liveTuples page)) eqn:Hs; [done|]. simpl.
        by rewrite Hnew, Hdel.
Qed.

(** ** The free list *)

Lemma CuckooMetaBlockN_bounds : 0 <= CuckooMetaBlockN <= 8178.
Proof using BLCKSZ_range.
  unfold CuckooMetaBlockN, MAXALIGN_DOWN. rewrite MAXALIGN_opaque.
  change (MAXALIGN (2 * 2 + 4 + sizeof_CuckooOptions)) with 24.
  unfold SizeOfPageHeaderData, MAXIMUM_ALIGNOF, sizeof_BlockNumber.
  assert (8 * ((BLCKSZ - 24 - 8 - 24) / 8) <= BLCKSZ - 24 - 8 - 24)
    by (apply Z.mul_div_le; lia).
  assert (0 <= (BLCKSZ - 24 - 8 - 24) / 8) by (apply Z.div_pos; lia).
  split; [apply Z.div_pos; lia|].
  apply Z.div_le_upper_bound; lia.
Qed.

Lemma entryIsFull_no_room (state : CuckooState) (index : Relation)
    (blkno : BlockNumber) :
  entryIsFull state index blkno = true -> ~ hasRoom state index blkno.
Proof.
  unfold entryIsFull. intros H (page & Hr & Hf). rewrite Hr in H.
  apply Z.ltb_lt in H. lia.
Qed.

(** Right after [ckbulkdelete] on a well-formed index, every free-list
    entry between [nStart] and [nEnd] names a data page that is not empty
    and has room for at least one more tuple. *)
Lemma ckbulkdelete_freelist_fresh (index index' : Relation)
    (stats : option Z) (cb : IndexBulkDeleteCallback) (removed : Z) :
  relation_wf index ->
  ckbulkdelete index stats cb = Ok (index', removed) ->
  exists state mp,
    initCuckooState index' = Ok state /\ rd_meta index' = Some mp /\
    nStart (mp_meta mp) = 0 /\
    forall blkno, blkno ∈ freeListEntries (mp_meta mp) ->
      exists page, readPage index' blkno = Ok page /\
        maxoff page <> 0 /\
        sizeOfCuckooTuple state <= CuckooPageGetFreeSpace state page.
Proof using BLCKSZ_range.
  intros Hwf H.
  apply ckbulkdelete_Ok in H as (state & mp & pages' & notFull & Hst & Hmp & Hp & ->).
  apply bulkDeletePages_spec in Hp as (Hlen & _ & _ & Hcnt & Hnf);
    [|intros p Hin Hl; by apply (relation_wf_page index)].
  pose proof CuckooMetaBlockN_bounds as HN.
  specialize (Hcnt ltac:(simpl; lia)).
  exists state. eexists. split; [|split; [reflexivity|split; [reflexivity|]]].
  - revert Hst. unfold initCuckooState. rewrite Hmp. simpl.
    destruct (_ =? 0); [done|]. destruct (negb _); [done|].
    destruct (computeTagMask _); done.
  - unfold freeListEntries. simpl. unfold uint16.
    rewrite Z.mod_small by lia. rewrite Nat2Z.id, take_app_length.
    intros b Hb. destruct (Hnf b Hb) as [Hin|(i & p' & H1 & -> & H2 & H3)];
      [by apply elem_of_nil in Hin|].
    exists p'. split; [|done]. unfold readPage, CUCKOO_HEAD_BLKNO. simpl.
    destruct (Z.ltb_spec (1 + Z.of_nat i) 1); [lia|].
    replace (Z.to_nat (1 + Z.of_nat i - 1)) with i by lia. by rewrite H1.
Qed.

(** ** The shape of a successful insertion *)

Lemma insertNewPage_Ok (state : CuckooState) (index index' : Relation)
    (mp : MetaPage) (itup : CuckooTuple) :
  insertNewPage state index mp itup = Ok index' ->
  insertOutcome state index mp itup index'.
Proof.
  unfold insertNewPage. intros H.
  apply bind_Ok in H as ([blkno index1] & Hnew & H).
  destruct (CuckooPageAddItem state (CuckooInitPage 0) itup) as [[] page']
    eqn:Hadd; [|done].
  injection H as <-. right. exists blkno, index1, page'. eexists.
  repeat split; done.
Qed.

Lemma insertSlowLoop_Ok (fuel : nat) (state : CuckooState)
    (index index' : Relation) (mp : MetaPage) (itup : CuckooTuple) (n : Z) :
  insertSlowLoop fuel state index mp itup n = Ok index' ->
  insertOutcome state index mp itup index'.
Proof.
  revert n. induction fuel as [|fuel IH]; intros n; simpl;
    destruct (n >=? nEnd (mp_meta mp));
    try apply insertNewPage_Ok.
  intros H. apply bind_Ok in H as (blkno & _ & H).
  apply bind_Ok in H as (page & Hread & H).
  destruct (CuckooPageAddItem state (reinitIfUnused page) itup) as [[] page']
    eqn:Hadd; [|by eapply IH].
  injection H as <-. left. exists blkno, page, page'. eexists.
  repeat split; done.
Qed.

Lemma ckinsert_Ok (index index' : Relation) (values : list Datum)
    (isnull : list bool) (ht_ctid : ItemPointerData) :
  ckinsert index values isnull ht_ctid = Ok index' ->
  exists state mp,
    initCuckooState index = Ok state /\ rd_meta index = Some mp /\
    insertOutcome state index mp
      (CuckooFormTuple state ht_ctid values isnull) index'.
Proof.
  unfold ckinsert. intros H.
  apply bind_Ok in H as (state & Hst & H).
  apply bind_Ok in H as (mp & Hmp & H).
  destruct (rd_meta index) as [mp0|] eqn:Hmeta; [|done]. injection Hmp as ->.
  exists state, mp. split; [done|]. split; [done|].
  destruct (nEnd (mp_meta mp) >? nStart (mp_meta mp));
    [|by eapply insertSlowLoop_Ok].
  apply bind_Ok in H as (blkno & _ & H).
  apply bind_Ok in H as (page & Hread & H).
  destruct (CuckooPageAddItem state (reinitIfUnused page) _) as [[] page']
    eqn:Hadd; [|by eapply insertSlowLoop_Ok].
  injection H as <-. left. exists blkno, page, page', mp.
  repeat split; try done.
  unfold writeMeta, writePage. simpl. by rewrite Hmeta.
Qed.

Lemma newBufferFromFsm_Ok (index : Relation) (fsm rest : list BlockNumber)
    (r : option BlockNumber) :
  newBufferFromFsm index fsm = Ok (r, rest) ->
  match r with
  | Some blkno =>
      exists page, readPage index blkno = Ok page /\ pageLive page = false
  | None => True
  end.
Proof.
  revert rest r. induction fsm as [|b fsm IH]; intros rest r; simpl.
  - by intros [= <- <-].
  - intros H. apply bind_Ok in H as (page & Hread & H).
    destruct (PageIsNew page) eqn:Hnew.
    + injection H as <- <-. exists page. split; [done|].
      unfold pageLive. by rewrite Hnew.
    + destruct (CuckooPageIsDeleted page) eqn:Hdel; [|by eapply IH].
      injection H as <- <-. exists page. split; [done|].
      unfold pageLive. by rewrite Hnew, Hdel.
Qed.

(** [CuckooNewBuffer] hands out a block that holds no live tuple: a new or
    deleted block of the relation, or a zero block appended to it. *)
Lemma CuckooNewBuffer_Ok (index index1 : Relation) (blkno : BlockNumber) :
  CuckooNewBuffer index = Ok (blkno, index1) ->
  rd_natts index1 = rd_natts index /\
  rd_hashproc index1 = rd_hashproc index /\
  rd_options index1 = rd_options index /\
  rd_meta index1 = rd_meta index /\
  ((rd_pages index1 = rd_pages index /\
    exists page, readPage index blkno = Ok page /\ pageLive page = false) \/
   (rd_pages index1 = rd_pages index ++ [zeroPage] /\
    blkno = RelationGetNumberOfBlocks index)).
Proof.
  unfold CuckooNewBuffer. intros H.
  apply bind_Ok in H as ([[b|] rest] & Hfsm & H); injection H as <- <-.
  - apply newBufferFromFsm_Ok in Hfsm. simpl. repeat split; try done. by left.
  - simpl. repeat split; try done. by right.
Qed.

(** ** Well-formedness and stored tuples across operations *)

Lemma elem_of_insert_inv {A : Type} (l : list A) (i : nat) (x y : A) :
  y ∈ <[i:=x]> l -> y = x \/ y ∈ l.
Proof.
  intros H. apply list_elem_of_lookup in H as [j Hj].
  apply list_lookup_insert_Some in Hj as [(_ & -> & _)|[_ Hj]]; [by left|].
  right. by eapply list_elem_of_lookup_2.
Qed.

Lemma zeroPage_not_live : pageLive zeroPage = false.
Proof. reflexivity. Qed.

Lemma pagesWf_extend (pages : list Page) :
  pagesWf pages -> pagesWf (pages ++ [zeroPage]).
Proof.
  intros Hwf p Hin. apply elem_of_app in Hin as [Hin|Hin]; [by apply Hwf|].
  apply list_elem_of_singleton in Hin as ->. split.
  - simpl. apply length_replicate.
  - by rewrite zeroPage_not_live.
Qed.

Lemma storedIn_extend (pages : list Page) (t : CuckooTuple) :
  storedIn pages t -> storedIn (pages ++ [zeroPage]) t.
Proof.
  intros (p & Hin & H). exists p. split; [|done].
  apply elem_of_app. by left.
Qed.

(** Replacing a block by a well-formed page in use that keeps the live
    tuples the block had. *)
Lemma pages_update (pages : list Page) (i : nat) (old new : Page) :
  pages !! i = Some old -> pagesWf pages -> page_wf new ->
  pageLive new = true ->
  (pageLive old = true ->
   forall t, t ∈ liveTuples old -> t ∈ liveTuples new) ->
  pagesWf (<[i:=new]> pages) /\
  (forall t, t ∈ liveTuples new -> storedIn (<[i:=new]> pages) t) /\
  (forall t, storedIn pages t -> storedIn (<[i:=new]> pages) t).
Proof.
  intros Hi Hwf [Hlen Hm] Hlive Hkeep.
  pose proof (lookup_lt_Some _ _ _ Hi) as Hlt.
  assert (new ∈ <[i:=new]> pages) as Hnew by (by apply list_elem_of_insert).
  split; [|split].
  - intros p Hin. apply elem_of_insert_inv in Hin as [->|Hin]; [done|].
    by apply Hwf.
  - intros t Ht. by exists new.
  - intros t (p & Hin & Hl & Ht).
    apply list_elem_of_lookup in Hin as [j Hj].
    destruct (Nat.eq_dec i j) as [<-|Hne].
    + assert (p = old) as -> by congruence. exists new. auto.
    + exists p. split; [|done]. eapply list_elem_of_lookup_2.
      by rewrite list_lookup_insert_ne.
Qed.

Lemma readPage_lookup (index : Relation) (blkno : BlockNumber) (page : Page) :
  readPage index blkno = Ok page ->
  rd_pages index !! Z.to_nat (blkno - 1) = Some page.
Proof.
  unfold readPage. destruct (blkno <? CUCKOO_HEAD_BLKNO); [done|].
  destruct (rd_pages index !! Z.to_nat (blkno - 1)); simpl; congruence.
Qed.

Lemma reinitIfUnused_live (page : Page) :
  pageLive page = true -> reinitIfUnused page = page.
Proof.
  intros H. unfold reinitIfUnused. by rewrite pageLive_unused, H.
Qed.

Lemma reinitIfUnused_unused (page : Page) :
  pageLive page = false -> reinitIfUnused page = CuckooInitPage 0.
Proof.
  intros H. unfold reinitIfUnused. by rewrite pageLive_unused, H.
Qed.

(** Appending to a block of a well-formed relation (after the
    re-initialisation of an unused block). *)
Lemma append_to_block (state : CuckooState) (pages : list Page) (i : nat)
    (page page' : Page) (itup : CuckooTuple) :
  state_ok state -> pagesWf pages -> pages !! i = Some page ->
  CuckooPageAddItem state (reinitIfUnused page) itup = (true, page') ->
  pagesWf (<[i:=page']> pages) /\
  storedIn (<[i:=page']> pages) itup /\
  (forall t, storedIn pages t -> storedIn (<[i:=page']> pages) t).
Proof using BLCKSZ_range.
  intros Hs Hwf Hi Hadd.
  assert (page_wf (reinitIfUnused page) /\
          pageLive (reinitIfUnused page) = true) as [Hq Hql].
  { destruct (pageLive page) eqn:Hl.
    - rewrite reinitIfUnused_live by done. split; [|done].
      destruct (Hwf page (list_elem_of_lookup_2 _ _ _ Hi)) as [H1 H2].
      split; [done|by apply H2].
    - rewrite reinitIfUnused_unused by done.
      split; [apply CuckooInitPage_wf|apply CuckooInitPage_live]. }
  apply CuckooPageAddItem_live in Hadd as (Hlt & Hw' & _ & Hfl & Hup);
    [|done|done].
  assert (pageLive page' = true) as Hl'.
  { unfold pageLive, PageIsNew, CuckooPageIsDeleted in *.
    by rewrite Hfl, Hup. }
  destruct (pages_update pages i page page' Hi Hwf Hw' Hl') as (H1 & H2 & H3).
  - intros Hl t Ht. rewrite Hlt. apply elem_of_app. left.
    by rewrite reinitIfUnused_live.
  - split; [done|]. split; [|done]. apply H2. rewrite Hlt.
    apply elem_of_app. right. by apply list_elem_of_singleton.
Qed.

Lemma insertOutcome_preserves (state : CuckooState) (index index' : Relation)
    (mp : MetaPage) (itup : CuckooTuple) :
  state_ok state -> relation_wf index -> rd_meta index = Some mp ->
  insertOutcome state index mp itup index' ->
  relation_wf index' /\ sameIndex index index' /\ stored index' itup /\
  (forall t, stored index t -> stored index' t).
Proof using BLCKSZ_range.
  intros Hs Hwf Hmeta
    [(blkno & page & page' & mp' & Hread & Hadd & -> & Hstat)
    |(blkno & index1 & page' & mp' & Hnew & Hadd & -> & Hstat)].
  - apply readPage_lookup in Hread.
    destruct (append_to_block state _ _ _ _ _ Hs Hwf Hread Hadd)
      as (H1 & H2 & H3).
    unfold relation_wf, stored, sameIndex, dataBlocks. simpl.
    rewrite Hmeta. simpl. rewrite Hstat. done.
  - apply CuckooNewBuffer_Ok in Hnew
      as (Hn & Hh & Ho & Hm & [[Hp (page & Hread & Hl)]|[Hp ->]]).
    + apply readPage_lookup in Hread.
      rewrite <- (reinitIfUnused_unused page Hl) in Hadd.
      destruct (append_to_block state _ _ _ _ _ Hs Hwf Hread Hadd)
        as (H1 & H2 & H3).
      unfold relation_wf, stored, sameIndex, dataBlocks. simpl.
      rewrite Hmeta, Hp, Hn, Hh, Ho. simpl. rewrite Hstat. done.
    + unfold RelationGetNumberOfBlocks in *. rewrite Hmeta in *.
      assert ((rd_pages index ++ [zeroPage]) !! length (rd_pages index)
              = Some zeroPage) as Hi.
      { rewrite lookup_app_r by lia. by rewrite Nat.sub_diag. }
      rewrite <- (reinitIfUnused_unused zeroPage zeroPage_not_live) in Hadd.
      destruct (append_to_block state _ _ _ _ _ Hs
                  (pagesWf_extend _ Hwf) Hi Hadd) as (H1 & H2 & H3).
      unfold relation_wf, stored, sameIndex, dataBlocks. simpl.
      rewrite Hmeta, Hp, Hn, Hh, Ho. simpl. rewrite Hstat.
      replace (Z.to_nat (1 + Z.of_nat (length (rd_pages index)) - 1))
        with (length (rd_pages index)) by lia.
      split; [done|]. split; [done|]. split; [done|].
      intros t Ht. by apply H3, storedIn_extend.
Qed.

Lemma elem_of_survivors (cb : IndexBulkDeleteCallback) (l : list CuckooTuple)
    (t : CuckooTuple) :
  t ∈ survivors cb l <-> t ∈ l /\ cb (heapPtr t) = false.
Proof.
  unfold survivors. rewrite !list_elem_of_In, List.filter_In.
  by rewrite negb_true_iff.
Qed.

Lemma ckbulkdelete_preserves (index index' : Relation) (stats : option Z)
    (cb : IndexBulkDeleteCallback) (removed : Z) :
  relation_wf index ->
  ckbulkdelete index stats cb = Ok (index', removed) ->
  relation_wf index' /\ sameIndex index index' /\
  (forall t, cb (heapPtr t) = false -> stored index t -> stored index' t).
Proof using BLCKSZ_range.
  intros Hwf H.
  apply ckbulkdelete_Ok in H
    as (state & mp & pages' & notFull & Hst & Hmp & Hp & ->).
  apply bulkDeletePages_spec in Hp as (Hlen & Hpt & _);
    [|intros p Hin Hl; by apply (relation_wf_page index)].
  assert (forall i page, rd_pages index !! i = Some page ->
            exists page', pages' !! i = Some page' /\
              length (items page') = length (items page) /\
              (pageLive page = false -> page' = page) /\
              (pageLive page = true ->
               liveTuples page' = survivors cb (liveTuples page) /\
               maxoff page' = Z.of_nat (length (survivors cb (liveTuples page))) /\
               (survivors cb (liveTuples page) <> [] -> pageLive page' = true)))
    as Hpoint.
  { intros i page Hi.
    destruct (Hpt i page Hi) as (p' & nf & r & nf' & r' & H1 & H2).
    exists p'. split; [done|].
    destruct (pageLive page) eqn:Hl.
    - pose proof Hl as Hl'. unfold pageLive in Hl'.
      apply andb_true_iff in Hl' as [Hnew Hdel].
      apply bulkDeletePage_live in H2
        as (Ht & Hm & _ & Hlen' & Hup & Hsame & Hfl & _);
        [|apply (relation_wf_page index);
          [done|by eapply list_elem_of_lookup_2|done]|done].
      split; [done|]. split; [done|]. intros _.
      split; [done|]. split; [done|]. intros Hne.
      destruct (Z.eq_dec (Z.of_nat (length (survivors cb (liveTuples page))))
                         (maxoff page)) as [E|E].
      + by rewrite (Hsame E).
      + unfold pageLive, PageIsNew, CuckooPageIsDeleted in *.
        rewrite Hup, (Hfl E), Hm.
        destruct (survivors cb (liveTuples page)) eqn:Hs; [done|]. simpl.
        by rewrite Hnew, Hdel.
    - rewrite bulkDeletePage_unused in H2 by done.
      injection H2 as <- _ _. split; [done|]. split; [done|]. done. }
  split; [|split].
  - intros p' Hin. simpl in Hin.
    apply list_elem_of_lookup in Hin as [i Hi].
    pose proof (lookup_lt_Some _ _ _ Hi) as Hlt. rewrite Hlen in Hlt.
    destruct (lookup_lt_is_Some_2 _ _ Hlt) as [p Hp].
    destruct (Hpoint i p Hp) as (p'' & H1 & Hl & Hunused & Hlive).
    assert (p'' = p') as -> by congruence.
    destruct (Hwf p (list_elem_of_lookup_2 _ _ _ Hp)) as [Hcap Hm].
    split; [lia|]. intros Hl'.
    destruct (pageLive p) eqn:Hpl.
    + destruct (Hlive eq_refl) as (_ & -> & _).
      pose proof (survivors_length cb (liveTuples p)) as Hk.
      unfold liveTuples in Hk at 2. rewrite length_take in Hk.
      specialize (Hm eq_refl). lia.
    + rewrite (Hunused eq_refl) in Hl'. congruence.
  - unfold sameIndex. simpl. by rewrite Hmp.
  - intros t Hcb (p & Hin & Hl & Ht). unfold stored, dataBlocks in *.
    simpl. rewrite Hmp in Hin.
    apply list_elem_of_lookup in Hin as [i Hi].
    destruct (Hpoint i p Hi) as (p' & H1 & _ & _ & Hlive).
    destruct (Hlive Hl) as (Hlt & _ & Hne).
    assert (t ∈ survivors cb (liveTuples p)) as Hs
      by (by apply elem_of_survivors).
    exists p'. split; [by eapply list_elem_of_lookup_2|].
    split; [|by rewrite Hlt].
    apply Hne. intros E. rewrite E in Hs. by apply elem_of_nil in Hs.
Qed.

Lemma ckvacuumcleanup_preserves (index : Relation) (analyze_only : bool)
    (stats : option CleanupStats) :
  let index' := fst (ckvacuumcleanup index analyze_only stats) in
  rd_pages index' = rd_pages index /\ rd_meta index' = rd_meta index /\
  rd_natts index' = rd_natts index /\
  rd_hashproc index' = rd_hashproc index /\
  rd_options index' = rd_options index.
Proof.
  unfold ckvacuumcleanup. destruct analyze_only; simpl; [done|].
  destruct (cleanupPages _ _ _ _ _) as [[fsm' free] tuples]. done.
Qed.

Lemma sameIndex_refl (index : Relation) : sameIndex index index.
Proof. by unfold sameIndex. Qed.

Lemma sameIndex_trans (i1 i2 i3 : Relation) :
  sameIndex i1 i2 -> sameIndex i2 i3 -> sameIndex i1 i3.
Proof.
  unfold sameIndex. intros (a1 & a2 & a3 & a4) (b1 & b2 & b3 & b4).
  repeat split; congruence.
Qed.

Lemma initCuckooState_sameIndex (index index' : Relation) :
  sameIndex index index' -> initCuckooState index' = initCuckooState index.
Proof.
  intros (Hn & Hh & _ & Hm). unfold initCuckooState.
  destruct (rd_meta index') as [mp'|], (rd_meta index) as [mp|];
    simpl in Hm; try done.
  injection Hm as H1 H2 H3. by rewrite H1, H2, H3, Hn, Hh.
Qed.

Lemma applyOp_preserves (index index' : Relation) (op : Op) :
  relation_wf index -> applyOp index op = Ok index' ->
  relation_wf index' /\ sameIndex index index' /\
  (forall t, spares t op -> stored index t -> stored index' t).
Proof using BLCKSZ_range.
  intros Hwf. destruct op as [values isnull tid|cb|]; unfold applyOp.
  - intros H. apply ckinsert_Ok in H as (state & mp & Hst & Hmp & Hout).
    apply insertOutcome_preserves in Hout as (H1 & H2 & _ & H4);
      [|by eapply initCuckooState_state_ok|done|done].
    split; [done|]. split; [done|]. intros t _. apply H4.
  - intros H. apply bind_Ok in H as ([index1 r] & H & [= <-]).
    by apply ckbulkdelete_preserves in H.
  - destruct (ckvacuumcleanup_preserves index false None)
      as (Hp & Hm & Hn & Hh & Ho).
    revert Hp Hm Hn Hh Ho. generalize (fst (ckvacuumcleanup index false None)).
    intros index1 Hp Hm Hn Hh Ho [= <-].
    unfold relation_wf, sameIndex, stored, dataBlocks.
    rewrite Hp, Hm, Hn, Hh, Ho. done.
Qed.

Lemma runOps_preserves (ops : list Op) (index index' : Relation) :
  relation_wf index -> runOps index ops = Ok index' ->
  relation_wf index' /\ sameIndex index index' /\
  (forall t, (forall op, op ∈ ops -> spares t op) ->
     stored index t -> stored index' t).
Proof using BLCKSZ_range.
  revert index. induction ops as [|op rest IH]; intros index Hwf; simpl.
  - intros [= <-]. split; [done|]. split; [apply sameIndex_refl|]. auto.
  - intros H. apply bind_Ok in H as (index1 & Hop & Hrest).
    apply applyOp_preserves in Hop as (Hwf1 & Hs1 & Hst1); [|done].
    apply IH in Hrest as (Hwf2 & Hs2 & Hst2); [|done].
    split; [done|]. split; [by eapply sameIndex_trans|].
    intros t Hsp Ht. apply Hst2; [intros o Ho; apply Hsp; by right|].
    apply Hst1; [apply Hsp; by left|done].
Qed.

(** ** Every index the code builds is well formed *)

Lemma flushCachedPage_wf (index index1 : Relation)
    (buildstate : CuckooBuildState) (mp : MetaPage) :
  relation_wf index -> rd_meta index = Some mp ->
  page_wf (data buildstate) -> pageLive (data buildstate) = true ->
  flushCachedPage index buildstate = Ok index1 ->
  relation_wf index1 /\ rd_meta index1 = Some mp.
Proof.
  intros Hwf Hmeta Hp Hl H. unfold flushCachedPage in H.
  apply bind_Ok in H as ([blkno index0] & Hnew & [= <-]).
  apply CuckooNewBuffer_Ok in Hnew
    as (_ & _ & _ & Hm & [[Hpages (page & Hread & Hunused)]|[Hpages ->]]).
  - apply readPage_lookup in Hread. unfold relation_wf. simpl.
    rewrite Hpages, Hm. split; [|done].
    apply (pages_update _ _ page); try done. intros Hlive. congruence.
  - unfold relation_wf, RelationGetNumberOfBlocks. simpl.
    rewrite Hpages, Hm, Hmeta. split; [|done].
    replace (Z.to_nat (1 + Z.of_nat (length (rd_pages index)) - 1))
      with (length (rd_pages index)) by lia.
    apply (pages_update _ _ zeroPage); try done.
    + rewrite lookup_app_r by lia. by rewrite Nat.sub_diag.
    + by apply pagesWf_extend.
Qed.

Lemma cuckooBuildCallback_wf (index index' : Relation) (row : HeapRow)
    (bs bs' : CuckooBuildState) (mp : MetaPage) :
  state_ok (ckstate bs) -> relation_wf index -> rd_meta index = Some mp ->
  page_wf (data bs) -> pageLive (data bs) = true ->
  cuckooBuildCallback index row bs = Ok (index', bs') ->
  relation_wf index' /\ rd_meta index' = Some mp /\
  page_wf (data bs') /\ pageLive (data bs') = true.
Proof using BLCKSZ_range.
  intros Hs Hwf Hmeta Hp Hl. unfold cuckooBuildCallback.
  assert (forall p q t, page_wf p -> pageLive p = true ->
            CuckooPageAddItem (ckstate bs) p t = (true, q) ->
            page_wf q /\ pageLive q = true) as Hadd.
  { intros p q t Hpw Hpl H.
    apply CuckooPageAddItem_live in H as (_ & Hq & _ & Hfl & Hup);
      [|done|done].
    split; [done|]. unfold pageLive, PageIsNew, CuckooPageIsDeleted in *.
    by rewrite Hfl, Hup. }
  destruct (CuckooPageAddItem (ckstate bs) (data bs) _) as [[] p] eqn:H1.
  - intros [= <- <-]. simpl. destruct (Hadd _ _ _ Hp Hl H1). done.
  - intros H. apply bind_Ok in H as (index1 & Hflush & H). simpl in H.
    destruct (CuckooPageAddItem (ckstate bs) (CuckooInitPage 0) _)
      as [[] q] eqn:H2; [|done].
    injection H as <- <-. simpl.
    destruct (flushCachedPage_wf _ _ _ _ Hwf Hmeta Hp Hl Hflush).
    destruct (Hadd _ _ _ (CuckooInitPage_wf 0) CuckooInitPage_live H2). done.
Qed.

Lemma buildScan_wf (rows : list HeapRow) :
  forall (index index' : Relation) (bs bs' : CuckooBuildState) (mp : MetaPage),
  state_ok (ckstate bs) -> relation_wf index -> rd_meta index = Some mp ->
  page_wf (data bs) -> pageLive (data bs) = true ->
  buildScan index rows bs = Ok (index', bs') ->
  relation_wf index' /\ rd_meta index' = Some mp /\
  page_wf (data bs') /\ pageLive (data bs') = true.
Proof using BLCKSZ_range.
  induction rows as [|row rest IH];
    intros index index' bs bs' mp Hs Hwf Hmeta Hp Hl; simpl.
  - intros [= <- <-]. done.
  - intros H. apply bind_Ok in H as ([index1 bs1] & Hcb & H). simpl in H.
    pose proof (cuckooBuildCallback_ckstate _ _ _ _ _ Hcb) as Hst.
    apply cuckooBuildCallback_wf with (mp := mp) in Hcb
      as (H1 & H2 & H3 & H4); try done.
    apply (IH _ _ _ _ mp) in H; try done. by rewrite Hst.
Qed.

Lemma ckbuild_wf (heap : list HeapRow) (index built : Relation) (n : Z) :
  ckbuild heap index = Ok (built, n) -> relation_wf built.
Proof using BLCKSZ_range.
  unfold ckbuild. destruct (negb _); [done|]. intros H.
  apply bind_Ok in H as (state & Hst & H).
  apply bind_Ok in H as ([index1 bs1] & Hscan & H).
  apply buildScan_wf with (mp := CuckooFillMetapage index) in Hscan
    as (H1 & H2 & H3 & H4).
  - destruct (count bs1 >? 0).
    + apply bind_Ok in H as (index2 & Hflush & [= <- _]).
      by apply (flushCachedPage_wf _ _ _ _ H1 H2 H3 H4) in Hflush as [? _].
    + by injection H as <- _.
  - simpl. by eapply initCuckooState_state_ok.
  - intros p Hp. by apply elem_of_nil in Hp.
  - done.
  - apply CuckooInitPage_wf.
  - apply CuckooInitPage_live.
Qed.

(** The states reached from a build by inserts and bulk deletes are well
    formed: the theorems stated for well-formed relations apply to them. *)
Lemma reachable_wf (index : Relation) : reachable index -> relation_wf index.
Proof using BLCKSZ_range.
  intros (heap & index0 & built & n & ops & Hbuild & _ & Hrun).
  apply ckbuild_wf in Hbuild.
  by apply runOps_preserves in Hrun as [? _].
Qed.

(** ** Scan keys that supply a row's values *)

Lemma fillScanKeys_supply (ncols : nat) (values : list Datum)
    (isnull : list bool) (keys : list ScanKeyData) :
  forall (v : list Datum) (n : list bool),
  length v = ncols -> length n = ncols ->
  (forall k, k ∈ keys -> keyMatchesRow ncols values isnull k) ->
  (forall j, default true (n !! j) = false ->
     default 0 (v !! j) = default 0 (values !! j)) ->
  exists v' n',
    fillScanKeys ncols keys v n = Some (v', n') /\
    (forall j, default true (n' !! j) = false ->
       default 0 (v' !! j) = default 0 (values !! j)) /\
    (forall j, default true (n !! j) = false ->
       default true (n' !! j) = false) /\
    (forall k, k ∈ keys ->
       default true (n' !! Z.to_nat (sk_attno k - 1)) = false) /\
    (forall j, default true (n' !! j) = false ->
       default true (n !! j) = false \/
       exists k, k ∈ keys /\ Z.to_nat (sk_attno k - 1) = j).
Proof.
  induction keys as [|k rest IH]; intros v n Hv Hn Hkeys Hagree; simpl.
  - exists v, n. split; [done|]. split; [done|]. split; [done|].
    split; [|auto]. intros k Hk. by apply elem_of_nil in Hk.
  - destruct (Hkeys k ltac:(left)) as (Hnull & Hrange & Hrow & Hval).
    fold (keyIsNull k). rewrite Hnull. simpl.
    destruct (Z.leb_spec 0 (sk_attno k - 1)); [|lia].
    destruct (Z.ltb_spec (sk_attno k - 1) (Z.of_nat ncols)); [|lia]. simpl.
    set (a := Z.to_nat (sk_attno k - 1)) in *.
    assert (a < ncols)%nat as Ha by lia.
    destruct (IH (<[a := sk_argument k]> v) (<[a := false]> n))
      as (v' & n' & Hfill & H1 & H2 & H3 & H4).
    + by rewrite length_insert.
    + by rewrite length_insert.
    + intros k' Hk'. apply Hkeys. by right.
    + intros j. destruct (Nat.eq_dec a j) as [<-|Hne].
      * intros _. rewrite list_lookup_insert_eq by lia. by rewrite Hval.
      * rewrite !list_lookup_insert_ne by done. apply Hagree.
    + exists v', n'. split; [done|]. split; [done|]. split; [|split].
      * intros j Hj. apply H2. destruct (Nat.eq_dec a j) as [<-|Hne].
        -- by rewrite list_lookup_insert_eq by lia.
        -- by rewrite list_lookup_insert_ne by done.
      * intros k' Hk'. apply elem_of_cons in Hk' as [->|Hk']; [|by apply H3].
        apply H2. fold a. by rewrite list_lookup_insert_eq by lia.
      * intros j Hj. destruct (H4 j Hj) as [Hn1|(k' & Hk' & Hkj)].
        -- destruct (Nat.eq_dec a j) as [<-|Hne].
           ++ right. exists k. split; [left|done].
           ++ rewrite list_lookup_insert_ne in Hn1 by done. by left.
        -- right. exists k'. split; [by right|done].
Qed.

(** The fingerprint a scan computes from keys that supply a row's values
    is the fingerprint of the row. *)
Lemma scan_fingerprint_of_row (state : CuckooState) (keys : list ScanKeyData)
    (values : list Datum) (isnull : list bool) :
  keysSupply (nColumns state) keys values isnull ->
  exists v' n',
    fillScanKeys (nColumns state) keys (replicate (nColumns state) 0)
                 (replicate (nColumns state) true) = Some (v', n') /\
    computeFingerprint state v' n' = computeFingerprint state values isnull.
Proof.
  intros [Hkeys Hcover].
  destruct (fillScanKeys_supply (nColumns state) values isnull keys
              (replicate (nColumns state) 0) (replicate (nColumns state) true))
    as (v' & n' & Hfill & H1 & _ & H3 & H4);
    [apply length_replicate|apply length_replicate|done| |].
  { intros j Hj. by rewrite replicate_true_null in Hj. }
  exists v', n'. split; [done|].
  unfold computeFingerprint. f_equal.
  erewrite (fingerprintLoop_ext state v' values n' isnull); [done|].
  intros j Hj.
  assert (default true (n' !! j) = default true (isnull !! j)) as Heq.
  { destruct (default true (isnull !! j)) eqn:Hrow.
    - destruct (default true (n' !! j)) eqn:Hscan; [done|].
      destruct (H4 j Hscan) as [Hinit|(k & Hk & <-)].
      + by rewrite replicate_true_null in Hinit.
      + destruct (Hkeys k Hk) as (_ & _ & Hr & _). congruence.
    - destruct (Hcover j ltac:(lia) Hrow) as (k & Hk & Ha).
      specialize (H3 k Hk). by replace (Z.to_nat (sk_attno k - 1)) with j in H3 by lia. }
  split; [done|]. intros Hnn. by apply H1.
Qed.

Lemma elem_of_matching (fp : Z) (l : list CuckooTuple) (t : CuckooTuple) :
  t ∈ l -> fingerprint t = fp -> heapPtr t ∈ matching fp l.
Proof.
  intros Hin Hfp. unfold matching. apply list_elem_of_In, in_map.
  apply List.filter_In. split; [by apply list_elem_of_In|].
  by apply Z.eqb_eq.
Qed.

Lemma stored_storedTuples (index : Relation) (t : CuckooTuple) :
  stored index t -> t ∈ storedTuples index.
Proof.
  intros (p & Hin & Hl & Ht). unfold storedTuples.
  apply list_elem_of_In, in_flat_map. exists p.
  split; [by apply list_elem_of_In|]. rewrite Hl. by apply list_elem_of_In.
Qed.

(** ** The cost hint *)

Lemma double_eqb_eq (x y : double) : double_eqb x y = true -> x = y.
Proof.
  destruct x as [s|s| |s m e], y as [s'|s'| |s' m' e']; simpl; try done.
  - intros H. apply Bool.eqb_prop in H. by subst.
  - intros H. apply Bool.eqb_prop in H. by subst.
  - intros H. apply andb_true_iff in H as [H He].
    apply andb_true_iff in H as [Hs Hm].
    apply Bool.eqb_prop in Hs. apply Pos.eqb_eq in Hm. apply Z.eqb_eq in He.
    by subst.
Qed.

Lemma zrange_In (lo z : Z) (n : nat) :
  lo <= z < lo + Z.of_nat n -> In z (zrange lo n).
Proof.
  intros H. unfold zrange. apply in_map_iff.
  exists (Z.to_nat (z - lo)). split; [lia|]. apply in_seq. lia.
Qed.

(** The literal [0.0001] is the binary64 number nearest to 1/10000: it is
    above it by less than [2^-67]. *)
Lemma double_0_0001_value :
  exists lo, double_value double_0_0001 = Some lo /\
    ((1 # 10000) < lo)%Q /\ (lo - (1 # 10000) < 1 # (2 ^ 67))%Q.
Proof.
  eexists. split; [reflexivity|]. split; vm_compute; reflexivity.
Qed.

Lemma fprCheck_all :
  forallb (fun bits => forallb (fprCheck bits) (zrange 2 7)) (zrange 4 29)
  = true.
Proof. vm_compute. reflexivity. Qed.

(** C9. For [bitsPerTag] in [4, 32] and [tagsPerBucket] in [2, 8] the
    cost hint is a finite [double]; when [(2 * tagsPerBucket) /
    2^bitsPerTag] is at least 0.0001 the hint denotes exactly that
    quotient clamped to [0.0001, 1], and when it is below 0.0001 the hint
    is the [double] literal [0.0001]. *)
Theorem calculateFalsePositiveRate_clamped (bitsPerTag tagsPerBucket : Z) :
  4 <= bitsPerTag <= 32 -> 2 <= tagsPerBucket <= 8 ->
  exists r v,
    calculateFalsePositiveRate bitsPerTag tagsPerBucket = Some r /\
    double_value r = Some v /\
    let q := fprFormula bitsPerTag tagsPerBucket in
    (((1 # 10000) <= q)%Q -> (v == Qclamp (1 # 10000) 1 q)%Q) /\
    (~ ((1 # 10000) <= q)%Q -> r = double_0_0001).
Proof.
  intros Hb Ht. pose proof fprCheck_all as H.
  rewrite forallb_forall in H.
  specialize (H bitsPerTag (zrange_In 4 bitsPerTag 29 ltac:(lia))).
  rewrite forallb_forall in H.
  specialize (H tagsPerBucket (zrange_In 2 tagsPerBucket 7 ltac:(lia))).
  unfold fprCheck in H.
  destruct (calculateFalsePositiveRate bitsPerTag tagsPerBucket) as [r|];
    [|done].
  destruct (double_value r) as [v|] eqn:Hv; [|done].
  exists r, v. split; [reflexivity|]. split; [exact Hv|]. simpl.
  destruct (Qle_bool (1 # 10000) (fprFormula bitsPerTag tagsPerBucket))
    eqn:Hle.
  - apply Qle_bool_iff in Hle. apply Qeq_bool_iff in H. split; [done|].
    intros Hn. by destruct Hn.
  - split.
    + intros Hq. apply Qle_bool_iff in Hq. congruence.
    + intros _. by apply double_eqb_eq.
Qed.

(** ** Adequacy of the model's bounded loops *)

(** The walk of [ckinsert] over the free list ends by its own test
    [nStart >= nEnd]: any fuel that covers the remaining entries gives
    the same result, so the fuel [insertSlowPath] passes never cuts the
    loop short. *)
Lemma insertSlowLoop_fuel (state : CuckooState) (index : Relation)
    (mp : MetaPage) (itup : CuckooTuple) (f1 : nat) :
  forall (f2 : nat) (n : Z),
  0 <= n -> nEnd (mp_meta mp) <= 65535 ->
  nEnd (mp_meta mp) - n <= Z.of_nat f1 ->
  nEnd (mp_meta mp) - n <= Z.of_nat f2 ->
  insertSlowLoop f1 state index mp itup n
  = insertSlowLoop f2 state index mp itup n.
Proof.
  induction f1 as [|f1 IH]; intros f2 n Hn He H1 H2.
  - destruct f2; simpl; destruct (Z.geb_spec n (nEnd (mp_meta mp)));
      (done || lia).
  - destruct f2; simpl; destruct (Z.geb_spec n (nEnd (mp_meta mp)));
      try (done || lia).
    destruct (notFullPage (mp_meta mp) !! Z.to_nat n) as [blkno|]; [|done].
    simpl. destruct (readPage index blkno) as [page|]; [|done]. simpl.
    destruct (CuckooPageAddItem state (reinitIfUnused page) itup) as [[] p];
      [done|].
    unfold uint16. rewrite Z.mod_small by lia. apply IH; lia.
Qed.

Lemma pagesWfb_ok (pages : list Page) :
  forallb pageWfb pages = true -> pagesWf pages.
Proof.
  intros H page Hin. rewrite forallb_forall in H.
  specialize (H page (proj1 (list_elem_of_In _ _) Hin)).
  unfold pageWfb in H. apply andb_true_iff in H as [Hlen Hm].
  apply Nat.eqb_eq in Hlen. split; [done|]. intros Hl.
  rewrite Hl in Hm. simpl in Hm. apply andb_true_iff in Hm as [H1 H2].
  apply Z.leb_le in H1, H2. done.
Qed.

(** * Further properties of the engine *)

(** ** Fingerprints: range and what they depend on *)

(** The loop reads a column only through the 32-bit hash of its value. *)
Lemma fingerprintLoop_hash_ext (state : CuckooState)
    (values values' : list Datum) (isnull isnull' : list bool) (n i : nat)
    (hash : Z) :
  (forall j, (i <= j < i + n)%nat ->
     default true (isnull !! j) = default true (isnull' !! j) /\
     (default true (isnull !! j) = false ->
      uint32 (hashFn state j (default 0 (values !! j)))
      = uint32 (hashFn state j (default 0 (values' !! j))))) ->
  fingerprintLoop state values isnull i n hash
  = fingerprintLoop state values' isnull' i n hash.
Proof.
  revert i hash. induction n as [|n IH]; intros i hash H; simpl; [done|].
  destruct (H i ltac:(lia)) as [Hn Hv]. rewrite <- Hn.
  destruct (default true (isnull !! i)).
  - apply IH. intros j Hj. apply H. lia.
  - rewrite <- Hv by done. apply IH. intros j Hj. apply H. lia.
Qed.

(** X1. A fingerprint computed with a state of [initCuckooState] fits the
    tag width: it lies between 1 and [2^bitsPerTag - 1] (and is 1 when
    the width is 0). *)
Theorem computeFingerprint_range (index : Relation) (state : CuckooState)
    (values : list Datum) (isnull : list bool) :
  initCuckooState index = Ok state ->
  1 <= computeFingerprint state values isnull
    <= Z.max 1 (2 ^ bitsPerTag (state_opts state) - 1).
Proof.
  intros H. apply initCuckooState_Ok in H as (mp & _ & Hm & Ho & _).
  rewrite Ho.
  assert (0 <= bitsPerTag (opts (mp_meta mp)) < 32) as Hb.
  { destruct (Z_lt_le_dec (bitsPerTag (opts (mp_meta mp))) 32) as [Hlt|Hge].
    - split; [|done].
      destruct (Z_lt_le_dec (bitsPerTag (opts (mp_meta mp))) 0); [|done].
      revert Hm. unfold computeTagMask, shl_u32.
      replace (0 <=? bitsPerTag (opts (mp_meta mp))) with false
        by (symmetry; apply Z.leb_gt; lia). done.
    - rewrite computeTagMask_ge32 in Hm by done. done. }
  rewrite computeTagMask_lt32 in Hm by done. injection Hm as Hm.
  rewrite computeFingerprint_force, <- Hm, Z.land_ones by lia.
  set (x := fingerprintLoop state values isnull 0 (nColumns state) 0).
  assert (0 < 2 ^ bitsPerTag (opts (mp_meta mp)))
    by (apply Z.pow_pos_nonneg; lia).
  pose proof (Z.mod_pos_bound x (2 ^ bitsPerTag (opts (mp_meta mp)))
                ltac:(lia)).
  unfold forceNonZero.
  destruct (Z.eqb_spec (x mod 2 ^ bitsPerTag (opts (mp_meta mp))) 0); lia.
Qed.

(** X2. The fingerprint of a row depends only on which columns are null
    and on the 32-bit hashes of the non-null columns: whatever the value
    slots of null columns hold, and whichever values hash alike, the
    fingerprint is the same. *)
Theorem computeFingerprint_hash_only (state : CuckooState)
    (values values' : list Datum) (isnull isnull' : list bool) :
  (forall j, (j < nColumns state)%nat ->
     default true (isnull !! j) = default true (isnull' !! j)) ->
  (forall j, (j < nColumns state)%nat ->
     default true (isnull !! j) = false ->
     uint32 (hashFn state j (default 0 (values !! j)))
     = uint32 (hashFn state j (default 0 (values' !! j)))) ->
  computeFingerprint state values isnull
  = computeFingerprint state values' isnull'.
Proof.
  intros Hn Hv. unfold computeFingerprint.
  rewrite (fingerprintLoop_hash_ext state values values' isnull isnull');
    [done|].
  intros j Hj. split; [apply Hn; lia|apply Hv; lia].
Qed.

(** ** Scans: what is returned, and the cached fingerprint *)

Lemma fillScanKeys_Some (ncols : nat) (skey : list ScanKeyData)
    (values : list Datum) (isnull : list bool) :
  (forall k, k ∈ skey -> keyIsNull k = false) ->
  exists v n, fillScanKeys ncols skey values isnull = Some (v, n).
Proof.
  intros H.
  destruct (fillScanKeys ncols skey values isnull) as [[v n]|] eqn:E;
    [by exists v, n|].
  apply fillScanKeys_None in E as (k & Hk & Hn). rewrite (H k Hk) in Hn. done.
Qed.

Lemma ckrescan_Some (scan : IndexScanDescData) (keys : list ScanKeyData) :
  length keys = numberOfKeys scan ->
  exists kd,
    ckrescan scan (Some keys)
    = mkScan (numberOfKeys scan) kd
             (mkScanOpaque (so_fingerprint (opaque scan)) false
                           (so_state (opaque scan))) /\
    take (numberOfKeys scan) kd = keys.
Proof.
  intros Hlen. unfold ckrescan.
  destruct (Z.ltb_spec 0 (Z.of_nat (numberOfKeys scan))).
  - eexists. split; [reflexivity|].
    rewrite take_app_length'; [by apply take_ge; lia|].
    rewrite length_take. lia.
  - eexists. split; [reflexivity|].
    assert (numberOfKeys scan = 0%nat) as E by lia. rewrite E in *.
    by destruct keys.
Qed.

(** X3. A scan given keys none of which is null returns exactly the
    locators of the stored tuples whose fingerprint equals the fingerprint
    of the keys, and their number; [ckrescan] makes it use the new keys,
    and the later [ckgetbitmap] calls of the scan use the fingerprint it
    cached, on whatever the index then holds, and leave the descriptor
    alone. *)
Theorem ckgetbitmap_exact (index : Relation) (scan : IndexScanDescData)
    (tbm : TIDBitmap) (keys : list ScanKeyData) :
  relation_wf index ->
  length keys = numberOfKeys scan ->
  (forall k, k ∈ keys -> keyIsNull k = false) ->
  exists values isnull scan',
    fillScanKeys (nColumns (so_state (opaque scan))) keys
                 (replicate (nColumns (so_state (opaque scan))) 0)
                 (replicate (nColumns (so_state (opaque scan))) true)
    = Some (values, isnull) /\
    let fp := computeFingerprint (so_state (opaque scan)) values isnull in
    ckgetbitmap index (ckrescan scan (Some keys)) tbm
    = (Z.of_nat (length (matching fp (storedTuples index))),
       tbm ++ matching fp (storedTuples index), scan') /\
    forall index2 tbm2, relation_wf index2 ->
      ckgetbitmap index2 scan' tbm2
      = (Z.of_nat (length (matching fp (storedTuples index2))),
         tbm2 ++ matching fp (storedTuples index2), scan').
Proof.
  intros Hwf Hlen Hnn.
  destruct (fillScanKeys_Some (nColumns (so_state (opaque scan))) keys
              (replicate (nColumns (so_state (opaque scan))) 0)
              (replicate (nColumns (so_state (opaque scan))) true) Hnn)
    as (v & n & Hfill).
  destruct (ckrescan_Some scan keys Hlen) as (kd & -> & Htake).
  exists v, n. eexists. split; [done|]. simpl. split.
  - unfold ckgetbitmap. simpl. rewrite Htake, Hfill. simpl.
    rewrite scanPages_spec by (by apply relation_wf_scan). simpl.
    reflexivity.
  - intros index2 tbm2 Hwf2. unfold ckgetbitmap. simpl.
    rewrite scanPages_spec by (by apply relation_wf_scan). simpl.
    reflexivity.
Qed.

(** ** Bulk delete: the whole index *)

Lemma storedTuples_flat_map (index : Relation) :
  storedTuples index = flat_map visibleTuples (dataBlocks index).
Proof. reflexivity. Qed.

Lemma survivors_flat_map {A : Type} (cb : IndexBulkDeleteCallback)
    (f : A -> list CuckooTuple) (l : list A) :
  survivors cb (flat_map f l) = flat_map (fun x => survivors cb (f x)) l.
Proof.
  induction l as [|x l IH]; simpl; [done|].
  by rewrite survivors_app, IH.
Qed.

Lemma survivors_idemp (cb : IndexBulkDeleteCallback) (l : list CuckooTuple) :
  survivors cb (survivors cb l) = survivors cb l.
Proof.
  induction l as [|t l IH]; simpl; [done|].
  destruct (negb (cb (heapPtr t))) eqn:E; simpl; [|done].
  by rewrite E, IH.
Qed.

Lemma flat_map_pointwise {A B : Type} (g h : A -> list B) (l l' : list A) :
  length l' = length l ->
  (forall i x, l !! i = Some x ->
     exists x', l' !! i = Some x' /\ g x' = h x) ->
  flat_map g l' = flat_map h l.
Proof.
  revert l'. induction l as [|x l IH]; intros [|x' l'] Hlen H; simpl in *;
    try done.
  destruct (H 0%nat x eq_refl) as (y & [= <-] & ->).
  f_equal. apply IH; [lia|]. intros i z Hi. apply (H (S i) z Hi).
Qed.

(** The effect of [ckbulkdelete] on each block, through what a walk sees
    of it. *)
Lemma bulkDeletePages_visible (state : CuckooState)
    (cb : IndexBulkDeleteCallback) (pages pages' : list Page)
    (blkno : BlockNumber) (nf nf' : list BlockNumber) (r r' : Z) :
  pagesWf pages ->
  bulkDeletePages state cb blkno pages nf r = (pages', nf', r') ->
  length pages' = length pages /\
  forall i page, pages !! i = Some page ->
    exists page', pages' !! i = Some page' /\
      visibleTuples page' = survivors cb (visibleTuples page) /\
      length (items page') = length (items page) /\
      (pageLive page' = true ->
       pageLive page = true /\
       maxoff page' = Z.of_nat (length (liveTuples page'))) /\
      (survivors cb (visibleTuples page) = visibleTuples page ->
       page' = page).
Proof using BLCKSZ_range.
  intros Hwf Hp.
  apply bulkDeletePages_spec in Hp as (Hlen & Hpt & _).
  2:{ intros p Hin Hl. destruct (Hwf p Hin) as [H1 H2].
      split; [done|by apply H2]. }
  split; [done|]. intros i page Hi.
  destruct (Hpt i page Hi) as (p' & a & b & a' & b' & H1 & H2).
  exists p'. split; [done|]. unfold visibleTuples.
  destruct (pageLive page) eqn:Hl.
  - pose proof Hl as Hl'. unfold pageLive in Hl'.
    apply andb_true_iff in Hl' as [Hnew Hdel].
    destruct (Hwf page (list_elem_of_lookup_2 _ _ _ Hi)) as [Hcap Hm].
    apply bulkDeletePage_live in H2
      as (Ht & Hmx & _ & Hlen' & Hup & Hsame & Hfl & _);
      [|split; [done|by apply Hm]|done].
    assert (length (liveTuples page) = Z.to_nat (maxoff page)) as Hll.
    { unfold liveTuples. rewrite length_take. specialize (Hm Hl). lia. }
    assert (pageLive p' = true \/ liveTuples p' = []) as Hcase.
    { destruct (Z.eq_dec (Z.of_nat (length (survivors cb (liveTuples page))))
                         (maxoff page)) as [E|E].
      - left. by rewrite (Hsame E).
      - destruct (survivors cb (liveTuples page)) eqn:Hs; [by right|].
        left. unfold pageLive, PageIsNew, CuckooPageIsDeleted in *.
        rewrite Hup, (Hfl E), Hmx. simpl. by rewrite Hnew, Hdel. }
    split; [|split; [done|split]].
    + destruct Hcase as [->| E]; [done|].
      rewrite <- Ht, E. by destruct (pageLive p').
    + intros _. split; [done|]. by rewrite Ht.
    + intros E. apply Hsame. rewrite E. specialize (Hm Hl). lia.
  - rewrite bulkDeletePage_unused in H2 by done. injection H2 as <- _ _.
    rewrite Hl. simpl. repeat split; done.
Qed.

Lemma droppedTotal_length (cb : IndexBulkDeleteCallback) (pages : list Page) :
  pagesWf pages ->
  droppedTotal cb pages
  = Z.of_nat (length (flat_map visibleTuples pages))
    - Z.of_nat (length (survivors cb (flat_map visibleTuples pages))).
Proof.
  induction pages as [|page rest IH]; intros Hwf; [done|].
  destruct (Hwf page ltac:(left)) as [Hcap Hm].
  change (flat_map visibleTuples (page :: rest))
    with (visibleTuples page ++ flat_map visibleTuples rest).
  rewrite survivors_app, !length_app. cbn [droppedTotal].
  rewrite IH by (intros p Hp; apply Hwf; by right).
  assert ((if pageLive page
           then maxoff page
                - Z.of_nat (length (survivors cb (liveTuples page)))
           else 0)
          = Z.of_nat (length (visibleTuples page))
            - Z.of_nat (length (survivors cb (visibleTuples page)))) as ->.
  { unfold visibleTuples. destruct (pageLive page); [|done].
    specialize (Hm eq_refl). unfold liveTuples at 2.
    rewrite length_take. lia. }
  lia.
Qed.

Lemma ckbulkdelete_stored (index index' : Relation)
    (stats : option Z) (callback : IndexBulkDeleteCallback) (removed : Z) :
  relation_wf index ->
  ckbulkdelete index stats callback = Ok (index', removed) ->
  storedTuples index' = survivors callback (storedTuples index) /\
  removed = default 0 stats
            + (Z.of_nat (length (storedTuples index))
               - Z.of_nat (length (storedTuples index'))).
Proof using BLCKSZ_range.
  intros Hwf H.
  apply ckbulkdelete_Ok in H
    as (state & mp & pages' & notFull & Hst & Hmp & Hp & ->).
  pose proof Hp as Hp2.
  apply bulkDeletePages_visible in Hp as (Hlen & Hpt); [|done].
  apply bulkDeletePages_spec in Hp2 as (_ & _ & Hrem & _).
  2:{ intros p Hin Hl. by apply (relation_wf_page index). }
  assert (flat_map visibleTuples pages'
          = survivors callback (flat_map visibleTuples (rd_pages index)))
    as Hstored.
  { rewrite survivors_flat_map. apply flat_map_pointwise; [done|].
    intros i x Hi. destruct (Hpt i x Hi) as (x' & H1 & H2 & _). eauto. }
  assert (storedTuples index = flat_map visibleTuples (rd_pages index))
    as Hold by (unfold storedTuples, dataBlocks; by rewrite Hmp).
  match goal with
  | |- storedTuples ?r = _ /\ _ =>
      assert (storedTuples r = flat_map visibleTuples pages') as Hnew by done;
      rewrite Hnew
  end.
  rewrite Hold, Hstored. split; [done|].
  rewrite Hrem, droppedTotal_length by done. reflexivity.
Qed.

(** X4. After [ckbulkdelete] the index holds exactly the tuples it held
    whose rows the callback did not report dead, in the same order;
    [tuples_removed] grew by the number of tuples that went; and no scan
    of the resulting index adds to the bitmap a row the callback reported
    dead. *)
Theorem ckbulkdelete_removes_dead (index index' : Relation)
    (stats : option Z) (callback : IndexBulkDeleteCallback) (removed : Z) :
  relation_wf index ->
  ckbulkdelete index stats callback = Ok (index', removed) ->
  storedTuples index' = survivors callback (storedTuples index) /\
  removed = default 0 stats
            + (Z.of_nat (length (storedTuples index))
               - Z.of_nat (length (storedTuples index'))) /\
  forall scan tbm n tbm' scan' tid,
    ckgetbitmap index' scan tbm = (n, tbm', scan') ->
    tid ∈ drop (length tbm) tbm' -> callback tid = false.
Proof using BLCKSZ_range.
  intros Hwf H.
  destruct (ckbulkdelete_stored _ _ _ _ _ Hwf H) as [Hstored Hrem].
  destruct (ckbulkdelete_preserves _ _ _ _ _ Hwf H) as (Hwf' & _).
  split; [done|]. split; [done|].
  intros scan tbm n tbm' scan' tid Hscan Hin.
  assert (exists fp, tbm' = tbm \/
            tbm' = tbm ++ matching fp (storedTuples index'))
    as (fp & Htbm).
  { revert Hscan. unfold ckgetbitmap.
    destruct (if fingerprintValid (opaque scan) then _ else _) as [so'|];
      [|intros [= _ <- _]; exists 0; by left].
    rewrite scanPages_spec by (by apply relation_wf_scan).
    simpl. intros [= _ <- _]. exists (so_fingerprint so'). by right. }
  destruct Htbm as [->| ->].
  - rewrite drop_all in Hin. by apply elem_of_nil in Hin.
  - rewrite drop_app_length, Hstored in Hin. unfold matching in Hin.
    apply list_elem_of_In, in_map_iff in Hin as (t & <- & Ht).
    apply List.filter_In in Ht as [Ht _].
    apply list_elem_of_In, elem_of_survivors in Ht as [_ Ht]. done.
Qed.

Lemma bulkDeletePage_stays_live (state : CuckooState)
    (cb : IndexBulkDeleteCallback) (blkno : BlockNumber) (page page' : Page)
    (nf nf' : list BlockNumber) (r r' : Z) :
  page_wf page -> pageLive page = true ->
  bulkDeletePage state cb blkno page nf r = (page', nf', r') ->
  maxoff page' <> 0 -> pageLive page' = true.
Proof using BLCKSZ_range.
  intros Hwf Hl H Hne. pose proof Hl as Hl'. unfold pageLive in Hl'.
  apply andb_true_iff in Hl' as [Hnew Hdel].
  apply bulkDeletePage_live in H
    as (_ & Hmx & _ & _ & Hup & Hsame & Hfl & _); [|done|done].
  destruct (Z.eq_dec (Z.of_nat (length (survivors cb (liveTuples page))))
                     (maxoff page)) as [E|E].
  - by rewrite (Hsame E).
  - unfold pageLive, PageIsNew, CuckooPageIsDeleted in *.
    rewrite Hup, (Hfl E). apply Z.eqb_neq in Hne. rewrite Hne.
    by rewrite Hnew, Hdel.
Qed.

(** The list of pages with room that a pass builds is determined by the
    pages it leaves. *)
Lemma bulkDeletePages_notFull (state : CuckooState)
    (cb : IndexBulkDeleteCallback) (pages : list Page) :
  forall (blkno : BlockNumber) (nf : list BlockNumber) (r : Z)
         (pages' : list Page) (nf' : list BlockNumber) (r' : Z),
  pagesWf pages ->
  bulkDeletePages state cb blkno pages nf r = (pages', nf', r') ->
  nf' = notFullOf state blkno pages' nf.
Proof using BLCKSZ_range.
  induction pages as [|page rest IH]; intros blkno nf r pages' nf' r' Hwf;
    simpl.
  - by intros [= <- <- <-].
  - destruct (bulkDeletePage state cb blkno page nf r)
      as [[p1 nf1] r1] eqn:Hp.
    destruct (bulkDeletePages state cb (blkno + 1) rest nf1 r1)
      as [[ps nf2] r2] eqn:Hrest.
    intros [= <- <- <-]. simpl.
    apply IH in Hrest; [|intros p Hin; apply Hwf; by right].
    rewrite Hrest. f_equal.
    destruct (Hwf page ltac:(left)) as [Hcap Hm].
    destruct (pageLive page) eqn:Hl.
    + pose proof Hp as Hp'.
      apply bulkDeletePage_live in Hp' as (_ & _ & _ & _ & _ & _ & _ & ->);
        [|split; [done|by apply Hm]|done].
      destruct (Z.eqb_spec (maxoff p1) 0) as [E|E]; simpl.
      * by rewrite !andb_false_r.
      * by rewrite (bulkDeletePage_stays_live _ _ _ _ _ _ _ _ _
                      (conj Hcap (Hm eq_refl)) Hl Hp E).
    + rewrite bulkDeletePage_unused in Hp by done.
      injection Hp as <- <- <-. by rewrite Hl.
Qed.

(** A pass over pages on which the callback reports no stored row dead
    changes none of them. *)
Lemma bulkDeletePages_fixed (state : CuckooState)
    (cb : IndexBulkDeleteCallback) (pages : list Page) :
  forall (blkno : BlockNumber) (nf : list BlockNumber) (r : Z),
  (forall p, p ∈ pages -> pageLive p = true ->
     page_wf p /\ survivors cb (liveTuples p) = liveTuples p) ->
  bulkDeletePages state cb blkno pages nf r
  = (pages, notFullOf state blkno pages nf, r).
Proof using BLCKSZ_range.
  induction pages as [|page rest IH]; intros blkno nf r H; simpl; [done|].
  destruct (bulkDeletePage state cb blkno page nf r) as [[p1 nf1] r1] eqn:Hp.
  assert (p1 = page /\ r1 = r /\
          nf1 = (if pageLive page
                    && negb (maxoff page =? 0)
                    && (CuckooPageGetFreeSpace state page
                        >=? sizeOfCuckooTuple state)
                    && (Z.of_nat (length nf) <? CuckooMetaBlockN)
                 then nf ++ [blkno] else nf)) as (-> & -> & ->).
  { destruct (pageLive page) eqn:Hl.
    - destruct (H page ltac:(left) Hl) as [Hwf Hs].
      apply bulkDeletePage_live in Hp
        as (_ & _ & Hr & _ & _ & Hsame & _ & Hn); [|done|done].
      assert (Z.of_nat (length (survivors cb (liveTuples page)))
              = maxoff page) as E.
      { rewrite Hs. unfold liveTuples. rewrite length_take.
        destruct Hwf as [Hcap Hm]. lia. }
      rewrite (Hsame E) in *. split; [done|]. split; [lia|done].
    - rewrite bulkDeletePage_unused in Hp by done. by injection Hp as <- <- <-. }
  rewrite IH; [done|]. intros p Hin. apply H. by right.
Qed.

(** X5. [ckbulkdelete] is idempotent: run again with the same callback on
    the index it produced, it succeeds, removes nothing and leaves every
    data page, the metapage (free list included) and the free-space map as
    they are. *)
Theorem ckbulkdelete_idempotent (index index' : Relation)
    (stats : option Z) (callback : IndexBulkDeleteCallback) (removed : Z) :
  relation_wf index ->
  ckbulkdelete index stats callback = Ok (index', removed) ->
  ckbulkdelete index' (Some removed) callback = Ok (index', removed).
Proof using BLCKSZ_range.
  intros Hwf H.
  apply ckbulkdelete_Ok in H
    as (state & mp & pages' & notFull & Hst & Hmp & Hp & ->).
  pose proof (bulkDeletePages_notFull _ _ _ _ _ _ _ _ _ Hwf Hp) as Hnf.
  apply bulkDeletePages_visible in Hp as (Hlen & Hpt); [|done].
  assert (bulkDeletePages state callback CUCKOO_HEAD_BLKNO pages' [] removed
          = (pages', notFull, removed)) as Hagain.
  { rewrite Hnf. apply bulkDeletePages_fixed. intros p Hin Hl.
    apply list_elem_of_lookup in Hin as [i Hi].
    pose proof (lookup_lt_Some _ _ _ Hi) as Hlt. rewrite Hlen in Hlt.
    destruct (lookup_lt_is_Some_2 _ _ Hlt) as [p0 Hp0].
    destruct (Hpt i p0 Hp0) as (p' & H1 & Hvis & Hitems & Hm & _).
    assert (p' = p) as -> by congruence.
    destruct (Hm Hl) as [Hl0 Hmax].
    destruct (Hwf p0 (list_elem_of_lookup_2 _ _ _ Hp0)) as [Hcap _].
    unfold visibleTuples in Hvis. rewrite Hl, Hl0 in Hvis.
    split.
    - split; [congruence|]. rewrite Hmax. unfold liveTuples.
      rewrite length_take. lia.
    - rewrite Hvis. apply survivors_idemp. }
  unfold ckbulkdelete.
  assert (initCuckooState
            (mkRelation (rd_natts index) (rd_hashproc index)
               (rd_options index)
               (Some (setMetaData mp
                  (mkMeta (magicNumber (mp_meta mp)) 0
                     (uint16 (Z.of_nat (length notFull))) (opts (mp_meta mp))
                     (notFull ++ drop (length notFull)
                                      (notFullPage (mp_meta mp))))))
               pages' (rd_fsm index))
          = Ok state) as ->.
  { revert Hst. unfold initCuckooState. by rewrite Hmp. }
  simpl. rewrite Hagain. simpl. do 4 f_equal.
  unfold setMetaData. simpl. do 2 f_equal.
  by rewrite drop_app_length.
Qed.

(** ** Clean-up after vacuum: statistics and the free-space map *)

Lemma cleanupPages_spec (pages : list Page) :
  forall (blkno : BlockNumber) (fsm : list BlockNumber) (free tuples : Z),
  pagesWf pages ->
  exists added,
    cleanupPages blkno pages fsm free tuples
    = (fsm ++ added, free + Z.of_nat (length added),
       tuples + Z.of_nat (length (flat_map visibleTuples pages))) /\
    (length added + length (List.filter pageLive pages) = length pages)%nat /\
    forall b, b ∈ added <->
      exists i page, pages !! i = Some page /\ b = blkno + Z.of_nat i /\
                     pageLive page = false.
Proof.
  induction pages as [|page rest IH]; intros blkno fsm free tuples Hwf.
  - exists []. simpl. rewrite app_nil_r, !Z.add_0_r.
    split; [done|]. split; [done|]. intros b. split.
    + by intros ?%elem_of_nil.
    + by intros (i & p & ? & _).
  - assert (pagesWf rest) as Hrest by (intros p Hp; apply Hwf; by right).
    destruct (Hwf page ltac:(left)) as [Hcap Hm].
    cbn [cleanupPages]. rewrite pageLive_unused.
    change (flat_map visibleTuples (page :: rest))
      with (visibleTuples page ++ flat_map visibleTuples rest).
    unfold visibleTuples at 1. cbn [List.filter].
    destruct (pageLive page) eqn:Hl; cbn [negb].
    + destruct (IH (blkno + 1) fsm free
                   (tuples + CuckooPageGetMaxOffset page) Hrest)
        as (added & -> & Hn & Hin).
      exists added. split; [|split].
      * f_equal. rewrite length_app. unfold liveTuples at 1.
        rewrite length_take. unfold CuckooPageGetMaxOffset.
        specialize (Hm eq_refl). lia.
      * simpl. lia.
      * intros b. rewrite Hin. split.
        -- intros (i & p & Hi & -> & Hp). exists (S i), p.
           split; [done|]. split; [lia|done].
        -- intros ([|i] & p & Hi & -> & Hp); simpl in Hi.
           ++ injection Hi as <-. congruence.
           ++ exists i, p. split; [done|]. split; [lia|done].
    + destruct (IH (blkno + 1) (fsm ++ [blkno]) (free + 1) tuples Hrest)
        as (added & -> & Hn & Hin).
      exists (blkno :: added). split; [|split].
      * rewrite <- app_assoc. simpl. f_equal. f_equal. lia.
      * simpl. lia.
      * intros b. rewrite elem_of_cons, Hin. split.
        -- intros [->|(i & p & Hi & -> & Hp)].
           ++ exists 0%nat, page. split; [done|]. split; [lia|done].
           ++ exists (S i), p. split; [done|]. split; [lia|done].
        -- intros ([|i] & p & Hi & -> & Hp); simpl in Hi.
           ++ left. lia.
           ++ right. exists i, p. split; [done|]. split; [lia|done].
Qed.

(** X6. [ckvacuumcleanup] (not [analyze_only]) on a well-formed index
    ignores the statistics passed in and reports: the number of blocks of
    the relation; as free pages, the data blocks that are new or deleted;
    as index tuples, the number of tuples stored.  It appends to the
    free-space map exactly the block numbers of those free pages, and
    changes neither a data page nor the metapage.  With [analyze_only] it
    does nothing at all. *)
Theorem ckvacuumcleanup_stats (index : Relation)
    (stats : option CleanupStats) :
  relation_wf index ->
  ckvacuumcleanup index true stats = (index, stats) /\
  exists added st,
    ckvacuumcleanup index false stats
    = (setFsm index (rd_fsm index ++ added), Some st) /\
    num_pages st = RelationGetNumberOfBlocks index /\
    pages_free st = Z.of_nat (length added) /\
    num_index_tuples st = Z.of_nat (length (storedTuples index)) /\
    (length added + length (List.filter pageLive (dataBlocks index))
     = length (dataBlocks index))%nat /\
    forall b, b ∈ added <->
      exists page, 1 <= b /\
        dataBlocks index !! Z.to_nat (b - 1) = Some page /\
        pageLive page = false.
Proof.
  intros Hwf. split; [done|].
  assert (pagesWf (dataBlocks index)) as Hwf'.
  { unfold dataBlocks. destruct (rd_meta index); [done|].
    by intros p ?%elem_of_nil. }
  destruct (cleanupPages_spec (dataBlocks index) CUCKOO_HEAD_BLKNO
              (rd_fsm index) 0 0 Hwf') as (added & Hc & Hn & Hin).
  exists added. eexists. unfold ckvacuumcleanup. rewrite Hc. simpl.
  split; [reflexivity|]. simpl.
  split; [done|]. split; [done|]. split; [done|]. split; [done|].
  intros b. rewrite Hin. unfold CUCKOO_HEAD_BLKNO. split.
  - intros (i & p & Hi & -> & Hp). exists p. split; [lia|].
    split; [|done]. by replace (Z.to_nat (1 + Z.of_nat i - 1)) with i by lia.
  - intros (p & Hb & Hi & Hp). exists (Z.to_nat (b - 1)), p.
    split; [done|]. split; [lia|done].
Qed.

(** ** Insertion: what the index holds afterwards *)

Lemma flat_map_insert_snoc {A B : Type} (f : A -> list B) (l : list A)
    (i : nat) (old new : A) (t : B) :
  l !! i = Some old -> f new = f old ++ [t] ->
  exists l1 l2, flat_map f l = l1 ++ l2 /\
                flat_map f (<[i:=new]> l) = l1 ++ t :: l2.
Proof.
  revert i. induction l as [|x l IH]; intros [|i] Hi Hf; simpl in *;
    try done.
  - injection Hi as ->. exists (f old), (flat_map f l).
    split; [done|]. by rewrite Hf, <- app_assoc.
  - destruct (IH i Hi Hf) as (l1 & l2 & -> & ->).
    exists (f x ++ l1), l2. by rewrite <- !app_assoc.
Qed.

(** Appending to a block adds the tuple after the tuples a walk saw on
    it; an unused block showed none. *)
Lemma append_visible (state : CuckooState) (pages : list Page) (i : nat)
    (page page' : Page) (itup : CuckooTuple) :
  state_ok state -> pagesWf pages -> pages !! i = Some page ->
  CuckooPageAddItem state (reinitIfUnused page) itup = (true, page') ->
  visibleTuples page' = visibleTuples page ++ [itup].
Proof using BLCKSZ_range.
  intros Hs Hwf Hi Hadd.
  assert (page_wf (reinitIfUnused page) /\
          pageLive (reinitIfUnused page) = true /\
          liveTuples (reinitIfUnused page) = visibleTuples page)
    as (Hq & Hql & Hqt).
  { unfold visibleTuples. destruct (pageLive page) eqn:Hl.
    - rewrite reinitIfUnused_live by done. split; [|done].
      destruct (Hwf page (list_elem_of_lookup_2 _ _ _ Hi)) as [H1 H2].
      split; [done|by apply H2].
    - rewrite reinitIfUnused_unused by done.
      split; [apply CuckooInitPage_wf|]. split; [apply CuckooInitPage_live|].
      done. }
  apply CuckooPageAddItem_live in Hadd as (Hlt & _ & _ & Hfl & Hup);
    [|done|done].
  assert (pageLive page' = true) as Hl'.
  { unfold pageLive, PageIsNew, CuckooPageIsDeleted in *.
    by rewrite Hfl, Hup. }
  unfold visibleTuples at 1. by rewrite Hl', Hlt, Hqt.
Qed.

Lemma insertOutcome_storedTuples (state : CuckooState)
    (index index' : Relation) (mp : MetaPage) (itup : CuckooTuple) :
  state_ok state -> relation_wf index -> rd_meta index = Some mp ->
  insertOutcome state index mp itup index' ->
  exists before after,
    storedTuples index = before ++ after /\
    storedTuples index' = before ++ itup :: after /\
    (length (rd_pages index) <= length (rd_pages index')
     <= length (rd_pages index) + 1)%nat.
Proof using BLCKSZ_range.
  intros Hs Hwf Hmeta
    [(blkno & page & page' & mp' & Hread & Hadd & -> & Hstat)
    |(blkno & index1 & page' & mp' & Hnew & Hadd & -> & Hstat)].
  - apply readPage_lookup in Hread.
    pose proof (append_visible state _ _ _ _ _ Hs Hwf Hread Hadd) as Hv.
    destruct (flat_map_insert_snoc visibleTuples _ _ _ _ _ Hread Hv)
      as (l1 & l2 & H1 & H2).
    exists l1, l2. unfold storedTuples, dataBlocks. simpl. rewrite Hmeta.
    split; [done|]. split; [done|]. rewrite length_insert. lia.
  - apply CuckooNewBuffer_Ok in Hnew
      as (Hn & Hh & Ho & Hm & [[Hp (page & Hread & Hl)]|[Hp ->]]).
    + apply readPage_lookup in Hread.
      rewrite <- (reinitIfUnused_unused page Hl) in Hadd.
      pose proof (append_visible state _ _ _ _ _ Hs Hwf Hread Hadd) as Hv.
      destruct (flat_map_insert_snoc visibleTuples _ _ _ _ _ Hread Hv)
        as (l1 & l2 & H1 & H2).
      exists l1, l2. unfold storedTuples, dataBlocks. simpl.
      rewrite Hmeta, Hp.
      split; [done|]. split; [done|]. rewrite length_insert. lia.
    + unfold RelationGetNumberOfBlocks in *. rewrite Hmeta in *.
      assert ((rd_pages index ++ [zeroPage]) !! length (rd_pages index)
              = Some zeroPage) as Hi.
      { rewrite lookup_app_r by lia. by rewrite Nat.sub_diag. }
      rewrite <- (reinitIfUnused_unused zeroPage zeroPage_not_live) in Hadd.
      pose proof (append_visible state _ _ _ _ _ Hs
                    (pagesWf_extend _ Hwf) Hi Hadd) as Hv.
      destruct (flat_map_insert_snoc visibleTuples _ _ _ _ _ Hi Hv)
        as (l1 & l2 & H1 & H2).
      exists l1, l2. unfold storedTuples, dataBlocks. simpl.
      rewrite Hmeta, Hp.
      replace (Z.to_nat (1 + Z.of_nat (length (rd_pages index)) - 1))
        with (length (rd_pages index)) by lia.
      split; [|split; [done|]].
      * rewrite <- H1, flat_map_app. simpl. by rewrite !app_nil_r.
      * rewrite length_insert, length_app. simpl. lia.
Qed.

(** X7. A successful [ckinsert] on a well-formed index adds exactly one
    tuple, the one formed from the row: the tuples stored afterwards are
    the tuples stored before, in the same order, with the new tuple put
    in among them; no stored tuple is lost or duplicated, and the relation
    grows by at most one block. *)
Theorem ckinsert_adds_one (index index' : Relation) (values : list Datum)
    (isnull : list bool) (ht_ctid : ItemPointerData) :
  relation_wf index ->
  ckinsert index values isnull ht_ctid = Ok index' ->
  exists state before after,
    initCuckooState index = Ok state /\
    storedTuples index = before ++ after /\
    storedTuples index'
    = before ++ CuckooFormTuple state ht_ctid values isnull :: after /\
    (length (rd_pages index) <= length (rd_pages index')
     <= length (rd_pages index) + 1)%nat.
Proof using BLCKSZ_range.
  intros Hwf H.
  apply ckinsert_Ok in H as (state & mp & Hst & Hmp & Hout).
  destruct (insertOutcome_storedTuples state index index' mp _
              (initCuckooState_state_ok _ _ Hst) Hwf Hmp Hout)
    as (l1 & l2 & H1 & H2 & H3).
  by exists state, l1, l2.
Qed.

(** ** Operations on an index in order never fail *)

Lemma readPage_in_range (index : Relation) (b : BlockNumber) :
  1 <= b <= Z.of_nat (length (rd_pages index)) ->
  exists page, readPage index b = Ok page.
Proof.
  intros H. unfold readPage, CUCKOO_HEAD_BLKNO.
  destruct (Z.ltb_spec b 1); [lia|].
  destruct (lookup_lt_is_Some_2 (rd_pages index) (Z.to_nat (b - 1))
              ltac:(lia)) as [page ->].
  by exists page.
Qed.

Lemma newBufferFromFsm_total (index : Relation) (fsm : list BlockNumber) :
  (forall b, b ∈ fsm -> 1 <= b <= Z.of_nat (length (rd_pages index))) ->
  exists r rest,
    newBufferFromFsm index fsm = Ok (r, rest) /\
    (forall b, b ∈ rest -> b ∈ fsm) /\
    (forall b, r = Some b -> b ∈ fsm).
Proof.
  induction fsm as [|b fsm IH]; intros H; simpl.
  - exists None, []. repeat split; done.
  - destruct (readPage_in_range index b (H b ltac:(left))) as [page ->].
    simpl.
    destruct (PageIsNew page);
      [exists (Some b), fsm; repeat split;
       [intros; by right|intros ? [= ->]; by left]|].
    destruct (CuckooPageIsDeleted page);
      [exists (Some b), fsm; repeat split;
       [intros; by right|intros ? [= ->]; by left]|].
    destruct IH as (r & rest & -> & H1 & H2); [intros; apply H; by right|].
    exists r, rest. repeat split; [intros; right; auto|].
    intros b' ->. right. by apply H2.
Qed.

Lemma CuckooNewBuffer_total (index : Relation) (mp : MetaPage) :
  rd_meta index = Some mp -> fsmOk index ->
  exists blkno index1,
    CuckooNewBuffer index = Ok (blkno, index1) /\
    fsmOk index1 /\
    1 <= blkno <= Z.of_nat (length (rd_pages index1)) /\
    (length (rd_pages index) <= length (rd_pages index1))%nat.
Proof.
  intros Hmeta Hfsm. unfold CuckooNewBuffer.
  destruct (newBufferFromFsm_total index (rd_fsm index) Hfsm)
    as (r & rest & -> & Hrest & Hr).
  simpl. destruct r as [b|].
  - exists b, (setFsm index rest). split; [done|]. unfold fsmOk. simpl.
    split; [intros; by apply Hfsm, Hrest|]. split; [by apply Hfsm, Hr|done].
  - eexists _, _. split; [done|]. unfold fsmOk, RelationGetNumberOfBlocks.
    simpl. rewrite Hmeta, length_app. simpl.
    split; [|lia]. intros b Hb. specialize (Hfsm b (Hrest b Hb)). lia.
Qed.

Lemma CuckooMetaBlockN_pos : 1 <= CuckooMetaBlockN.
Proof using BLCKSZ_range.
  unfold CuckooMetaBlockN, MAXALIGN_DOWN. rewrite MAXALIGN_opaque.
  change (MAXALIGN (2 * 2 + 4 + sizeof_CuckooOptions)) with 24.
  unfold SizeOfPageHeaderData, MAXIMUM_ALIGNOF, sizeof_BlockNumber.
  assert (968 / 8 <= (BLCKSZ - 24 - 8 - 24) / 8)
    by (apply Z.div_le_mono; lia).
  change (968 / 8) with 121 in *.
  apply Z.div_le_lower_bound; lia.
Qed.

(** Allocating a page for the tuple cannot fail when the free-space map
    names blocks of the relation; the free list is then that block alone. *)
Lemma insertNewPage_total (state : CuckooState) (index : Relation)
    (mp : MetaPage) (itup : CuckooTuple) :
  state_ok state -> rd_meta index = Some mp -> fsmOk index ->
  length (notFullPage (mp_meta mp)) = Z.to_nat CuckooMetaBlockN ->
  exists index' mp',
    insertNewPage state index mp itup = Ok index' /\
    rd_meta index' = Some mp' /\ freeListOk index' mp' /\ fsmOk index'.
Proof using BLCKSZ_range.
  intros Hs Hmeta Hfsm Hlen. unfold insertNewPage.
  destruct (CuckooNewBuffer_total index mp Hmeta Hfsm)
    as (blkno & index1 & -> & Hfsm1 & Hb & Hgrow).
  simpl. destruct (CuckooPageAddItem_init state 0 itup Hs) as [page' ->].
  eexists _, _. split; [done|]. split; [done|].
  pose proof CuckooMetaBlockN_pos as Hpos.
  unfold freeListOk, fsmOk. simpl. rewrite !length_insert.
  split; [|exact Hfsm1]. split; [done|]. split; [done|]. split; [lia|].
  intros n b Hn. assert (n = 0) as -> by lia. simpl.
  rewrite list_lookup_insert_eq by lia. intros [= <-]. lia.
Qed.

Lemma insertSlowLoop_total (fuel : nat) (state : CuckooState)
    (index : Relation) (mp : MetaPage) (itup : CuckooTuple) :
  forall n,
  state_ok state -> relation_wf index -> rd_meta index = Some mp ->
  fsmOk index -> freeListOk index mp -> nStart (mp_meta mp) <= n ->
  exists index' mp',
    insertSlowLoop fuel state index mp itup n = Ok index' /\
    rd_meta index' = Some mp' /\ freeListOk index' mp' /\ fsmOk index'.
Proof using BLCKSZ_range.
  induction fuel as [|fuel IH]; intros n Hs Hwf Hmeta Hfsm Hfl Hn; simpl;
    destruct (Z.geb_spec n (nEnd (mp_meta mp)));
    try (apply insertNewPage_total; try done; apply Hfl).
  destruct Hfl as (Hlen & H0 & Hend & Hentries).
  pose proof CuckooMetaBlockN_bounds as Hb.
  destruct (lookup_lt_is_Some_2 (notFullPage (mp_meta mp)) (Z.to_nat n)
              ltac:(lia)) as [b Hlook].
  rewrite Hlook. simpl.
  pose proof (Hentries n b ltac:(lia) Hlook) as Hrange.
  destruct (readPage_in_range index b Hrange) as [page ->]. simpl.
  destruct (CuckooPageAddItem state (reinitIfUnused page) itup)
    as [[] page'] eqn:Hadd.
  - eexists _, _. split; [done|]. split; [done|].
    unfold freeListOk, fsmOk. simpl. rewrite !length_insert.
    split; [|exact Hfsm]. split; [done|]. split; [lia|]. split; [done|].
    intros m b' Hm. apply Hentries. lia.
  - unfold uint16. rewrite Z.mod_small by lia.
    apply IH; try done; lia.
Qed.

Lemma ckinsert_total (index : Relation) (values : list Datum)
    (isnull : list bool) (ht_ctid : ItemPointerData) :
  relation_ok index ->
  exists index',
    ckinsert index values isnull ht_ctid = Ok index' /\ relation_ok index'.
Proof using BLCKSZ_range.
  intros (Hwf & state & mp & Hst & Hmeta & Hfl & Hfsm).
  pose proof (initCuckooState_state_ok _ _ Hst) as Hs.
  assert (exists index' mp',
            ckinsert index values isnull ht_ctid = Ok index' /\
            rd_meta index' = Some mp' /\ freeListOk index' mp' /\
            fsmOk index') as (index' & mp' & Hins & Hmeta' & Hfl' & Hfsm').
  { unfold ckinsert. rewrite Hst, Hmeta. simpl.
    set (itup := CuckooFormTuple state ht_ctid values isnull).
    pose proof Hfl as (Hlen & H0 & Hend & Hentries).
    pose proof CuckooMetaBlockN_bounds as Hb.
    assert (forall blkno, exists index' mp',
              insertSlowPath state index mp itup blkno = Ok index' /\
              rd_meta index' = Some mp' /\ freeListOk index' mp' /\
              fsmOk index') as Hslow.
    { intros blkno. unfold insertSlowPath.
      apply insertSlowLoop_total; try done.
      destruct (Z.ltb_spec (nStart (mp_meta mp)) (nEnd (mp_meta mp)));
        simpl; [|lia].
      destruct (match notFullPage (mp_meta mp)
                        !! Z.to_nat (nStart (mp_meta mp)) with
                | Some b => blkno =? b
                | None => false
                end); [|lia].
      unfold uint16. rewrite Z.mod_small by lia. lia. }
    destruct (Z.gtb_spec (nEnd (mp_meta mp)) (nStart (mp_meta mp)));
      [|apply Hslow].
    destruct (lookup_lt_is_Some_2 (notFullPage (mp_meta mp))
                (Z.to_nat (nStart (mp_meta mp))) ltac:(lia)) as [b Hlook].
    rewrite Hlook. simpl.
    pose proof (Hentries (nStart (mp_meta mp)) b ltac:(lia) Hlook) as Hrange.
    destruct (readPage_in_range index b Hrange) as [page ->]. simpl.
    destruct (CuckooPageAddItem state (reinitIfUnused page) itup)
      as [[] page'] eqn:Hadd; [|apply Hslow].
    exists (writePage index b page'), mp. split; [done|].
    unfold freeListOk, fsmOk. simpl. rewrite !length_insert. done. }
  exists index'. split; [done|].
  pose proof Hins as Hins'.
  apply ckinsert_Ok in Hins' as (state1 & mp1 & Hst1 & Hmp1 & Hout).
  apply insertOutcome_preserves in Hout as (Hwf' & Hsame & _);
    [|by eapply initCuckooState_state_ok|done|done].
  split; [done|]. exists state, mp'.
  by rewrite (initCuckooState_sameIndex _ _ Hsame).
Qed.

Lemma ckbulkdelete_total (index : Relation) (stats : option Z)
    (cb : IndexBulkDeleteCallback) :
  relation_ok index ->
  exists index' removed,
    ckbulkdelete index stats cb = Ok (index', removed) /\
    relation_ok index'.
Proof using BLCKSZ_range.
  intros (Hwf & state & mp & Hst & Hmeta & Hfl & Hfsm).
  assert (exists r, ckbulkdelete index stats cb = Ok r) as [[index' removed] H].
  { unfold ckbulkdelete. rewrite Hst, Hmeta. simpl.
    destruct (bulkDeletePages _ _ _ _ _ _) as [[pages' notFull] r]. eauto. }
  exists index', removed. split; [done|].
  destruct (ckbulkdelete_preserves _ _ _ _ _ Hwf H) as (Hwf' & Hsame & _).
  split; [done|].
  apply ckbulkdelete_Ok in H
    as (state' & mp' & pages' & notFull & _ & Hmp' & Hp & Hidx).
  assert (mp' = mp) as -> by congruence.
  apply bulkDeletePages_spec in Hp as (Hlen & Hpt & _ & Hcnt & Hnf);
    [|intros p Hin Hl; by apply (relation_wf_page index)].
  specialize (Hcnt ltac:(pose proof CuckooMetaBlockN_bounds; simpl; lia)).
  pose proof CuckooMetaBlockN_bounds as Hb.
  destruct Hfl as (Hl & _ & _ & _).
  exists state. eexists. rewrite (initCuckooState_sameIndex _ _ Hsame).
  split; [done|]. rewrite Hidx. simpl. split; [reflexivity|].
  unfold freeListOk, fsmOk. simpl.
  unfold uint16. rewrite Z.mod_small by lia.
  split; [|by rewrite Hlen].
  split; [rewrite length_app, length_drop; lia|].
  split; [done|]. split; [done|].
  intros n b Hn Hlook. rewrite lookup_app_l in Hlook by lia.
  destruct (Hnf b (list_elem_of_lookup_2 _ _ _ Hlook))
    as [Hin|(i & p' & Hi & -> & _)]; [by apply elem_of_nil in Hin|].
  apply lookup_lt_Some in Hi. unfold CUCKOO_HEAD_BLKNO. lia.
Qed.

Lemma ckvacuumcleanup_ok (index : Relation) (stats : option CleanupStats) :
  relation_ok index ->
  let index1 := fst (ckvacuumcleanup index false stats) in
  relation_ok index1 /\
  rd_pages index1 = rd_pages index /\ rd_meta index1 = rd_meta index /\
  forall i p, rd_pages index !! i = Some p -> pageLive p = false ->
    1 + Z.of_nat i ∈ rd_fsm index1.
Proof.
  intros (Hwf & state & mp & Hst & Hmeta & Hfl & Hfsm).
  destruct (ckvacuumcleanup_preserves index false stats)
    as (Hp & Hm & Hn & Hh & Ho).
  assert (pagesWf (dataBlocks index)) as Hwf'.
  { unfold dataBlocks. by rewrite Hmeta. }
  destruct (cleanupPages_spec (dataBlocks index) CUCKOO_HEAD_BLKNO
              (rd_fsm index) 0 0 Hwf') as (added & Hc & _ & Hin).
  assert (rd_fsm (fst (ckvacuumcleanup index false stats))
          = rd_fsm index ++ added) as Hf.
  { unfold ckvacuumcleanup. by rewrite Hc. }
  revert Hp Hm Hn Hh Ho Hf.
  generalize (fst (ckvacuumcleanup index false stats)).
  intros index1 Hp Hm Hn Hh Ho Hf. cbv zeta.
  split; [|split; [done|split; [done|]]].
  - split; [unfold relation_wf; by rewrite Hp|].
    exists state, mp. split.
    { rewrite <- Hst. apply initCuckooState_sameIndex.
      unfold sameIndex. by rewrite Hm, Hn, Hh, Ho. }
    split; [congruence|]. unfold freeListOk, fsmOk. rewrite Hp, Hf.
    split; [done|]. intros b [Hb|Hb]%elem_of_app; [by apply Hfsm|].
    apply Hin in Hb as (i & p & Hi & -> & _).
    unfold dataBlocks in Hi. rewrite Hmeta in Hi.
    apply lookup_lt_Some in Hi. unfold CUCKOO_HEAD_BLKNO. lia.
  - intros i p Hi Hl. rewrite Hf. apply elem_of_app. right.
    apply Hin. exists i, p. unfold dataBlocks. rewrite Hmeta. done.
Qed.

Lemma applyOp_total (index : Relation) (op : Op) :
  relation_ok index ->
  exists index', applyOp index op = Ok index' /\ relation_ok index'.
Proof using BLCKSZ_range.
  intros Hok. destruct op as [values isnull tid|cb|]; unfold applyOp.
  - by apply ckinsert_total.
  - destruct (ckbulkdelete_total index None cb Hok)
      as (index' & removed & -> & Hok').
    by exists index'.
  - eexists. split; [done|]. by apply (ckvacuumcleanup_ok index None).
Qed.

(** X8. On an index in order (well-formed pages, a cuckoo metapage with
    a defined tag mask, a free list and a free-space map that name blocks
    of the relation) every sequence of [ckinsert], [ckbulkdelete] and
    [ckvacuumcleanup] calls succeeds, whatever the rows and the callbacks,
    and leaves an index in order: none of the errors of [ckinsert] (bad
    block, "could not add new cuckoo tuple to empty page") is raised. *)
Theorem runOps_succeeds (index : Relation) (ops : list Op) :
  relation_ok index ->
  exists index', runOps index ops = Ok index' /\ relation_ok index'.
Proof using BLCKSZ_range.
  revert index. induction ops as [|op rest IH]; intros index Hok; simpl.
  - by exists index.
  - destruct (applyOp_total index op Hok) as (index1 & -> & Hok1).
    simpl. by apply IH.
Qed.

(** ** The serial build *)

Lemma flushCachedPage_extends (index : Relation) (bs : CuckooBuildState)
    (mp : MetaPage) :
  rd_meta index = Some mp -> rd_fsm index = [] ->
  flushCachedPage index bs
  = Ok (mkRelation (rd_natts index) (rd_hashproc index) (rd_options index)
                   (Some mp) (rd_pages index ++ [data bs]) []).
Proof.
  intros Hmeta Hfsm. unfold flushCachedPage, CuckooNewBuffer.
  rewrite Hfsm. simpl. unfold writePage, RelationGetNumberOfBlocks. simpl.
  rewrite Hmeta. do 2 f_equal.
  replace (Z.to_nat (1 + Z.of_nat (length (rd_pages index)) - 1))
    with (length (rd_pages index) + 0)%nat by lia.
  by rewrite insert_app_r.
Qed.

(** A page that refuses a tuple holds [pageCapacity] of them. *)
Lemma full_page_maxoff (state : CuckooState) (page page' : Page)
    (t : CuckooTuple) :
  state_ok state -> page_wf page ->
  CuckooPageAddItem state page t = (false, page') ->
  maxoff page = Z.of_nat pageCapacity.
Proof using BLCKSZ_range.
  intros Hs Hwf H. apply CuckooPageAddItem_false in H as [H _].
  rewrite CuckooPageGetFreeSpace_wf in H by done. rewrite Hs in H.
  unfold sizeof_CuckooTuple in H. destruct Hwf as [_ Hm].
  pose proof pageCapacity_bounds as [_ Hc]. lia.
Qed.

Lemma append_to_cached (state : CuckooState) (p q : Page)
    (t : CuckooTuple) :
  state_ok state -> page_wf p -> pageLive p = true ->
  CuckooPageAddItem state p t = (true, q) ->
  liveTuples q = liveTuples p ++ [t] /\
  page_wf q /\ pageLive q = true /\ maxoff q = maxoff p + 1.
Proof using BLCKSZ_range.
  intros Hs Hpw Hpl H.
  apply CuckooPageAddItem_live in H as (Ht & Hq & Hm & Hfl & Hup);
    [|done|done].
  repeat split; try done; try apply Hq.
  unfold pageLive, PageIsNew, CuckooPageIsDeleted in *.
  by rewrite Hfl, Hup.
Qed.

(** The cached page took the tuple. *)
Lemma buildInv_added (state : CuckooState) (mp : MetaPage)
    (index0 index : Relation) (bs : CuckooBuildState)
    (done : list CuckooTuple) (t : CuckooTuple) (q : Page) (n : Z) :
  state_ok state -> buildInv state mp index0 index bs done ->
  CuckooPageAddItem state (data bs) t = (true, q) ->
  buildInv state mp index0 index
    (mkBuildState (ckstate bs) n q (count bs + 1)) (done ++ [t]).
Proof using BLCKSZ_range.
  intros Hs (Hst & Hidx & Hfull & Hwf & Hl & Htup & Hc & Hne) H1.
  destruct (append_to_cached _ _ _ _ Hs Hwf Hl H1) as (Ht & Hq & Hql & Hm).
  unfold buildInv. simpl.
  split; [done|]. split; [done|]. split; [done|]. split; [done|].
  split; [done|]. split; [by rewrite Ht, app_assoc, Htup|].
  split; [lia|]. destruct Hwf as [_ ?]. lia.
Qed.

(** The cached page was full: it is written out as a new last block and
    the tuple goes on a fresh page. *)
Lemma buildInv_flushed (state : CuckooState) (mp : MetaPage)
    (index0 index : Relation) (bs : CuckooBuildState)
    (done : list CuckooTuple) (t : CuckooTuple) (p : Page) (n : Z) :
  state_ok state -> buildInv state mp index0 index bs done ->
  CuckooPageAddItem state (data bs) t = (false, p) ->
  exists index1 q,
    flushCachedPage index bs = Ok index1 /\
    CuckooPageAddItem state (CuckooInitPage 0) t = (true, q) /\
    buildInv state mp index0 index1
      (mkBuildState (ckstate bs) n q (0 + 1)) (done ++ [t]).
Proof using BLCKSZ_range.
  intros Hs (Hst & Hidx & Hfull & Hwf & Hl & Htup & Hc & Hne) H1.
  destruct (CuckooPageAddItem_init state 0 t Hs) as [q H2].
  destruct (append_to_cached _ _ _ _ Hs (CuckooInitPage_wf 0)
              CuckooInitPage_live H2) as (Ht & Hq & Hql & Hm).
  eexists _, q. split.
  { apply (flushCachedPage_extends _ _ mp); by rewrite Hidx. }
  split; [done|]. unfold buildInv. simpl.
  split; [done|].
  split.
  { pose proof (f_equal rd_natts Hidx) as E1.
    pose proof (f_equal rd_hashproc Hidx) as E2.
    pose proof (f_equal rd_options Hidx) as E3.
    simpl in E1, E2, E3. by rewrite E1, E2, E3. }
  split.
  { intros p' [Hin|Hin]%elem_of_app; [by apply Hfull|].
    apply list_elem_of_singleton in Hin as ->.
    split; [done|]. split; [done|]. by eapply full_page_maxoff. }
  split; [done|]. split; [done|].
  split.
  { rewrite flat_map_app. simpl. rewrite app_nil_r.
    unfold visibleTuples at 2. by rewrite Hl, Htup, Ht. }
  simpl in Hm. split; lia.
Qed.

Lemma cuckooBuildCallback_inv (state : CuckooState) (mp : MetaPage)
    (index0 index : Relation) (bs : CuckooBuildState)
    (done : list CuckooTuple) (row : HeapRow) :
  state_ok state -> buildInv state mp index0 index bs done ->
  exists index' bs',
    cuckooBuildCallback index row bs = Ok (index', bs') /\
    buildInv state mp index0 index' bs' (done ++ [formRow state row]) /\
    indtuples bs' = indtuples bs + 1.
Proof using BLCKSZ_range.
  intros Hs Hinv. pose proof Hinv as (Hst & _).
  unfold cuckooBuildCallback. rewrite Hst. fold (formRow state row).
  destruct (CuckooPageAddItem state (data bs) (formRow state row))
    as [[] p] eqn:H1.
  - eexists _, _. split; [done|]. split; [|done].
    rewrite <- Hst at 2. by apply buildInv_added.
  - destruct (buildInv_flushed state mp index0 index bs done _ p
                (indtuples bs + 1) Hs Hinv H1)
      as (index1 & q & -> & H2 & Hinv1).
    simpl. rewrite ?Hst. fold (formRow state row). rewrite H2.
    eexists _, _. split; [done|]. split; [|done]. by rewrite <- Hst at 2.
Qed.

Lemma buildScan_inv (state : CuckooState) (mp : MetaPage)
    (index0 : Relation) (rows : list HeapRow) :
  forall (index : Relation) (bs : CuckooBuildState)
         (done : list CuckooTuple),
  state_ok state -> buildInv state mp index0 index bs done ->
  exists index' bs',
    buildScan index rows bs = Ok (index', bs') /\
    buildInv state mp index0 index' bs'
      (done ++ map (formRow state) rows) /\
    indtuples bs' = indtuples bs + Z.of_nat (length rows).
Proof using BLCKSZ_range.
  induction rows as [|row rest IH]; intros index bs done Hs Hinv; simpl.
  - exists index, bs. rewrite app_nil_r. split; [done|]. split; [done|lia].
  - destruct (cuckooBuildCallback_inv state mp index0 index bs done row
                Hs Hinv) as (index1 & bs1 & -> & Hinv1 & Hn1).
    simpl. destruct (IH index1 bs1 _ Hs Hinv1)
      as (index2 & bs2 & -> & Hinv2 & Hn2).
    exists index2, bs2. rewrite <- app_assoc in Hinv2.
    split; [done|]. split; [done|lia].
Qed.

Lemma full_pages_length (pages : list Page) :
  (forall p, p ∈ pages ->
     page_wf p /\ pageLive p = true /\ maxoff p = Z.of_nat pageCapacity) ->
  length (flat_map visibleTuples pages)
  = (pageCapacity * length pages)%nat.
Proof.
  induction pages as [|p rest IH]; intros H; simpl; [lia|].
  rewrite length_app, IH by (intros q Hq; apply H; by right).
  destruct (H p ltac:(left)) as ([Hlen _] & Hl & Hm).
  unfold visibleTuples. rewrite Hl. unfold liveTuples.
  rewrite length_take. lia.
Qed.

Lemma ckbuild_result (heap : list HeapRow) (index : Relation) :
  RelationGetNumberOfBlocks index = 0 -> rd_fsm index = [] ->
  0 <= bitsPerTag (opts (mp_meta (CuckooFillMetapage index))) < 32 ->
  exists built state,
    ckbuild heap index = Ok (built, Z.of_nat (length heap)) /\
    initCuckooState built = Ok state /\
    relation_ok built /\
    storedTuples built = map (formRow state) heap /\
    Z.of_nat (length (rd_pages built))
    = (Z.of_nat (length heap) + Z.of_nat pageCapacity - 1)
      / Z.of_nat pageCapacity /\
    rd_meta built = Some (CuckooFillMetapage index) /\
    rd_fsm built = [] /\
    rd_natts built = rd_natts index /\
    rd_hashproc built = rd_hashproc index.
Proof using BLCKSZ_range.
  intros Hblocks Hfsm Hbits. unfold ckbuild. rewrite Hblocks. simpl.
  set (mp := CuckooFillMetapage index) in *.
  assert (exists state, initCuckooState (CuckooInitMetapage index) = Ok state)
    as [state Hst].
  { unfold initCuckooState, CuckooInitMetapage. cbn [rd_meta]. fold mp.
    change (Z.land (mp_flags mp) CUCKOO_META =? 0) with false.
    change (negb (magicNumber (mp_meta mp) =? CUCKOO_MAGIC_NUMBER))
      with false.
    cbv iota. rewrite (computeTagMask_lt32 _ Hbits). simpl. eauto. }
  rewrite Hst. simpl.
  pose proof (initCuckooState_state_ok _ _ Hst) as Hs.
  pose proof pageCapacity_bounds as [Hcap Hcap'].
  assert (buildInv state mp index (CuckooInitMetapage index)
            (initCachedPage (mkBuildState state 0 zeroPage 0)) []) as Hinv0.
  { unfold buildInv, CuckooInitMetapage, initCachedPage. simpl.
    rewrite Hfsm. split; [done|]. split; [done|].
    split; [by intros p ?%elem_of_nil|].
    split; [apply CuckooInitPage_wf|]. split; [apply CuckooInitPage_live|].
    done. }
  destruct (buildScan_inv state mp index heap _ _ [] Hs Hinv0)
    as (index1 & bs1 & -> & Hinv & Hn).
  simpl in Hinv, Hn. simpl.
  destruct Hinv as (Hck & Hidx & Hfull & Hwf & Hl & Htup & Hc & Hne).
  pose proof (full_pages_length _ Hfull) as Hlenfull.
  assert (length heap
          = (pageCapacity * length (rd_pages index1)
             + Z.to_nat (maxoff (data bs1)))%nat) as Hcount.
  { rewrite <- (length_map (formRow state) heap), <- Htup, length_app, Hlenfull.
    unfold liveTuples. rewrite length_take. destruct Hwf. lia. }
  assert (forall pages,
            (forall p, p ∈ pages -> page_wf p /\ pageLive p = true) ->
            relation_ok (mkRelation (rd_natts index) (rd_hashproc index)
                           (rd_options index) (Some mp) pages []) /\
            initCuckooState (mkRelation (rd_natts index) (rd_hashproc index)
                               (rd_options index) (Some mp) pages [])
            = Ok state) as Hok.
  { intros pages Hp.
    assert (initCuckooState (mkRelation (rd_natts index) (rd_hashproc index)
                               (rd_options index) (Some mp) pages [])
            = Ok state) as Hst'.
    { rewrite <- Hst. apply initCuckooState_sameIndex. by unfold sameIndex. }
    split; [|done]. split.
    - intros p Hin. destruct (Hp p Hin) as [[H1 H2] _]. done.
    - exists state, mp. split; [done|]. split; [done|].
      unfold freeListOk, fsmOk. simpl. rewrite length_replicate.
      pose proof CuckooMetaBlockN_bounds.
      split; [|by intros b ?%elem_of_nil].
      split; [done|]. split; [done|]. split; [lia|]. intros n b ?. lia. }
  assert (maxoff (data bs1) <= Z.of_nat pageCapacity) as Hmaxb
    by (destruct Hwf; lia).
  assert (0 <= maxoff (data bs1)) as Hmax0 by (destruct Hwf; lia).
  rewrite Hc. destruct (Z.gtb_spec (maxoff (data bs1)) 0) as [Hpos|Hzero].
  - rewrite Hidx. rewrite (flushCachedPage_extends _ _ mp) by done. simpl.
    destruct (Hok (rd_pages index1 ++ [data bs1])) as [Hrel Hst1].
    { intros p [Hin|Hin]%elem_of_app.
      - destruct (Hfull p Hin) as (? & ? & _). done.
      - apply list_elem_of_singleton in Hin as ->. done. }
    eexists _, state. rewrite Hn. split; [done|]. split; [done|].
    split; [done|]. split.
    { unfold storedTuples, dataBlocks. simpl. rewrite flat_map_app. simpl.
      rewrite app_nil_r. rewrite <- Htup. by rewrite Hl. }
    split; [|done]. cbn [rd_pages]. rewrite length_app. cbn [length].
    apply Z.div_unique with (r := maxoff (data bs1) - 1); lia.
  - assert (maxoff (data bs1) = 0) as Hz by lia.
    assert (rd_pages index1 = []) as Hnil.
    { destruct (rd_pages index1) eqn:E; [done|].
      assert (1 <= maxoff (data bs1)) by (by apply Hne). lia. }
    destruct (Hok (rd_pages index1)) as [Hrel Hst1].
    { intros p Hin. destruct (Hfull p Hin) as (? & ? & _). done. }
    rewrite <- Hidx in Hrel, Hst1.
    exists index1, state. rewrite Hn. split; [done|]. split; [done|].
    split; [done|]. split.
    { rewrite Hidx. unfold storedTuples, dataBlocks. simpl.
      rewrite <- Htup. unfold liveTuples. rewrite Hz. simpl.
      by rewrite app_nil_r. }
    rewrite Hidx. simpl. split; [|done].
    rewrite Hnil in *. simpl in *.
    assert (length heap = 0%nat) as -> by lia. simpl.
    symmetry. apply Z.div_small. lia.
Qed.

(** X9. [ckbuild] on a relation of zero blocks with an empty free-space
    map and a tag width the shift is defined for succeeds on every heap:
    it reports as many index tuples as the heap has rows, the index holds
    exactly the tuples formed from the rows, in heap order, packed
    [pageCapacity] to a page (so it has the least number of data pages
    that can hold them), and it is in order.  The metapage is the one
    [CuckooFillMetapage] made: the free list is left empty. *)
Theorem ckbuild_spec (heap : list HeapRow) (index : Relation) :
  RelationGetNumberOfBlocks index = 0 -> rd_fsm index = [] ->
  0 <= bitsPerTag (opts (mp_meta (CuckooFillMetapage index))) < 32 ->
  exists built state,
    ckbuild heap index = Ok (built, Z.of_nat (length heap)) /\
    initCuckooState built = Ok state /\
    relation_ok built /\
    storedTuples built = map (formRow state) heap /\
    Z.of_nat (length (rd_pages built))
    = (Z.of_nat (length heap) + Z.of_nat pageCapacity - 1)
      / Z.of_nat pageCapacity /\
    rd_meta built = Some (CuckooFillMetapage index) /\
    rd_fsm built = [] /\
    rd_natts built = rd_natts index /\
    rd_hashproc built = rd_hashproc index.
Proof using BLCKSZ_range. apply ckbuild_result. Qed.

Lemma computeTagMask_Some (o : CuckooOptions) (m : Z) :
  computeTagMask o = Some m -> 0 <= bitsPerTag o < 32.
Proof.
  unfold computeTagMask, shl_u32.
  destruct (Z.leb_spec 0 (bitsPerTag o)), (Z.ltb_spec (bitsPerTag o) 32);
    simpl; try done; lia.
Qed.

Lemma ckbuild_Ok (heap : list HeapRow) (index built : Relation) (n : Z) :
  ckbuild heap index = Ok (built, n) ->
  RelationGetNumberOfBlocks index = 0 /\
  0 <= bitsPerTag (opts (mp_meta (CuckooFillMetapage index))) < 32.
Proof.
  unfold ckbuild.
  destruct (Z.eqb_spec (RelationGetNumberOfBlocks index) 0); [|done].
  simpl. intros H. split; [done|].
  apply bind_Ok in H as (state & Hst & _).
  apply initCuckooState_Ok in Hst as (mp & Hmp & Hmask & _).
  injection Hmp as <-. by eapply computeTagMask_Some.
Qed.

Lemma matching_formRow (state : CuckooState) (fp : Z) (heap : list HeapRow) :
  matching fp (map (formRow state) heap)
  = map row_tid
      (List.filter
         (fun r => computeFingerprint state (row_values r) (row_isnull r)
                   =? fp) heap).
Proof.
  unfold matching. induction heap as [|r heap IH]; simpl; [done|].
  destruct (_ =? fp); simpl; by rewrite IH.
Qed.

(** X10. Build, then look up.  On an index made by [ckbuild] from a
    relation with an empty free-space map, a scan whose keys supply the
    non-null column values of a probe row adds to the bitmap exactly the
    locators of the heap rows whose fingerprint equals the probe's, in
    heap order, and returns their number: every heap row with the probe's
    values is found, and a row with other values is returned only when
    its fingerprint collides. *)
Theorem ckbuild_scan_exact (heap : list HeapRow) (index built : Relation)
    (n : Z) (values : list Datum) (isnull : list bool) (nkeys : nat)
    (keyData0 keys : list ScanKeyData) (scan0 : IndexScanDescData)
    (tbm : TIDBitmap) :
  ckbuild heap index = Ok (built, n) -> rd_fsm index = [] ->
  ckbeginscan built nkeys keyData0 = Ok scan0 ->
  length keys = nkeys ->
  keysSupply (rd_natts index) keys values isnull ->
  exists state scan',
    initCuckooState built = Ok state /\
    let found :=
      map row_tid
        (List.filter
           (fun r => computeFingerprint state (row_values r) (row_isnull r)
                     =? computeFingerprint state values isnull) heap) in
    ckgetbitmap built (ckrescan scan0 (Some keys)) tbm
    = (Z.of_nat (length found), tbm ++ found, scan').
Proof using BLCKSZ_range.
  intros Hbuild Hfsm Hbegin Hlen Hkeys.
  destruct (ckbuild_Ok _ _ _ _ Hbuild) as [Hblocks Hbits].
  destruct (ckbuild_result heap index Hblocks Hfsm Hbits)
    as (built' & state & Hb' & Hst & Hok & Hstored & _ & _ & _ & Hnatts & _).
  assert (built' = built) as -> by congruence.
  exists state.
  apply bind_Ok in Hbegin as (state2 & Hst2 & [= <-]).
  assert (state2 = state) as -> by congruence.
  pose proof Hst as Hst'.
  apply initCuckooState_Ok in Hst' as (_ & _ & _ & _ & _ & Hncols & _).

  rewrite Hnatts in Hncols. rewrite <- Hncols in Hkeys.
  destruct (scan_fingerprint_of_row state keys values isnull Hkeys)
    as (v' & n' & Hfill & Hfp).
  destruct (ckrescan_Some (mkScan nkeys keyData0 (mkScanOpaque 0 false state))
              keys Hlen) as (kd & -> & Htake).
  simpl in Htake. eexists. split; [exact Hst|]. cbv zeta.
  unfold ckgetbitmap. simpl. rewrite Htake, Hfill. simpl.
  destruct Hok as [Hwf _].
  rewrite scanPages_spec by (by apply relation_wf_scan). simpl.
  fold (storedTuples built). rewrite Hstored, Hfp, matching_formRow.
  reflexivity.
Qed.

(** ** Allocation of a page *)

Lemma newBufferFromFsm_spec (index : Relation) (fsm : list BlockNumber) :
  forall (r : option BlockNumber) (rest : list BlockNumber),
  newBufferFromFsm index fsm = Ok (r, rest) ->
  exists skipped,
    (forall b, b ∈ skipped ->
       exists p, readPage index b = Ok p /\ pageLive p = true) /\
    match r with
    | Some blkno =>
        fsm = skipped ++ blkno :: rest /\
        exists p, readPage index blkno = Ok p /\ pageLive p = false
    | None => fsm = skipped /\ rest = []
    end.
Proof.
  induction fsm as [|b fsm IH]; intros r rest; simpl.
  - intros [= <- <-]. exists []. split; [by intros b ?%elem_of_nil|done].
  - intros H. apply bind_Ok in H as (page & Hread & H).
    destruct (pageLive page) eqn:Hl.
    + pose proof Hl as Hl'. unfold pageLive in Hl'.
      apply andb_true_iff in Hl' as [Hnew Hdel].
      apply negb_true_iff in Hnew, Hdel. rewrite Hnew, Hdel in H.
      destruct (IH r rest H) as (skipped & Hsk & Hr).
      exists (b :: skipped). split.
      * intros b' [->|Hin]%elem_of_cons; [by exists page|by apply Hsk].
      * destruct r as [blkno|].
        -- destruct Hr as [-> Hp]. done.
        -- destruct Hr as [-> ->]. done.
    + assert (r = Some b /\ rest = fsm) as [-> ->].
      { destruct (PageIsNew page) eqn:Hnew; [by injection H as <- <-|].
        destruct (CuckooPageIsDeleted page) eqn:Hdel;
          [by injection H as <- <-|].
        unfold pageLive in Hl. by rewrite Hnew, Hdel in Hl. }
      exists []. split; [by intros b' ?%elem_of_nil|].
      split; [done|]. by exists page.
Qed.

(** X11. [CuckooNewBuffer] never hands out a page in use.  It drops
    from the free-space map the candidates that name pages in use, up to
    the first that names a new or deleted page, and returns that block
    with the relation otherwise unchanged; only when the map has no such
    candidate does it extend the relation, by one zero page, and return
    the new last block.  Either way the block returned holds a page not
    in use and the tuples stored are the same. *)
Theorem CuckooNewBuffer_spec (index index1 : Relation) (mp : MetaPage)
    (blkno : BlockNumber) :
  rd_meta index = Some mp ->
  CuckooNewBuffer index = Ok (blkno, index1) ->
  exists skipped,
    (forall b, b ∈ skipped ->
       exists p, readPage index b = Ok p /\ pageLive p = true) /\
    ((rd_fsm index = skipped ++ blkno :: rd_fsm index1 /\
      rd_pages index1 = rd_pages index) \/
     (rd_fsm index = skipped /\ rd_fsm index1 = [] /\
      rd_pages index1 = rd_pages index ++ [zeroPage] /\
      blkno = 1 + Z.of_nat (length (rd_pages index)))) /\
    (exists p, readPage index1 blkno = Ok p /\ pageLive p = false) /\
    storedTuples index1 = storedTuples index /\
    rd_meta index1 = Some mp.
Proof.
  intros Hmeta H. unfold CuckooNewBuffer in H.
  apply bind_Ok in H as ([r rest] & Hfsm & H).
  apply newBufferFromFsm_spec in Hfsm as (skipped & Hsk & Hr).
  exists skipped. split; [done|].
  destruct r as [b|]; injection H as <- <-.
  - destruct Hr as [Hf Hp]. simpl. split; [by left|]. split; [done|].
    split; [|done]. unfold storedTuples, dataBlocks. simpl. by rewrite Hmeta.
  - destruct Hr as [-> ->]. simpl.
    unfold RelationGetNumberOfBlocks. rewrite Hmeta.
    split; [by right|]. split.
    + exists zeroPage. split; [|done]. unfold readPage, CUCKOO_HEAD_BLKNO.
      simpl. destruct (Z.ltb_spec (1 + Z.of_nat (length (rd_pages index))) 1);
        [lia|].
      replace (Z.to_nat (1 + Z.of_nat (length (rd_pages index)) - 1))
        with (length (rd_pages index) + 0)%nat by lia.
      by rewrite lookup_app_r, Nat.add_comm, Nat.add_sub by lia.
    + split; [|done]. unfold storedTuples, dataBlocks. simpl. rewrite Hmeta.
      rewrite flat_map_app. simpl. by rewrite !app_nil_r.
Qed.

(** ** The free list after an insertion *)

Lemma append_live (state : CuckooState) (pages : list Page) (i : nat)
    (page page' : Page) (itup : CuckooTuple) :
  state_ok state -> pagesWf pages -> pages !! i = Some page ->
  CuckooPageAddItem state (reinitIfUnused page) itup = (true, page') ->
  pageLive page' = true /\ last (liveTuples page') = Some itup.
Proof using BLCKSZ_range.
  intros Hs Hwf Hi Hadd.
  assert (page_wf (reinitIfUnused page) /\
          pageLive (reinitIfUnused page) = true) as (Hq & Hql).
  { destruct (pageLive page) eqn:Hl.
    - rewrite reinitIfUnused_live by done. split; [|done].
      destruct (Hwf page (list_elem_of_lookup_2 _ _ _ Hi)) as [H1 H2].
      split; [done|by apply H2].
    - rewrite reinitIfUnused_unused by done.
      split; [apply CuckooInitPage_wf|apply CuckooInitPage_live]. }
  destruct (append_to_cached _ _ _ _ Hs Hq Hql Hadd) as (Ht & _ & Hl' & _).
  split; [done|]. rewrite Ht. apply last_snoc.
Qed.

Lemma readPage_written (index : Relation) (blkno : BlockNumber)
    (page page' : Page) (mp : MetaPage) :
  readPage index blkno = Ok page ->
  readPage (writeMeta (writePage index blkno page') mp) blkno = Ok page' /\
  readPage (writePage index blkno page') blkno = Ok page'.
Proof.
  unfold readPage, writeMeta, writePage. simpl.
  destruct (blkno <? CUCKOO_HEAD_BLKNO); [done|].
  destruct (rd_pages index !! Z.to_nat (blkno - 1)) eqn:E; [|done].
  intros _. apply lookup_lt_Some in E.
  by rewrite list_lookup_insert_eq by done.
Qed.

Lemma CuckooNewBuffer_readable (index index1 : Relation) (mp : MetaPage)
    (blkno : BlockNumber) :
  rd_meta index = Some mp ->
  CuckooNewBuffer index = Ok (blkno, index1) ->
  exists p, readPage index1 blkno = Ok p /\ pageLive p = false.
Proof.
  intros Hmeta H.
  apply CuckooNewBuffer_Ok in H
    as (_ & _ & _ & _ & [[Hp (page & Hread & Hl)]|[Hp ->]]).
  - exists page. split; [|done]. revert Hread. unfold readPage.
    by rewrite Hp.
  - exists zeroPage. split; [|done].
    unfold RelationGetNumberOfBlocks. rewrite Hmeta.
    unfold readPage, CUCKOO_HEAD_BLKNO. rewrite Hp.
    destruct (Z.ltb_spec (1 + Z.of_nat (length (rd_pages index))) 1); [lia|].
    replace (Z.to_nat (1 + Z.of_nat (length (rd_pages index)) - 1))
      with (length (rd_pages index) + 0)%nat by lia.
    by rewrite lookup_app_r, Nat.add_comm, Nat.add_sub by lia.
Qed.

Lemma insertNewPage_head (state : CuckooState) (index index' : Relation)
    (mp : MetaPage) (itup : CuckooTuple) :
  state_ok state -> rd_meta index = Some mp ->
  notFullPage (mp_meta mp) <> [] ->
  insertNewPage state index mp itup = Ok index' ->
  headHolds index' itup.
Proof using BLCKSZ_range.
  intros Hs Hmeta Hne H. unfold insertNewPage in H.
  apply bind_Ok in H as ([blkno index1] & Hnew & H).
  destruct (CuckooPageAddItem state (CuckooInitPage 0) itup) as [[] page']
    eqn:Hadd; [|done].
  injection H as <-.
  destruct (CuckooNewBuffer_readable _ _ _ _ Hmeta Hnew) as (p & Hread & _).
  destruct (append_to_cached _ _ _ _ Hs (CuckooInitPage_wf 0)
              CuckooInitPage_live Hadd) as (Ht & _ & Hl' & _).
  eexists _, blkno, page'. split; [reflexivity|]. simpl.
  split; [lia|]. split.
  { destruct (notFullPage (mp_meta mp)); done. }
  split; [by eapply readPage_written|]. split; [done|].
  rewrite Ht. apply last_snoc.
Qed.

Lemma insertSlowLoop_head (fuel : nat) (state : CuckooState)
    (index index' : Relation) (mp : MetaPage) (itup : CuckooTuple) :
  forall n,
  state_ok state -> relation_wf index -> rd_meta index = Some mp ->
  notFullPage (mp_meta mp) <> [] ->
  insertSlowLoop fuel state index mp itup n = Ok index' ->
  headHolds index' itup.
Proof using BLCKSZ_range.
  induction fuel as [|fuel IH]; intros n Hs Hwf Hmeta Hne; simpl;
    destruct (Z.geb_spec n (nEnd (mp_meta mp)));
    try (by apply insertNewPage_head).
  intros Hrun. apply bind_Ok in Hrun as (blkno & Hlook & Hrun).
  apply bind_Ok in Hrun as (page & Hread & Hrun).
  destruct (notFullPage (mp_meta mp) !! Z.to_nat n) as [b|] eqn:E; [|done].
  injection Hlook as ->.
  destruct (CuckooPageAddItem state (reinitIfUnused page) itup)
    as [[] page'] eqn:Hadd; [|by eapply IH].
  injection Hrun as <-.
  destruct (append_live _ _ _ _ _ _ Hs Hwf (readPage_lookup _ _ _ Hread) Hadd)
    as [Hl' Hlast].
  eexists _, blkno, page'. split; [reflexivity|]. simpl.
  split; [lia|]. split; [done|].
  split; [by eapply readPage_written|]. done.
Qed.

(** X12. After a successful [ckinsert] on an index in order the free
    list is not empty and its first entry, the one at [nStart], names the
    block that received the tuple: that page is in use and the new tuple
    is its last.  The next insert tries that page first. *)
Theorem ckinsert_freelist_head (index index' : Relation)
    (values : list Datum) (isnull : list bool) (ht_ctid : ItemPointerData) :
  relation_ok index ->
  ckinsert index values isnull ht_ctid = Ok index' ->
  exists state,
    initCuckooState index = Ok state /\
    headHolds index' (CuckooFormTuple state ht_ctid values isnull).
Proof using BLCKSZ_range.
  intros (Hwf & state & mp & Hst & Hmeta & Hfl & _) H.
  exists state. split; [done|].
  pose proof (initCuckooState_state_ok _ _ Hst) as Hs.
  assert (notFullPage (mp_meta mp) <> []) as Hne.
  { destruct Hfl as (Hlen & _). pose proof CuckooMetaBlockN_pos.
    intros E. rewrite E in Hlen. simpl in Hlen. lia. }
  unfold ckinsert in H. rewrite Hst, Hmeta in H. simpl in H.
  set (itup := CuckooFormTuple state ht_ctid values isnull) in *.
  assert (forall blkno,
            insertSlowPath state index mp itup blkno = Ok index' ->
            headHolds index' itup) as Hslow.
  { intros blkno. unfold insertSlowPath. by apply insertSlowLoop_head. }
  destruct (Z.gtb_spec (nEnd (mp_meta mp)) (nStart (mp_meta mp)));
    [|by eapply Hslow].
  apply bind_Ok in H as (blkno & Hlook & H).
  apply bind_Ok in H as (page & Hread & H).
  destruct (notFullPage (mp_meta mp) !! Z.to_nat (nStart (mp_meta mp)))
    as [b|] eqn:E; [|done].
  injection Hlook as ->.
  destruct (CuckooPageAddItem state (reinitIfUnused page) itup)
    as [[] page'] eqn:Hadd; [|by eapply Hslow].
  injection H as <-.
  destruct (append_live _ _ _ _ _ _ Hs Hwf (readPage_lookup _ _ _ Hread) Hadd)
    as [Hl' Hlast].
  exists mp, blkno, page'. split; [done|].
  split; [lia|]. split; [done|].
  split; [by eapply (readPage_written _ _ _ _ mp)|]. done.
Qed.

(** ** Space freed by vacuum is used again *)

Lemma notFullOf_length (state : CuckooState) (pages : list Page) :
  forall (blkno : BlockNumber) (acc : list BlockNumber),
  (length acc <= length (notFullOf state blkno pages acc))%nat.
Proof.
  induction pages as [|p rest IH]; intros blkno acc; simpl; [done|].
  etransitivity; [|apply IH].
  destruct (_ && _); [rewrite length_app; simpl; lia|done].
Qed.

Lemma notFullOf_nil (state : CuckooState) (pages : list Page) :
  forall (blkno : BlockNumber),
  1 <= CuckooMetaBlockN ->
  notFullOf state blkno pages [] = [] ->
  forall p, p ∈ pages ->
    pageLive p && negb (maxoff p =? 0)
    && (CuckooPageGetFreeSpace state p >=? sizeOfCuckooTuple state) = false.
Proof.
  induction pages as [|q rest IH]; intros blkno HN H p Hin;
    [by apply elem_of_nil in Hin|].
  cbn [notFullOf] in H.
  destruct (pageLive q && negb (maxoff q =? 0)
            && (CuckooPageGetFreeSpace state q >=? sizeOfCuckooTuple state))
    eqn:E.
  - exfalso. change (Z.of_nat (length (@nil BlockNumber))) with 0 in H.
    destruct (Z.ltb_spec 0 CuckooMetaBlockN); [|lia]. cbn [andb] in H.
    pose proof (notFullOf_length state rest (blkno + 1) ([] ++ [blkno]))
      as Hl.
    rewrite H in Hl. simpl in Hl. lia.
  - cbn [andb] in H. apply elem_of_cons in Hin as [->|Hin]; [done|].
    by apply (IH (blkno + 1)).
Qed.

Lemma CuckooPageAddItem_has_room (state : CuckooState) (page : Page)
    (t : CuckooTuple) :
  sizeOfCuckooTuple state <= CuckooPageGetFreeSpace state page ->
  exists q, CuckooPageAddItem state page t = (true, q).
Proof.
  intros H. unfold CuckooPageAddItem.
  destruct (Z.ltb_spec (CuckooPageGetFreeSpace state page)
                       (sizeOfCuckooTuple state)); [lia|eauto].
Qed.

(** X13. Space freed by vacuum is used again.  On an index in order,
    after [ckbulkdelete] followed by [ckvacuumcleanup], an insert does
    not extend the relation as long as some data page is new or deleted,
    or holds tuples and has room: the tuple goes to a page of the free
    list, or to a free page taken from the free-space map. *)
Theorem vacuum_then_insert_reuses (index index1 index3 : Relation)
    (stats : option Z) (callback : IndexBulkDeleteCallback) (removed : Z)
    (cstats : option CleanupStats) (values : list Datum)
    (isnull : list bool) (ht_ctid : ItemPointerData) (page : Page) :
  relation_ok index ->
  ckbulkdelete index stats callback = Ok (index1, removed) ->
  let index2 := fst (ckvacuumcleanup index1 false cstats) in
  page ∈ rd_pages index2 ->
  pageLive page = false \/
    (maxoff page <> 0 /\ maxoff page < Z.of_nat pageCapacity) ->
  ckinsert index2 values isnull ht_ctid = Ok index3 ->
  length (rd_pages index3) = length (rd_pages index2).
Proof using BLCKSZ_range.
  intros Hok Hbulk index2 Hin Hpage Hins.
  destruct (ckbulkdelete_total index stats callback Hok)
    as (i1 & r1 & Hb1 & Hok1).
  assert (i1 = index1) as -> by congruence. clear Hb1.
  destruct Hok as (Hwf & _).
  pose proof Hbulk as Hbulk'.
  apply ckbulkdelete_Ok in Hbulk'
    as (state & mp & pages' & notFull & Hst & Hmp & Hp & Hidx).
  pose proof (initCuckooState_state_ok _ _ Hst) as Hs.
  pose proof (bulkDeletePages_notFull _ _ _ _ _ _ _ _ _ Hwf Hp) as Hnf.
  apply bulkDeletePages_spec in Hp as (Hlen & _ & _ & Hcnt & Hentries);
    [|intros p Hp' Hl; by apply (relation_wf_page index)].
  specialize (Hcnt ltac:(pose proof CuckooMetaBlockN_bounds; simpl; lia)).
  pose proof CuckooMetaBlockN_bounds as HN.
  pose proof CuckooMetaBlockN_pos as HN1.
  destruct (ckvacuumcleanup_ok index1 cstats Hok1)
    as (Hok2 & Hp2 & Hm2 & Hfsm2).
  fold index2 in Hok2, Hp2, Hm2, Hfsm2.
  assert (rd_pages index1 = pages') as Hp1 by (by rewrite Hidx).
  assert (rd_meta index1
          = Some (setMetaData mp
                    (mkMeta (magicNumber (mp_meta mp)) 0
                       (uint16 (Z.of_nat (length notFull)))
                       (opts (mp_meta mp))
                       (notFull ++ drop (length notFull)
                                        (notFullPage (mp_meta mp))))))
    as Hm1 by (by rewrite Hidx).
  rewrite Hp1 in Hp2, Hfsm2. rewrite Hm1 in Hm2.
  destruct Hok2 as (Hwf2 & state2 & mp2 & Hst2 & Hmeta2 & _ & _).
  assert (state2 = state) as ->.
  { destruct (ckbulkdelete_preserves _ _ _ _ _ Hwf Hbulk) as (_ & Hsame & _).
    destruct Hok1 as (_ & s1 & m1 & Hs1 & _).
    rewrite (initCuckooState_sameIndex _ _ Hsame) in Hs1.
    assert (initCuckooState index2 = initCuckooState index1) as E.
    { apply initCuckooState_sameIndex.
      destruct (ckvacuumcleanup_preserves index1 false cstats)
        as (_ & Hm & Hn & Hh & Ho).
      unfold sameIndex. fold index2 in Hm, Hn, Hh, Ho.
      by rewrite Hm, Hn, Hh, Ho. }
    destruct (ckbulkdelete_preserves _ _ _ _ _ Hwf Hbulk) as (_ & Hsame1 & _).
    rewrite (initCuckooState_sameIndex _ _ Hsame1) in E. congruence. }
  clearbody index2. rewrite Hp2 in *.
  unfold ckinsert in Hins. rewrite Hst2, Hm2 in Hins. simpl in Hins.
  set (itup := CuckooFormTuple state ht_ctid values isnull) in *.
  unfold uint16 in Hins. rewrite Z.mod_small in Hins by lia.
  destruct notFull as [|b0 nf].
  - (* nothing in the free list: a free page is taken from the map *)
    simpl in Hins. unfold insertSlowPath in Hins. simpl in Hins.
    unfold insertNewPage in Hins.
    apply bind_Ok in Hins as ([blkno index2'] & Hnew & Hins).
    destruct (CuckooPageAddItem state (CuckooInitPage 0) itup)
      as [[] q]; [|done].
    injection Hins as <-. simpl. rewrite length_insert.
    unfold CuckooNewBuffer in Hnew.
    apply bind_Ok in Hnew as ([r rest] & Hfsm & Hnew).
    destruct r as [b|]; injection Hnew as <- <-; simpl; [by rewrite Hp2|].
    exfalso.
    apply newBufferFromFsm_spec in Hfsm as (skipped & Hsk & <- & _).
    assert (pageLive page = false) as Hl.
    { destruct (pageLive page) eqn:Hl; [|done].
      destruct Hpage as [?|[Hne Hroom]]; [done|]. exfalso.
      pose proof (notFullOf_nil state pages' CUCKOO_HEAD_BLKNO HN1
                    (eq_sym Hnf) page Hin) as Hno.
      rewrite Hl in Hno. apply Z.eqb_neq in Hne. rewrite Hne in Hno.
      simpl in Hno. rewrite Z.geb_leb in Hno. apply Z.leb_gt in Hno.
      rewrite CuckooPageGetFreeSpace_wf in Hno; [|done|].
      - rewrite Hs in Hno. unfold sizeof_CuckooTuple in Hno.
        pose proof pageCapacity_bounds. lia.
      - destruct (Hwf2 page) as [H1 H2]; [by rewrite Hp2|].
        split; [done|by apply H2]. }
    apply list_elem_of_lookup in Hin as [i Hi].
    destruct (Hsk _ (Hfsm2 i page Hi Hl)) as (p & Hread & Hlive).
    apply readPage_lookup in Hread. rewrite Hp2 in Hread.
    replace (Z.to_nat (1 + Z.of_nat i - 1)) with i in Hread by lia.
    congruence.
  - (* the first entry of the free list has room *)
    assert (1 <= Z.of_nat (length (b0 :: nf))) as Hc1 by (simpl; lia).
    destruct (Z.gtb_spec (Z.of_nat (length (b0 :: nf))) 0); [|lia].
    simpl in Hins.
    destruct (Hentries b0 ltac:(left))
      as [Hnil|(i & p & Hi & -> & Hne & Hroom)];
      [by apply elem_of_nil in Hnil|].
    assert (readPage index2 (CUCKOO_HEAD_BLKNO + Z.of_nat i) = Ok p) as Hread.
    { unfold readPage, CUCKOO_HEAD_BLKNO.
      destruct (Z.ltb_spec (1 + Z.of_nat i) 1); [lia|]. rewrite Hp2.
      replace (Z.to_nat (1 + Z.of_nat i - 1)) with i by lia.
      by rewrite Hi. }
    rewrite Hread in Hins. simpl in Hins.
    assert (exists q, CuckooPageAddItem state (reinitIfUnused p) itup
                      = (true, q)) as [q Hadd].
    { destruct (pageLive p) eqn:Hl.
      - rewrite reinitIfUnused_live by done.
        by apply CuckooPageAddItem_has_room.
      - rewrite reinitIfUnused_unused by done.
        by apply CuckooPageAddItem_init. }
    rewrite Hadd in Hins. injection Hins as <-. simpl.
    by rewrite length_insert, Hp2.
Qed.

(** ** Deciding that an index is in order *)

Lemma relationOkb_ok (index : Relation) :
  relationOkb index = true -> relation_ok index.
Proof.
  unfold relationOkb. intros H. apply andb_true_iff in H as [Hwf H].
  split; [by apply pagesWfb_ok|].
  destruct (initCuckooState index) as [state|] eqn:Hst; [|done].
  destruct (rd_meta index) as [mp|] eqn:Hmeta; [|done].
  exists state, mp. split; [done|]. split; [done|].
  apply andb_true_iff in H as [H Hfsm]. apply andb_true_iff in H as [H Hent].
  apply andb_true_iff in H as [H Hend]. apply andb_true_iff in H as [Hlen H0].
  apply Nat.eqb_eq in Hlen. apply Z.leb_le in H0, Hend.
  rewrite forallb_forall in Hent, Hfsm.
  assert (forall b, inRelation index b = true ->
            1 <= b <= Z.of_nat (length (rd_pages index))) as Hin.
  { intros b Hb. unfold inRelation in Hb.
    apply andb_true_iff in Hb as [H1 H2]. apply Z.leb_le in H1, H2. done. }
  split.
  - split; [done|]. split; [done|]. split; [done|].
    intros n b Hn Hlook. apply Hin, Hent, list_elem_of_In.
    apply (list_elem_of_lookup_2 _
             (Z.to_nat n - Z.to_nat (nStart (mp_meta mp)))).
    rewrite lookup_drop, lookup_take_lt by lia.
    by replace (Z.to_nat (nStart (mp_meta mp))
                + (Z.to_nat n - Z.to_nat (nStart (mp_meta mp))))%nat
      with (Z.to_nat n) by lia.
  - intros b Hb. by apply Hin, Hfsm, list_elem_of_In.
Qed.

(** ** The capacity of a page *)

(** X14. A page takes [(BLCKSZ - 32) / 12] tuples: on a well-formed page
    the free-space test of [CuckooPageAddItem], done on byte counts,
    succeeds exactly when the page holds fewer tuples than that. *)
Theorem CuckooPageAddItem_capacity (state : CuckooState) (page : Page)
    (tuple : CuckooTuple) :
  state_ok state -> page_wf page ->
  Z.of_nat pageCapacity = (BLCKSZ - 32) / 12 /\
  (fst (CuckooPageAddItem state page tuple) = true <->
   maxoff page < Z.of_nat pageCapacity).
Proof using BLCKSZ_range.
  intros Hs Hwf. split; [apply pageCapacity_eq|]. split.
  - destruct (CuckooPageAddItem state page tuple) as [[] q] eqn:H; [|done].
    intros _. apply (free_space_slot state); [done|done|].
    by eapply CuckooPageAddItem_true.
  - intros Hlt.
    destruct (CuckooPageAddItem_has_room state page tuple) as [q ->]; [|done].
    rewrite CuckooPageGetFreeSpace_wf by done. rewrite Hs.
    unfold sizeof_CuckooTuple. pose proof pageCapacity_bounds. lia.
Qed.

(** ** Insert, then vacuum the row away *)

Lemma survivors_keep (cb : IndexBulkDeleteCallback) (l : list CuckooTuple) :
  (forall t, t ∈ l -> cb (heapPtr t) = false) -> survivors cb l = l.
Proof.
  induction l as [|t l IH]; intros H; simpl; [done|].
  rewrite (H t ltac:(left)). simpl. f_equal. apply IH.
  intros t' Ht'. apply H. by right.
Qed.

(** X15. Insert, then delete: when a row is inserted and a bulk delete
    follows whose callback reports that row dead and none of the rows
    the index held before, the index holds again exactly the tuples it
    held before the insert, in the same order, and [tuples_removed] grew
    by one. *)
Theorem insert_then_delete_restores (index index1 index2 : Relation)
    (values : list Datum) (isnull : list bool) (ht_ctid : ItemPointerData)
    (stats : option Z) (callback : IndexBulkDeleteCallback) (removed : Z) :
  relation_wf index ->
  ckinsert index values isnull ht_ctid = Ok index1 ->
  (forall t, t ∈ storedTuples index -> callback (heapPtr t) = false) ->
  callback ht_ctid = true ->
  ckbulkdelete index1 stats callback = Ok (index2, removed) ->
  storedTuples index2 = storedTuples index /\
  removed = default 0 stats + 1.
Proof using BLCKSZ_range.
  intros Hwf Hins Hold Hdead Hbulk.
  apply ckinsert_Ok in Hins as (state & mp & Hst & Hmp & Hout).
  pose proof (initCuckooState_state_ok _ _ Hst) as Hs.
  destruct (insertOutcome_storedTuples _ _ _ _ _ Hs Hwf Hmp Hout)
    as (l1 & l2 & H1 & H2 & _).
  apply insertOutcome_preserves in Hout as (Hwf1 & _); [|done|done|done].
  destruct (ckbulkdelete_stored _ _ _ _ _ Hwf1 Hbulk) as [Hstored Hrem].
  rewrite H1 in Hold.
  assert (survivors callback (storedTuples index1) = l1 ++ l2) as Hsurv.
  { rewrite H2, survivors_app. simpl. rewrite Hdead. simpl.
    rewrite !survivors_keep; [done| |];
      intros t Ht; apply Hold, elem_of_app; auto. }
  rewrite Hsurv in Hstored. split; [congruence|].
  rewrite Hrem, Hstored, H2, !length_app. simpl. lia.
Qed.

(** ** What no operation changes, and how the relation grows *)

Lemma applyOp_size (index index' : Relation) (op : Op) :
  relation_wf index -> applyOp index op = Ok index' ->
  (length (rd_pages index) <= length (rd_pages index')
   <= length (rd_pages index) + (if isInsert op then 1 else 0))%nat.
Proof using BLCKSZ_range.
  intros Hwf. destruct op as [values isnull tid|cb|]; unfold applyOp;
    cbn [isInsert].
  - intros H. apply ckinsert_Ok in H as (state & mp & Hst & Hmp & Hout).
    destruct (insertOutcome_storedTuples _ _ _ _ _
                (initCuckooState_state_ok _ _ Hst) Hwf Hmp Hout)
      as (_ & _ & _ & _ & Hlen). done.
  - intros H. apply bind_Ok in H as ([index1 r] & H & [= <-]).
    apply ckbulkdelete_Ok in H
      as (state & mp & pages' & notFull & _ & _ & Hp & ->).
    apply bulkDeletePages_spec in Hp as (Hlen & _);
      [|intros p Hin Hl; by apply (relation_wf_page index)].
    simpl. lia.
  - destruct (ckvacuumcleanup_preserves index false None) as (Hp & _).
    revert Hp. generalize (fst (ckvacuumcleanup index false None)).
    intros index1 Hp [= <-]. rewrite Hp. lia.
Qed.

(** X16. No sequence of [ckinsert], [ckbulkdelete] and
    [ckvacuumcleanup] calls changes the number of columns, the hash
    procedure, the options, or the flags, magic number and options of the
    metapage, so [initCuckooState] gives the same state (mask and hash)
    before and after; the relation never shrinks, and it grows by at most
    one block for each insert. *)
Theorem runOps_descriptor_and_size (index index' : Relation)
    (ops : list Op) :
  relation_wf index -> runOps index ops = Ok index' ->
  sameIndex index index' /\
  initCuckooState index' = initCuckooState index /\
  (length (rd_pages index) <= length (rd_pages index')
   <= length (rd_pages index) + length (List.filter isInsert ops))%nat.
Proof using BLCKSZ_range.
  intros Hwf Hrun.
  destruct (runOps_preserves _ _ _ Hwf Hrun) as (_ & Hsame & _).
  split; [done|]. split; [by apply initCuckooState_sameIndex|].
  revert index Hwf Hrun Hsame.
  induction ops as [|op rest IH]; intros index Hwf Hrun _; simpl in *.
  - injection Hrun as <-. lia.
  - apply bind_Ok in Hrun as (index1 & Hop & Hrest).
    pose proof (applyOp_size _ _ _ Hwf Hop) as H1.
    apply applyOp_preserves in Hop as (Hwf1 & _); [|done].
    destruct (runOps_preserves _ _ _ Hwf1 Hrest) as (_ & Hsame1 & _).
    specialize (IH index1 Hwf1 Hrest Hsame1).
    destruct (isInsert op); simpl; lia.
Qed.

(** ** Page headers *)

Lemma headerOk_init (f : Z) : headerOk (CuckooInitPage f).
Proof. unfold headerOk, CuckooInitPage. simpl. repeat split; lia. Qed.

Lemma headerOk_add (state : CuckooState) (p q : Page) (t : CuckooTuple) :
  state_ok state -> page_wf p -> headerOk p ->
  CuckooPageAddItem state p t = (true, q) -> headerOk q.
Proof using BLCKSZ_range.
  intros Hs Hwf (H1 & H2 & H3 & H4) H.
  pose proof (CuckooPageAddItem_true _ _ _ _ H) as Hr.
  rewrite CuckooPageAddItem_room in H by done. injection H as <-.
  unfold headerOk. simpl. unfold SizeOfPageHeaderData, sizeof_CuckooTuple.
  repeat split; (done || lia).
Qed.

Lemma pagesHeaderOk_insert (pages : list Page) (i : nat) (q : Page) :
  pagesHeaderOk pages -> headerOk q -> pagesHeaderOk (<[i:=q]> pages).
Proof.
  intros H Hq p Hin Hl. apply elem_of_insert_inv in Hin as [->|Hin]; [done|].
  by apply H.
Qed.

Lemma pagesHeaderOk_extend (pages : list Page) :
  pagesHeaderOk pages -> pagesHeaderOk (pages ++ [zeroPage]).
Proof.
  intros H p Hin Hl. apply elem_of_app in Hin as [Hin|Hin]; [by apply H|].
  apply list_elem_of_singleton in Hin as ->.
  by rewrite zeroPage_not_live in Hl.
Qed.

Lemma headerOk_append (state : CuckooState) (pages : list Page) (i : nat)
    (page page' : Page) (itup : CuckooTuple) :
  state_ok state -> pagesWf pages -> pagesHeaderOk pages ->
  pages !! i = Some page ->
  CuckooPageAddItem state (reinitIfUnused page) itup = (true, page') ->
  headerOk page'.
Proof using BLCKSZ_range.
  intros Hs Hwf Hh Hi Hadd.
  pose proof (list_elem_of_lookup_2 _ _ _ Hi) as Hin.
  destruct (pageLive page) eqn:Hl.
  - rewrite reinitIfUnused_live in Hadd by done.
    destruct (Hwf page Hin) as [H1 H2].
    apply (headerOk_add state page page' itup); try done; [|by apply Hh].
    split; [done|by apply H2].
  - rewrite reinitIfUnused_unused in Hadd by done.
    apply (headerOk_add state (CuckooInitPage 0) page' itup);
      auto using CuckooInitPage_wf, headerOk_init.
Qed.

Lemma insertOutcome_header (state : CuckooState) (index index' : Relation)
    (mp : MetaPage) (itup : CuckooTuple) :
  state_ok state -> relation_wf index -> rd_meta index = Some mp ->
  pagesHeaderOk (rd_pages index) ->
  insertOutcome state index mp itup index' ->
  pagesHeaderOk (rd_pages index').
Proof using BLCKSZ_range.
  intros Hs Hwf Hmeta Hh
    [(blkno & page & page' & mp' & Hread & Hadd & -> & Hstat)
    |(blkno & index1 & page' & mp' & Hnew & Hadd & -> & Hstat)]; simpl.
  - apply readPage_lookup in Hread. apply pagesHeaderOk_insert; [done|].
    by eapply headerOk_append.
  - apply pagesHeaderOk_insert.
    + apply CuckooNewBuffer_Ok in Hnew
        as (_ & _ & _ & _ & [[-> _]|[-> _]]); [done|].
      by apply pagesHeaderOk_extend.
    + apply (headerOk_add state (CuckooInitPage 0) page' itup);
        auto using CuckooInitPage_wf, headerOk_init.
Qed.

Lemma bulkDeletePage_header (state : CuckooState)
    (cb : IndexBulkDeleteCallback) (blkno : BlockNumber) (page page' : Page)
    (notFull notFull' : list BlockNumber) (removed removed' : Z) :
  state_ok state -> page_wf page -> pageLive page = true ->
  headerOk page ->
  bulkDeletePage state cb blkno page notFull removed
  = (page', notFull', removed') ->
  pageLive page' = true -> headerOk page'.
Proof using BLCKSZ_range.
  intros Hs [Hlen Hm] Hlive (H1 & H2 & H3 & H4).
  pose proof pageCapacity_bounds as Hc.
  unfold bulkDeletePage. rewrite pageLive_unused, Hlive. simpl.
  unfold CuckooPageGetMaxOffset.
  destruct (vacuumLoop cb (Z.to_nat (maxoff page)) page 0 0 removed)
    as [[[work i'] j'] r'] eqn:Hloop.
  apply vacuumLoop_spec in Hloop; [|lia|lia|lia].
  cbv zeta in Hloop. rewrite drop_0 in Hloop. simpl in Hloop.
  fold (liveTuples page) in Hloop. rewrite Z2Nat.id in Hloop by lia.
  destruct Hloop
    as (-> & -> & _ & _ & Hmax & _ & Hfl & Hup & Hlow & Hsp & Hid).
  pose proof (survivors_length cb (liveTuples page)) as Hk.
  unfold liveTuples in Hk at 2. rewrite length_take in Hk.
  set (kept := survivors cb (liveTuples page)) in *.
  destruct (Nat.eqb_spec (length kept) (Z.to_nat (maxoff page))) as [He|Hne];
    simpl; intros [= <- <- <-]; [done|].
  intros Hl'.
  assert (maxoff work <> 0) as Hnz.
  { intros E. rewrite E in Hl'. simpl in Hl'.
    unfold pageLive, CuckooPageIsDeleted, CuckooPageSetDeleted, setPdLower
      in Hl'. simpl in Hl'.
    rewrite CuckooPageIsDeleted_lor in Hl'. simpl in Hl'.
    by rewrite andb_false_r in Hl'. }
  apply Z.eqb_neq in Hnz. rewrite Hnz.
  unfold headerOk, setPdLower, tupleLocation. simpl.
  rewrite Hs, MAXALIGN_header, Hup, Hsp, Hid.
  unfold uint16, sizeof_CuckooTuple, SizeOfPageHeaderData in *.
  rewrite Z.mod_small by lia.
  repeat split; (done || lia).
Qed.

Lemma bulkDeletePages_header (state : CuckooState)
    (cb : IndexBulkDeleteCallback) (pages : list Page) :
  forall (blkno : BlockNumber) (nf : list BlockNumber) (r : Z)
         (pages' : list Page) (nf' : list BlockNumber) (r' : Z),
  state_ok state -> pagesWf pages -> pagesHeaderOk pages ->
  bulkDeletePages state cb blkno pages nf r = (pages', nf', r') ->
  pagesHeaderOk pages'.
Proof using BLCKSZ_range.
  induction pages as [|page rest IH];
    intros blkno nf r pages' nf' r' Hs Hwf Hh; simpl.
  - intros [= <- <- <-]. by intros p ?%elem_of_nil.
  - destruct (bulkDeletePage state cb blkno page nf r)
      as [[p1 nf1] r1] eqn:Hp.
    destruct (bulkDeletePages state cb (blkno + 1) rest nf1 r1)
      as [[ps nf2] r2] eqn:Hrest.
    intros [= <- <- <-].
    apply IH in Hrest; [|done|intros p Hin; apply Hwf; by right
                        |intros p Hin; apply Hh; by right].
    intros p [->|Hin]%elem_of_cons Hl; [|by apply Hrest].
    destruct (Hwf page ltac:(left)) as [Hcap Hm].
    destruct (pageLive page) eqn:Hlive.
    + eapply bulkDeletePage_header; try done.
      * split; [done|by apply Hm].
      * apply Hh; [left|done].
    + rewrite bulkDeletePage_unused in Hp by done.
      injection Hp as <- _ _. congruence.
Qed.

Lemma applyOp_header (index index' : Relation) (op : Op) :
  relation_wf index -> pagesHeaderOk (rd_pages index) ->
  applyOp index op = Ok index' -> pagesHeaderOk (rd_pages index').
Proof using BLCKSZ_range.
  intros Hwf Hh. destruct op as [values isnull tid|cb|]; unfold applyOp.
  - intros H. apply ckinsert_Ok in H as (state & mp & Hst & Hmp & Hout).
    eapply insertOutcome_header; try done.
    by eapply initCuckooState_state_ok.
  - intros H. apply bind_Ok in H as ([index1 r] & H & [= <-]).
    apply ckbulkdelete_Ok in H
      as (state & mp & pages' & notFull & Hst & _ & Hp & ->).
    simpl. eapply bulkDeletePages_header; try done.
    by eapply initCuckooState_state_ok.
  - destruct (ckvacuumcleanup_preserves index false None) as (Hp & _).
    revert Hp. generalize (fst (ckvacuumcleanup index false None)).
    intros index1 Hp [= <-]. by rewrite Hp.
Qed.

Lemma runOps_header (ops : list Op) (index index' : Relation) :
  relation_wf index -> pagesHeaderOk (rd_pages index) ->
  runOps index ops = Ok index' -> pagesHeaderOk (rd_pages index').
Proof using BLCKSZ_range.
  revert index. induction ops as [|op rest IH]; intros index Hwf Hh; simpl.
  - by intros [= <-].
  - intros H. apply bind_Ok in H as (index1 & Hop & Hrest).
    pose proof (applyOp_header _ _ _ Hwf Hh Hop) as Hh1.
    apply applyOp_preserves in Hop as (Hwf1 & _); [|done].
    by apply (IH index1).
Qed.

Lemma flushCachedPage_header (index index1 : Relation)
    (bs : CuckooBuildState) :
  pagesHeaderOk (rd_pages index) -> headerOk (data bs) ->
  flushCachedPage index bs = Ok index1 ->
  pagesHeaderOk (rd_pages index1).
Proof.
  intros Hh Hd H. unfold flushCachedPage in H.
  apply bind_Ok in H as ([blkno index0] & Hnew & [= <-]). simpl.
  apply pagesHeaderOk_insert; [|done].
  apply CuckooNewBuffer_Ok in Hnew as (_ & _ & _ & _ & [[-> _]|[-> _]]);
    [done|by apply pagesHeaderOk_extend].
Qed.

Lemma buildScan_header (rows : list HeapRow) :
  forall (index index' : Relation) (bs bs' : CuckooBuildState),
  state_ok (ckstate bs) -> pagesHeaderOk (rd_pages index) ->
  page_wf (data bs) -> pageLive (data bs) = true -> headerOk (data bs) ->
  buildScan index rows bs = Ok (index', bs') ->
  pagesHeaderOk (rd_pages index') /\ headerOk (data bs').
Proof using BLCKSZ_range.
  induction rows as [|row rest IH];
    intros index index' bs bs' Hs Hh Hwf Hl Hd; simpl.
  - by intros [= <- <-].
  - intros H. apply bind_Ok in H as ([index1 bs1] & Hcb & H). simpl in H.
    pose proof (cuckooBuildCallback_ckstate _ _ _ _ _ Hcb) as Hst.
    assert (pagesHeaderOk (rd_pages index1) /\ page_wf (data bs1) /\
            pageLive (data bs1) = true /\ headerOk (data bs1))
      as (Hh1 & Hwf1 & Hl1 & Hd1).
    { revert Hcb. unfold cuckooBuildCallback.
      destruct (CuckooPageAddItem (ckstate bs) (data bs) _) as [[] p] eqn:H1.
      - intros [= <- <-]. simpl.
        destruct (append_to_cached _ _ _ _ Hs Hwf Hl H1) as (_ & ? & ? & _).
        split; [done|]. split; [done|]. split; [done|].
        exact (headerOk_add _ _ _ _ Hs Hwf Hd H1).
      - intros Hcb. apply bind_Ok in Hcb as (index2 & Hflush & Hcb).
        simpl in Hcb.
        destruct (CuckooPageAddItem (ckstate bs) (CuckooInitPage 0) _)
          as [[] q] eqn:H2; [|done].
        injection Hcb as <- <-. simpl.
        destruct (append_to_cached _ _ _ _ Hs (CuckooInitPage_wf 0)
                    CuckooInitPage_live H2) as (_ & ? & ? & _).
        split; [by eapply flushCachedPage_header|].
        split; [done|]. split; [done|].
        exact (headerOk_add _ _ _ _ Hs (CuckooInitPage_wf 0)
                 (headerOk_init 0) H2). }
    apply (IH index1 index' bs1 bs'); try done. by rewrite Hst.
Qed.

Lemma ckbuild_header (heap : list HeapRow) (index built : Relation) (n : Z) :
  ckbuild heap index = Ok (built, n) -> pagesHeaderOk (rd_pages built).
Proof using BLCKSZ_range.
  unfold ckbuild. destruct (negb _); [done|]. intros H.
  apply bind_Ok in H as (state & Hst & H).
  apply bind_Ok in H as ([index1 bs1] & Hscan & H).
  apply buildScan_header in Hscan as [Hh Hd].
  - destruct (count bs1 >? 0).
    + apply bind_Ok in H as (index2 & Hflush & [= <- _]).
      by eapply flushCachedPage_header.
    + by injection H as <- _.
  - simpl. by eapply initCuckooState_state_ok.
  - by intros p ?%elem_of_nil.
  - apply CuckooInitPage_wf.
  - apply CuckooInitPage_live.
  - apply headerOk_init.
Qed.

(** X17. The header of every page in use agrees with its tuple count, on
    every index made by [ckbuild] and changed by any sequence of
    [ckinsert], [ckbulkdelete] and [ckvacuumcleanup] calls: [pd_lower] is
    24 + 12 * maxoff, [pd_upper] and [pd_special] are [BLCKSZ - 8], the
    page id is [CUCKOO_PAGE_ID]; so [pd_lower] never passes [pd_upper]
    (the assertion at the end of [CuckooPageAddItem]), and the hole
    between them is exactly the free space [CuckooPageGetFreeSpace]
    computes from the tuple count. *)
Theorem page_headers_consistent (heap : list HeapRow)
    (index0 built index : Relation) (n : Z) (ops : list Op) (page : Page) :
  ckbuild heap index0 = Ok (built, n) ->
  runOps built ops = Ok index ->
  page ∈ rd_pages index -> pageLive page = true ->
  headerOk page /\
  pd_lower page <= pd_upper page /\
  forall state, initCuckooState index = Ok state ->
    pd_upper page - pd_lower page = CuckooPageGetFreeSpace state page.
Proof using BLCKSZ_range.
  intros Hbuild Hrun Hin Hl.
  pose proof (ckbuild_wf _ _ _ _ Hbuild) as Hwf.
  pose proof (ckbuild_header _ _ _ _ Hbuild) as Hh.
  pose proof (runOps_header _ _ _ Hwf Hh Hrun) as Hh'.
  apply runOps_preserves in Hrun as (Hwf' & _); [|done].
  pose proof (Hh' page Hin Hl) as Hp. split; [done|].
  destruct Hp as (H1 & H2 & _).
  split.
  { destruct (relation_wf_page _ _ Hwf' Hin Hl) as [_ Hm].
    pose proof pageCapacity_bounds as [_ Hc].
    rewrite H1, H2, MAXALIGN_opaque.
    unfold SizeOfPageHeaderData, sizeof_CuckooTuple. lia. }
  intros state Hst.
  rewrite CuckooPageGetFreeSpace_wf;
    [|exact (initCuckooState_state_ok _ _ Hst)
     |exact (relation_wf_page _ _ Hwf' Hin Hl)].
  rewrite H1, H2, MAXALIGN_opaque.
  unfold SizeOfPageHeaderData, sizeof_CuckooTuple. lia.
Qed.

(** ** The assertion of the compaction loop *)

(** X18. The compaction loop of [ckbulkdelete] counts correctly: run on
    a well-formed page from the first slot over its [maxoff] tuples, it
    ends with the write position just past the last live tuple of the
    page as it then is (the [Assert] after the loop), the live count
    never goes below zero, and the test that decides between committing
    and aborting the page, [itupPtr != itup], holds exactly when the
    loop removed a tuple. *)
Theorem vacuumLoop_assertion (state : CuckooState)
    (callback : IndexBulkDeleteCallback) (page work : Page)
    (itup itupPtr : nat) (removed removed' : Z) :
  page_wf page ->
  vacuumLoop callback (Z.to_nat (CuckooPageGetMaxOffset page)) page
             0%nat 0%nat removed
  = (work, itup, itupPtr, removed') ->
  tupleLocation state (Z.of_nat itupPtr + 1)
  = tupleLocation state (CuckooPageGetMaxOffset work + 1) /\
  0 <= CuckooPageGetMaxOffset work <= CuckooPageGetMaxOffset page /\
  removed' - removed
  = CuckooPageGetMaxOffset page - CuckooPageGetMaxOffset work /\
  (itupPtr <> itup <-> removed' <> removed).
Proof using BLCKSZ_range.
  intros [Hlen Hm] Hloop. pose proof pageCapacity_bounds as Hc.
  unfold CuckooPageGetMaxOffset in *.
  apply vacuumLoop_spec in Hloop; [|lia|lia|lia].
  cbv zeta in Hloop. rewrite drop_0 in Hloop.
  destruct Hloop as (-> & -> & _ & _ & Hmax & -> & _).
  pose proof (survivors_length callback
                (take (Z.to_nat (maxoff page)) (items page))) as Hk.
  rewrite length_take in Hk.
  set (kept := survivors callback
                 (take (Z.to_nat (maxoff page)) (items page))) in *.
  simpl. repeat split; try (f_equal; lia); try lia.
Qed.

(** ** Rows that came in through the build *)

Lemma flushCachedPage_sameIndex (index index1 : Relation)
    (bs : CuckooBuildState) :
  flushCachedPage index bs = Ok index1 ->
  sameIndex index index1 /\ rd_meta index1 = rd_meta index.
Proof.
  intros H. unfold flushCachedPage in H.
  apply bind_Ok in H as ([blkno index0] & Hnew & [= <-]).
  apply CuckooNewBuffer_Ok in Hnew as (Hn & Hh & Ho & Hm & _).
  unfold sameIndex. simpl. by rewrite Hn, Hh, Ho, Hm.
Qed.

Lemma flushCachedPage_stored (index index1 : Relation)
    (bs : CuckooBuildState) (mp : MetaPage) :
  relation_wf index -> rd_meta index = Some mp ->
  page_wf (data bs) -> pageLive (data bs) = true ->
  flushCachedPage index bs = Ok index1 ->
  forall t, buildHolds index bs t -> storedIn (rd_pages index1) t.
Proof.
  intros Hwf Hmeta Hp Hl H t Ht. unfold flushCachedPage in H.
  apply bind_Ok in H as ([blkno index0] & Hnew & [= <-]).
  apply CuckooNewBuffer_Ok in Hnew
    as (_ & _ & _ & Hm & [[Hpages (page & Hread & Hunused)]|[Hpages ->]]).
  - apply readPage_lookup in Hread. simpl. rewrite Hpages.
    destruct (pages_update _ _ page (data bs) Hread Hwf Hp Hl)
      as (_ & H2 & H3); [intros; congruence|].
    destruct Ht as [Ht|Ht]; [by apply H3|by apply H2].
  - unfold RelationGetNumberOfBlocks. simpl. rewrite Hpages, Hmeta.
    replace (Z.to_nat (1 + Z.of_nat (length (rd_pages index)) - 1))
      with (length (rd_pages index)) by lia.
    destruct (pages_update (rd_pages index ++ [zeroPage])
                (length (rd_pages index)) zeroPage (data bs))
      as (_ & H2 & H3); try done.
    + rewrite lookup_app_r by lia. by rewrite Nat.sub_diag.
    + by apply pagesWf_extend.
    + destruct Ht as [Ht|Ht]; [by apply H3, storedIn_extend|by apply H2].
Qed.

Lemma cuckooBuildCallback_stored (index index' : Relation) (row : HeapRow)
    (bs bs' : CuckooBuildState) (mp : MetaPage) :
  state_ok (ckstate bs) -> relation_wf index -> rd_meta index = Some mp ->
  page_wf (data bs) -> pageLive (data bs) = true ->
  count bs = maxoff (data bs) ->
  cuckooBuildCallback index row bs = Ok (index', bs') ->
  (forall t, buildHolds index bs t -> buildHolds index' bs' t) /\
  buildHolds index' bs' (formRow (ckstate bs) row) /\
  count bs' = maxoff (data bs') /\
  sameIndex index index'.
Proof using BLCKSZ_range.
  intros Hs Hwf Hmeta Hp Hl Hc. unfold cuckooBuildCallback.
  fold (formRow (ckstate bs) row).
  destruct (CuckooPageAddItem (ckstate bs) (data bs) _) as [[] p] eqn:H1.
  - intros [= <- <-]. unfold buildHolds. simpl.
    destruct (append_to_cached _ _ _ _ Hs Hp Hl H1) as (Ht & _ & _ & Hm).
    rewrite Ht. split; [|split; [|split; [lia|apply sameIndex_refl]]].
    + intros t [?|?]; [by left|right]. apply elem_of_app. by left.
    + right. apply elem_of_app. right. by apply list_elem_of_singleton.
  - intros H. apply bind_Ok in H as (index1 & Hflush & H). simpl in H.
    fold (formRow (ckstate bs) row) in H.
    destruct (CuckooPageAddItem (ckstate bs) (CuckooInitPage 0) _)
      as [[] q] eqn:H2; [|done].
    injection H as <- <-. unfold buildHolds. simpl.
    destruct (append_to_cached _ _ _ _ Hs (CuckooInitPage_wf 0)
                CuckooInitPage_live H2) as (Ht & _ & _ & Hm).
    rewrite Ht. simpl in Hm.
    split; [|split; [|split; [lia|]]].
    + intros t Hold. left.
      by apply (flushCachedPage_stored _ _ _ mp Hwf Hmeta Hp Hl Hflush).
    + right. apply elem_of_app. right. by apply list_elem_of_singleton.
    + by apply flushCachedPage_sameIndex in Hflush as [? _].
Qed.

Lemma buildScan_stored (rows : list HeapRow) :
  forall (index index' : Relation) (bs bs' : CuckooBuildState) (mp : MetaPage),
  state_ok (ckstate bs) -> relation_wf index -> rd_meta index = Some mp ->
  page_wf (data bs) -> pageLive (data bs) = true ->
  count bs = maxoff (data bs) ->
  buildScan index rows bs = Ok (index', bs') ->
  (forall t, buildHolds index bs t -> buildHolds index' bs' t) /\
  (forall row, row ∈ rows -> buildHolds index' bs' (formRow (ckstate bs) row)) /\
  count bs' = maxoff (data bs') /\
  sameIndex index index'.
Proof using BLCKSZ_range.
  induction rows as [|row rest IH];
    intros index index' bs bs' mp Hs Hwf Hmeta Hp Hl Hc; simpl.
  - intros [= <- <-]. split; [done|]. split; [by intros r ?%elem_of_nil|].
    split; [done|apply sameIndex_refl].
  - intros H. apply bind_Ok in H as ([index1 bs1] & Hcb & H). simpl in H.
    pose proof (cuckooBuildCallback_ckstate _ _ _ _ _ Hcb) as Hst.
    pose proof Hcb as Hcb'.
    apply cuckooBuildCallback_wf with (mp := mp) in Hcb'
      as (Hwf1 & Hmeta1 & Hp1 & Hl1); try done.
    apply cuckooBuildCallback_stored with (mp := mp) in Hcb
      as (Hkeep1 & Hrow1 & Hc1 & Hsame1); try done.
    apply (IH _ _ _ _ mp) in H as (Hkeep2 & Hrows2 & Hc2 & Hsame2);
      try done; [|by rewrite Hst].
    rewrite Hst in Hrows2.
    split; [auto|]. split; [|split; [done|by eapply sameIndex_trans]].
    intros r [->|Hin]%elem_of_cons; auto.
Qed.

(** Every row of the heap is stored in the index [ckbuild] returns, and
    the index has the state the build used. *)
Lemma ckbuild_stored (heap : list HeapRow) (index0 built : Relation) (n : Z) :
  ckbuild heap index0 = Ok (built, n) ->
  exists state,
    initCuckooState built = Ok state /\
    rd_meta built = Some (CuckooFillMetapage index0) /\
    forall row, row ∈ heap -> stored built (formRow state row).
Proof using BLCKSZ_range.
  unfold ckbuild. destruct (negb _); [done|]. intros H.
  apply bind_Ok in H as (state & Hst & H).
  apply bind_Ok in H as ([index1 bs1] & Hscan & H).
  pose proof (initCuckooState_state_ok _ _ Hst) as Hs.
  pose proof Hscan as Hscan'.
  apply buildScan_wf with (mp := CuckooFillMetapage index0) in Hscan'
    as (Hwf1 & Hmeta1 & Hp1 & Hl1);
    [|done|by intros p ?%elem_of_nil|done|apply CuckooInitPage_wf
     |apply CuckooInitPage_live].
  apply buildScan_stored with (mp := CuckooFillMetapage index0) in Hscan
    as (_ & Hrows & Hc & Hsame);
    [|done|by intros p ?%elem_of_nil|done|apply CuckooInitPage_wf
     |apply CuckooInitPage_live|done].
  simpl in Hrows. exists state.
  destruct (Z.gtb_spec (count bs1) 0) as [Hpos|Hzero].
  - apply bind_Ok in H as (index2 & Hflush & [= <- _]).
    pose proof (flushCachedPage_sameIndex _ _ _ Hflush) as [Hsame2 Hm2].
    split.
    { rewrite <- Hst. apply initCuckooState_sameIndex.
      by eapply sameIndex_trans. }
    split; [congruence|].
    intros row Hin. unfold stored, dataBlocks. rewrite Hm2, Hmeta1.
    by apply (flushCachedPage_stored _ _ _ _ Hwf1 Hmeta1 Hp1 Hl1 Hflush),
             Hrows.
  - injection H as <- _. split.
    { rewrite <- Hst. by apply initCuckooState_sameIndex. }
    split; [done|].
    intros row Hin. unfold stored, dataBlocks. rewrite Hmeta1.
    destruct (Hrows row Hin) as [?|Ht]; [done|].
    destruct Hp1 as [_ Hm]. unfold liveTuples in Ht.
    replace (Z.to_nat (maxoff (data bs1))) with 0%nat in Ht by lia.
    by apply elem_of_nil in Ht.
Qed.

Lemma rowAdded_stored (values : list Datum) (isnull : list bool)
    (ht_ctid : ItemPointerData) (index1 : Relation) :
  rowAdded values isnull ht_ctid index1 ->
  relation_wf index1 /\
  exists state,
    initCuckooState index1 = Ok state /\
    stored index1 (CuckooFormTuple state ht_ctid values isnull).
Proof using BLCKSZ_range.
  intros [index index1' Hwf Hins|heap index0 built n Hbuild Hin].
  - apply ckinsert_Ok in Hins as (state & mp & Hst & Hmp & Hout).
    pose proof (initCuckooState_state_ok _ _ Hst) as Hs.
    apply insertOutcome_preserves in Hout as (Hwf1 & Hsame1 & Hstored1 & _);
      [|done|done|done].
    split; [done|]. exists state. split; [|done].
    by rewrite (initCuckooState_sameIndex _ _ Hsame1).
  - split; [by eapply ckbuild_wf|].
    destruct (ckbuild_stored _ _ _ _ Hbuild) as (state & Hst & _ & Hrows).
    exists state. split; [done|]. apply (Hrows _ Hin).
Qed.

(** C1. No false negatives.  A row comes into the index, by [ckinsert]
    on a well-formed index or as one of the heap rows of a [ckbuild]; any
    sequence of inserts, bulk deletes and vacuum clean-ups follows in
    which no bulk delete is told that the row is dead.  Then a scan begun
    on the resulting index and given keys that supply the row's non-null
    column values adds the row's locator to the bitmap, and the number it
    returns counts every locator it added. *)
Theorem ckgetbitmap_no_false_negative (index1 index2 : Relation)
    (values : list Datum) (isnull : list bool) (ht_ctid : ItemPointerData)
    (ops : list Op) (nkeys : nat) (keyData0 keys : list ScanKeyData)
    (scan0 : IndexScanDescData) (tbm : TIDBitmap) :
  rowAdded values isnull ht_ctid index1 ->
  runOps index1 ops = Ok index2 ->
  (forall callback, OpBulkDelete callback ∈ ops -> callback ht_ctid = false) ->
  ckbeginscan index2 nkeys keyData0 = Ok scan0 ->
  length keys = nkeys ->
  keysSupply (rd_natts index2) keys values isnull ->
  exists found scan',
    ckgetbitmap index2 (ckrescan scan0 (Some keys)) tbm
    = (Z.of_nat (length found), tbm ++ found, scan') /\
    ht_ctid ∈ found.
Proof using BLCKSZ_range.
  intros Hadded Hrun Hcb Hbegin Hlen Hkeys.
  apply rowAdded_stored in Hadded as (Hwf1 & state & Hst & Hstored1).
  apply runOps_preserves in Hrun as (Hwf2 & Hsame2 & Hkeep); [|done].
  set (itup := CuckooFormTuple state ht_ctid values isnull) in *.
  assert (stored index2 itup) as Hstored2.
  { apply Hkeep; [|done]. intros [v n t|cb|] Hop; simpl; [done| |done].
    by apply Hcb. }
  apply bind_Ok in Hbegin as (state2 & Hst2 & [= <-]).
  pose proof Hst2 as Hst2'.
  rewrite (initCuckooState_sameIndex _ _ Hsame2) in Hst2'.
  assert (state2 = state) as -> by congruence.
  apply initCuckooState_Ok in Hst2 as (_ & _ & _ & _ & _ & Hncols & _).
  rewrite <- Hncols in Hkeys.
  destruct (scan_fingerprint_of_row state keys values isnull Hkeys)
    as (v' & n' & Hfill & Hfp).
  destruct (ckrescan_Some (mkScan nkeys keyData0 (mkScanOpaque 0 false state))
              keys Hlen) as (kd & -> & Htake).
  simpl in Htake. unfold ckgetbitmap. simpl. rewrite Htake, Hfill. simpl.
  rewrite scanPages_spec by (by apply relation_wf_scan). simpl.
  fold (storedTuples index2).
  eexists _, _. split; [reflexivity|].
  rewrite Hfp. apply (elem_of_matching _ _ itup); [|done].
  by apply stored_storedTuples.
Qed.

(** ** The free list past its head *)

Lemma readPage_other (index : Relation) (blkno b : BlockNumber)
    (page page' p : Page) (mp : MetaPage) :
  readPage index blkno = Ok page -> readPage index b = Ok p ->
  b <> blkno ->
  readPage (writeMeta (writePage index blkno page') mp) b = Ok p /\
  readPage (writePage index blkno page') b = Ok p.
Proof.
  unfold readPage, writeMeta, writePage, CUCKOO_HEAD_BLKNO. simpl.
  destruct (Z.ltb_spec blkno 1); [done|].
  destruct (Z.ltb_spec b 1); [done|].
  intros _ Hb Hne. rewrite list_lookup_insert_ne by lia. done.
Qed.

Lemma entryHasRoom_other (state : CuckooState) (index : Relation)
    (blkno b : BlockNumber) (page page' : Page) (mp : MetaPage) :
  readPage index blkno = Ok page -> b <> blkno ->
  entryHasRoom state index b ->
  entryHasRoom state (writeMeta (writePage index blkno page') mp) b /\
  entryHasRoom state (writePage index blkno page') b.
Proof.
  intros Hread Hne (p & Hp & Hm & Hroom).
  destruct (readPage_other _ _ _ _ page' _ mp Hread Hp Hne) as [H1 H2].
  split; exists p; done.
Qed.

Lemma insertNewPage_tail (state state' : CuckooState)
    (index index' : Relation) (mp : MetaPage) (itup : CuckooTuple) :
  insertNewPage state index mp itup = Ok index' ->
  exists mp', rd_meta index' = Some mp' /\ freeListTail state' index' mp'.
Proof using BLCKSZ_range.
  intros H. unfold insertNewPage in H.
  apply bind_Ok in H as ([blkno index1] & _ & H).
  destruct (CuckooPageAddItem state (CuckooInitPage 0) itup) as [[] page'];
    [|done].
  injection H as <-. eexists. split; [reflexivity|].
  pose proof CuckooMetaBlockN_pos.
  unfold freeListTail. simpl.
  split; [done|]. split; [lia|].
  split; intros; lia.
Qed.

Lemma insertSlowLoop_tail (fuel : nat) (state : CuckooState)
    (index index' : Relation) (mp : MetaPage) (itup : CuckooTuple) :
  forall n,
  nStart (mp_meta mp) <= n -> freeListTail state index mp ->
  insertSlowLoop fuel state index mp itup n = Ok index' ->
  exists mp', rd_meta index' = Some mp' /\ freeListTail state index' mp'.
Proof using BLCKSZ_range.
  induction fuel as [|fuel IH]; intros n Hn Htail; simpl;
    destruct (Z.geb_spec n (nEnd (mp_meta mp)));
    try apply insertNewPage_tail.
  intros Hrun. apply bind_Ok in Hrun as (blkno & Hlook & Hrun).
  apply bind_Ok in Hrun as (page & Hread & Hrun).
  destruct (notFullPage (mp_meta mp) !! Z.to_nat n) as [b0|] eqn:E; [|done].
  injection Hlook as ->.
  pose proof CuckooMetaBlockN_bounds as HN.
  destruct Htail as (H0 & Hend & Hroom & Hdist).
  destruct (CuckooPageAddItem state (reinitIfUnused page) itup)
    as [[] page'] eqn:Hadd.
  - injection Hrun as <-. eexists. split; [reflexivity|].
    unfold freeListTail. simpl.
    split; [lia|]. split; [done|]. split.
    + intros m Hm. destruct (Hroom m ltac:(lia)) as (b & Hb & Hr).
      exists b. split; [done|].
      assert (b <> blkno) as Hne.
      { intros ->. apply (Hdist n m blkno); (done || lia). }
      by destruct (entryHasRoom_other state index blkno b page page'
                     (setNStart mp n) Hread Hne Hr).
    + intros a m b Ha Ham Hm. apply Hdist; lia.
  - unfold uint16 in Hrun. rewrite Z.mod_small in Hrun by lia.
    apply (IH (n + 1)); [lia| |done].
    split; [done|]. split; [done|]. split; done.
Qed.

Lemma ckinsert_tailInv (index index' : Relation) (values : list Datum)
    (isnull : list bool) (ht_ctid : ItemPointerData) :
  freeListInv index ->
  ckinsert index values isnull ht_ctid = Ok index' ->
  freeListInv index'.
Proof using BLCKSZ_range.
  intros (Hwf & state & mp & Hst & Hmeta & Htail) H.
  pose proof H as H'.
  apply ckinsert_Ok in H' as (state1 & mp1 & Hst1 & Hmp1 & Hout).
  assert (state1 = state) as -> by congruence.
  assert (mp1 = mp) as -> by congruence.
  apply insertOutcome_preserves in Hout as (Hwf' & Hsame & _);
    [|by eapply initCuckooState_state_ok|done|done].
  split; [done|]. exists state.
  rewrite (initCuckooState_sameIndex _ _ Hsame).
  assert (exists mp', rd_meta index' = Some mp' /\
                      freeListTail state index' mp') as (mp' & ? & ?);
    [|by exists mp'].
  unfold ckinsert in H. rewrite Hst, Hmeta in H. simpl in H.
  set (itup := CuckooFormTuple state ht_ctid values isnull) in *.
  pose proof CuckooMetaBlockN_bounds as HN.
  pose proof Htail as (H0 & Hend & Hroom & Hdist).
  assert (forall blkno,
            insertSlowPath state index mp itup blkno = Ok index' ->
            exists mp', rd_meta index' = Some mp' /\
                        freeListTail state index' mp') as Hslow.
  { intros blkno. unfold insertSlowPath.
    apply insertSlowLoop_tail; [|done].
    destruct (Z.ltb_spec (nStart (mp_meta mp)) (nEnd (mp_meta mp)));
      simpl; [|lia].
    destruct (match notFullPage (mp_meta mp)
                      !! Z.to_nat (nStart (mp_meta mp)) with
              | Some b => blkno =? b
              | None => false
              end); [|lia].
    unfold uint16. rewrite Z.mod_small by lia. lia. }
  destruct (Z.gtb_spec (nEnd (mp_meta mp)) (nStart (mp_meta mp)));
    [|by apply (Hslow InvalidBlockNumber)].
  apply bind_Ok in H as (blkno & Hlook & H).
  apply bind_Ok in H as (page & Hread & H).
  destruct (notFullPage (mp_meta mp) !! Z.to_nat (nStart (mp_meta mp)))
    as [b0|] eqn:E; [|done].
  injection Hlook as ->.
  destruct (CuckooPageAddItem state (reinitIfUnused page) itup)
    as [[] page'] eqn:Hadd; [|by apply (Hslow blkno)].
  injection H as <-. exists mp. split; [done|].
  unfold freeListTail.
  split; [done|]. split; [done|]. split; [|done].
  intros m Hm. destruct (Hroom m Hm) as (b & Hb & Hr).
  exists b. split; [done|].
  assert (b <> blkno) as Hne.
  { intros ->. apply (Hdist (nStart (mp_meta mp)) m blkno); (done || lia). }
  by destruct (entryHasRoom_other state index blkno b page page' mp
                 Hread Hne Hr).
Qed.

Lemma increasing_snoc (l : list BlockNumber) (x : BlockNumber) :
  increasing l -> (forall b, b ∈ l -> b < x) -> increasing (l ++ [x]).
Proof.
  intros Hinc Hlt i j b c Hij Hi Hj.
  pose proof (lookup_lt_Some _ _ _ Hj) as Hjl.
  rewrite length_app in Hjl. simpl in Hjl.
  rewrite lookup_app_l in Hi by lia.
  destruct (decide (j < length l)%nat) as [Hjlt|Hjge].
  - rewrite lookup_app_l in Hj by done. exact (Hinc i j b c Hij Hi Hj).
  - rewrite lookup_app_r in Hj by lia.
    replace (j - length l)%nat with 0%nat in Hj by lia.
    injection Hj as <-. apply Hlt. by eapply list_elem_of_lookup_2.
Qed.

Lemma notFullOf_increasing (state : CuckooState) (pages : list Page) :
  forall (blkno : BlockNumber) (acc : list BlockNumber),
  increasing acc -> (forall b, b ∈ acc -> b < blkno) ->
  increasing (notFullOf state blkno pages acc).
Proof.
  induction pages as [|p rest IH]; intros blkno acc Hinc Hlt; simpl;
    [done|].
  apply IH.
  - destruct (_ && _); [by apply increasing_snoc|done].
  - destruct (_ && _).
    + intros b [Hb|Hb]%elem_of_app; [specialize (Hlt b Hb); lia|].
      apply list_elem_of_singleton in Hb as ->. lia.
    + intros b Hb. specialize (Hlt b Hb). lia.
Qed.

Lemma ckbulkdelete_tailInv (index index' : Relation) (stats : option Z)
    (cb : IndexBulkDeleteCallback) (removed : Z) :
  relation_wf index ->
  ckbulkdelete index stats cb = Ok (index', removed) ->
  freeListInv index'.
Proof using BLCKSZ_range.
  intros Hwf H.
  destruct (ckbulkdelete_preserves _ _ _ _ _ Hwf H) as (Hwf' & Hsame & _).
  split; [done|].
  apply ckbulkdelete_Ok in H
    as (state & mp & pages' & notFull & Hst & Hmp & Hp & ->).
  pose proof (bulkDeletePages_notFull _ _ _ _ _ _ _ _ _ Hwf Hp) as Hnf.
  apply bulkDeletePages_spec in Hp as (Hlen & _ & _ & Hcnt & Hentries);
    [|intros p Hin Hl; by apply (relation_wf_page index)].
  pose proof CuckooMetaBlockN_bounds as HN.
  specialize (Hcnt ltac:(simpl; lia)).
  assert (increasing notFull) as Hinc.
  { rewrite Hnf. apply notFullOf_increasing.
    - intros i j b c _ Hi. by rewrite lookup_nil in Hi.
    - by intros b ?%elem_of_nil. }
  exists state. eexists.
  rewrite (initCuckooState_sameIndex _ _ Hsame).
  split; [done|]. split; [reflexivity|].
  unfold freeListTail. simpl. unfold uint16. rewrite Z.mod_small by lia.
  split; [done|]. split; [done|]. split.
  - intros n Hn.
    destruct (lookup_lt_is_Some_2 notFull (Z.to_nat n) ltac:(lia))
      as [b Hb].
    exists b. rewrite lookup_app_l by lia. split; [done|].
    destruct (Hentries b (list_elem_of_lookup_2 _ _ _ Hb))
      as [Hin|(i & p' & H1 & -> & H2 & H3)];
      [by apply elem_of_nil in Hin|].
    exists p'. split; [|done]. unfold readPage, CUCKOO_HEAD_BLKNO. simpl.
    destruct (Z.ltb_spec (1 + Z.of_nat i) 1); [lia|].
    replace (Z.to_nat (1 + Z.of_nat i - 1)) with i by lia. by rewrite H1.
  - intros n m b Hn Hnm Hm Hb Hb'.
    rewrite lookup_app_l in Hb, Hb' by lia.
    pose proof (Hinc (Z.to_nat n) (Z.to_nat m) b b ltac:(lia) Hb Hb'). lia.
Qed.

Lemma ckbuild_tailInv (heap : list HeapRow) (index0 built : Relation)
    (n : Z) :
  ckbuild heap index0 = Ok (built, n) -> freeListInv built.
Proof using BLCKSZ_range.
  intros H. split; [by eapply ckbuild_wf|].
  destruct (ckbuild_stored _ _ _ _ H) as (state & Hst & Hmeta & _).
  exists state. eexists. split; [done|]. split; [done|].
  pose proof CuckooMetaBlockN_bounds.
  unfold freeListTail. simpl. split; [done|]. split; [lia|].
  split; intros; lia.
Qed.

Lemma runOps_tailInv (ops : list Op) (index index' : Relation) :
  forallb insertOrBulkDelete ops = true ->
  freeListInv index -> runOps index ops = Ok index' -> freeListInv index'.
Proof using BLCKSZ_range.
  revert index. induction ops as [|op rest IH]; intros index Hops Hinv;
    simpl in *.
  - by intros [= <-].
  - apply andb_true_iff in Hops as [Hop Hrest]. intros H.
    apply bind_Ok in H as (index1 & Hstep & Hrun).
    apply (IH index1); [done| |done].
    destruct op as [values isnull tid|cb|]; [| |done]; unfold applyOp in Hstep.
    + by eapply ckinsert_tailInv.
    + apply bind_Ok in Hstep as ([i r] & Hb & [= <-]).
      destruct Hinv as [Hwf _]. by eapply ckbulkdelete_tailInv.
Qed.

(** C6 (amended). In every state reached from [ckbuild] by inserts and
    bulk deletes, every free-list entry after the one at [nStart] (up to
    [nEnd]) names a data page that holds tuples and has room for at least
    one more.  Only the entry at [nStart] can go stale: inserts fill its
    page and leave the entry where it is.  Right after a [ckbulkdelete]
    that entry has room as well: then every entry between [nStart] and
    [nEnd] names a page that is not empty and has room. *)
Theorem freelist_has_room_past_head (index : Relation) :
  reachable index ->
  (exists state mp,
     initCuckooState index = Ok state /\ rd_meta index = Some mp /\
     forall n, nStart (mp_meta mp) < n < nEnd (mp_meta mp) ->
       exists blkno page,
         notFullPage (mp_meta mp) !! Z.to_nat n = Some blkno /\
         readPage index blkno = Ok page /\
         maxoff page <> 0 /\
         sizeOfCuckooTuple state <= CuckooPageGetFreeSpace state page) /\
  (forall stats callback index' removed,
     ckbulkdelete index stats callback = Ok (index', removed) ->
     exists state mp,
       initCuckooState index' = Ok state /\ rd_meta index' = Some mp /\
       nStart (mp_meta mp) = 0 /\
       forall blkno, blkno ∈ freeListEntries (mp_meta mp) ->
         exists page, readPage index' blkno = Ok page /\
           maxoff page <> 0 /\
           sizeOfCuckooTuple state <= CuckooPageGetFreeSpace state page).
Proof using BLCKSZ_range.
  intros Hreach. pose proof (reachable_wf _ Hreach) as Hwf.
  destruct Hreach as (heap & index0 & built & n & ops & Hbuild & Hops & Hrun).
  split.
  - apply ckbuild_tailInv in Hbuild.
    destruct (runOps_tailInv _ _ _ Hops Hbuild Hrun)
      as (_ & state & mp & Hst & Hmeta & _ & _ & Hroom & _).
    exists state, mp. split; [done|]. split; [done|].
    intros m Hm. destruct (Hroom m Hm) as (b & Hb & page & Hp).
    by exists b, page.
  - intros stats callback index' removed Hb.
    by apply (ckbulkdelete_freelist_fresh _ _ _ _ _ Hwf Hb).
Qed.

End EngineProperties.

(** * The worked index *)

Section WorkedIndexProperties.

#[local] Existing Instance BLCKSZ_default.

Example pageCapacity_default : pageCapacity = 680%nat.
Proof. reflexivity. Qed.

Example CuckooMetaBlockN_default : CuckooMetaBlockN = 2034.
Proof. reflexivity. Qed.

Example exBuilt_ok : ckbuild [] exRelation = Ok (exBuilt, 0).
Proof. vm_compute. reflexivity. Qed.

Example exState_tagMask : tagMask exState = 0xFFF.
Proof. reflexivity. Qed.

Example exIndex1_freelist :
  option_map (fun mp => freeListEntries (mp_meta mp)) (rd_meta exIndex1)
  = Some [1].
Proof. vm_compute. reflexivity. Qed.

Example exIndex2_tuples :
  map heapPtr (storedTuples exIndex2) = [tid1; tid3].
Proof. vm_compute. reflexivity. Qed.

Example computeFingerprint_42 : computeFingerprint exState [42] [false] = 3311.
Proof. vm_compute. reflexivity. Qed.

Example computeFingerprint_null : computeFingerprint exState [0] [true] = 1.
Proof. vm_compute. reflexivity. Qed.

Lemma exIndex1_wf : relation_wf exIndex1.
Proof. apply pagesWfb_ok. vm_compute. reflexivity. Defined.

Lemma exIndex2_wf : relation_wf exIndex2.
Proof. apply pagesWfb_ok. vm_compute. reflexivity. Defined.

Lemma exBuilt_wf : relation_wf exBuilt.
Proof. apply pagesWfb_ok. vm_compute. reflexivity. Defined.

Lemma initCuckooState_bitsPerTag_32_witness :
  computeTagMask exOptions32 = None /\
  initCuckooState (CuckooInitMetapage exRelation32)
  = Err ErrUndefined.
Proof.
  apply (@initCuckooState_bitsPerTag_32 BLCKSZ_default exRelation32 exOptions32);
    reflexivity.
Defined.

(** Building that index stops at the undefined shift. *)
Example ckbuild_bitsPerTag_32 :
  ckbuild [mkHeapRow tid1 [42] [false]] exRelation32
  = Err ErrUndefined.
Proof. vm_compute. reflexivity. Qed.

Lemma ckgetbitmap_null_key_witness :
  ckgetbitmap exIndex2 (ckrescan exScanBegun (Some [nullKey])) [tid3]
  = (0, [tid3], ckrescan exScanBegun (Some [nullKey])).
Proof.
  apply (ckgetbitmap_null_key exIndex2 (ckrescan exScanBegun (Some [nullKey]))
           [tid3] nullKey).
  - apply reach_rescan, (reach_begin exIndex2 1 [key42]).
    vm_compute. reflexivity.
  - vm_compute. apply list_elem_of_singleton. reflexivity.
  - reflexivity.
Defined.

Lemma exPage1_wf : page_wf exPage1.
Proof. split; [reflexivity|vm_compute; split; discriminate]. Defined.

Lemma CuckooPageAddItem_spec_witness :
  (CuckooPageGetFreeSpace exState exPage1
   < sizeOfCuckooTuple exState ->
   CuckooPageAddItem exState exPage1 exTuple2
   = (false, exPage1)) /\
  (sizeOfCuckooTuple exState
   <= CuckooPageGetFreeSpace exState exPage1 ->
   exists page',
     CuckooPageAddItem exState exPage1 exTuple2 = (true, page') /\
     CuckooPageGetTuple page' (maxoff exPage1 + 1) = exTuple2 /\
     (forall offset, 1 <= offset -> offset <> maxoff exPage1 + 1 ->
        CuckooPageGetTuple page' offset = CuckooPageGetTuple exPage1 offset) /\
     maxoff page' = maxoff exPage1 + 1).
Proof.
  apply (@CuckooPageAddItem_spec BLCKSZ_default
           ltac:(unfold BLCKSZ, BLCKSZ_default; lia) exState exPage1 exTuple2).
  - reflexivity.
  - exact exPage1_wf.
Defined.

Lemma exIndex1b_wf : relation_wf exIndex1b.
Proof. apply pagesWfb_ok. vm_compute. reflexivity. Defined.

Lemma ckbulkdelete_compacts_witness :
  length (rd_pages exVacuumed) = length (rd_pages exIndex1b) /\
  1 = default 0 None + droppedTotal exCallback (rd_pages exIndex1b) /\
  forall i page, rd_pages exIndex1b !! i = Some page ->
    exists page', rd_pages exVacuumed !! i = Some page' /\
      (pageLive page = false -> page' = page) /\
      (pageLive page = true ->
       let kept := survivors exCallback (liveTuples page) in
       liveTuples page' = kept /\
       maxoff page' = Z.of_nat (length kept) /\
       (Z.of_nat (length kept) = maxoff page -> page' = page) /\
       (Z.of_nat (length kept) <> maxoff page -> kept = [] ->
        CuckooPageIsDeleted page' = true) /\
       (kept <> [] -> pageLive page' = true)).
Proof.
  apply (@ckbulkdelete_compacts BLCKSZ_default ltac:(unfold BLCKSZ, BLCKSZ_default; lia)
           exIndex1b exVacuumed None exCallback 1).
  - exact exIndex1b_wf.
  - vm_compute. reflexivity.
Defined.

Lemma ckinsert_fast_path_frame_witness :
  exists index',
    ckinsert exIndex1 [7] [false] tid2 = Ok index' /\
    rd_meta index' = Some exMeta1 /\
    rd_options index' = rd_options exIndex1 /\
    rd_fsm index' = rd_fsm exIndex1 /\
    rd_pages index'
    = <[Z.to_nat (1 - 1) :=
          snd (CuckooPageAddItem exState
                 (reinitIfUnused exPage1) exTuple2)]>
        (rd_pages exIndex1).
Proof.
  apply (@ckinsert_fast_path_frame BLCKSZ_default exIndex1 [7] [false] tid2
           exState exMeta1 1 exPage1).
  - vm_compute. reflexivity.
  - vm_compute. reflexivity.
  - vm_compute. reflexivity.
  - vm_compute. reflexivity.
  - vm_compute. reflexivity.
  - vm_compute. reflexivity.
Defined.

Lemma empty_page_accepts_tuple_witness :
  fst (CuckooPageAddItem exState
         (CuckooInitPage 0) exTuple2) = true.
Proof.
  apply (proj1 (@empty_page_accepts_tuple BLCKSZ_default
                  ltac:(unfold BLCKSZ, BLCKSZ_default; lia))).
  reflexivity.
Defined.

Lemma calculateFalsePositiveRate_clamped_witness :
  exists r v,
    calculateFalsePositiveRate 12 4 = Some r /\
    double_value r = Some v /\
    let q := fprFormula 12 4 in
    (((1 # 10000) <= q)%Q -> (v == Qclamp (1 # 10000) 1 q)%Q) /\
    (~ ((1 # 10000) <= q)%Q -> r = double_0_0001).
Proof.
  apply (calculateFalsePositiveRate_clamped 12 4); lia.
Defined.

(** At the defaults the hint is 8/4096. *)
Example calculateFalsePositiveRate_default :
  option_map double_value (calculateFalsePositiveRate 12 4)
  = Some (Some (4503599627370496 # 2305843009213693952)).
Proof. vm_compute. reflexivity. Qed.

Lemma all_null_fingerprint_is_1_witness :
  computeFingerprint exState [0] [true] = 1 /\
  exists scan',
    ckgetbitmap exIndex2 exKeylessScan [tid3]
    = (Z.of_nat (length (matching 1 (storedTuples exIndex2))),
       [tid3] ++ matching 1 (storedTuples exIndex2), scan') /\
    so_fingerprint (opaque scan') = 1.
Proof.
  destruct (@all_null_fingerprint_is_1 BLCKSZ_default) as [Hnull Hscan].
  split.
  - apply Hnull. intros j Hj. simpl in Hj.
    assert (j = 0%nat) as -> by lia. reflexivity.
  - apply Hscan.
    + exact exIndex2_wf.
    + apply (reach_begin exIndex2 0 []). vm_compute. reflexivity.
    + reflexivity.
Defined.

Example exFilled_freelist : freeListEntries (mp_meta exFilledMeta) = [1].
Proof. vm_compute. reflexivity. Qed.

Example exFilled_page_full :
  option_map (fun page => (maxoff page,
                           CuckooPageGetFreeSpace exState page))
             (rd_pages exFilled !! 0%nat)
  = Some (680, 0).
Proof. vm_compute. reflexivity. Qed.

(** C6 (as stated) fails: the index reached by those inserts has the full
    block 1 as its free-list entry. *)
Lemma freelist_entry_without_room :
  exists index,
    reachable index /\ ~ freeListHasRoom index.
Proof.
  exists exFilled. split.
  - exists [], exRelation, exBuilt, 0, exFillOps.
    split; [vm_compute; reflexivity|].
    split; [vm_compute; reflexivity|]. vm_compute. reflexivity.
  - intros H.
    apply (@entryIsFull_no_room BLCKSZ_default exState exFilled 1);
      [vm_compute; reflexivity|].
    apply (H exState exFilledMeta); [vm_compute; reflexivity|reflexivity|].
    rewrite exFilled_freelist. apply list_elem_of_singleton. reflexivity.
Qed.

(** ** The further properties at the worked index *)

Lemma exBuilt_in_order : relation_ok exBuilt.
Proof. apply relationOkb_ok. vm_compute. reflexivity. Defined.

Lemma exIndex1_in_order : relation_ok exIndex1.
Proof. apply relationOkb_ok. vm_compute. reflexivity. Defined.

Lemma exIndex1b_in_order : relation_ok exIndex1b.
Proof. apply relationOkb_ok. vm_compute. reflexivity. Defined.

Lemma computeFingerprint_range_witness :
  1 <= computeFingerprint exState [42] [false]
    <= Z.max 1 (2 ^ bitsPerTag (state_opts exState) - 1).
Proof.
  apply (computeFingerprint_range exBuilt exState [42] [false]).
  vm_compute. reflexivity.
Defined.

(** Two values with the same 32-bit hash. *)
Lemma computeFingerprint_hash_only_witness :
  computeFingerprint exState [42] [false]
  = computeFingerprint exState [42 + 2 ^ 32] [false].
Proof.
  apply (computeFingerprint_hash_only exState [42] [42 + 2 ^ 32]
           [false] [false]).
  - intros j Hj. reflexivity.
  - intros j Hj _. change (nColumns exState) with 1%nat in Hj.
    assert (j = 0%nat) as -> by lia. vm_compute. reflexivity.
Defined.

Lemma ckgetbitmap_exact_witness :
  exists values isnull scan',
    fillScanKeys (nColumns (so_state (opaque exScanBegun))) [key42]
      (replicate (nColumns (so_state (opaque exScanBegun))) 0)
      (replicate (nColumns (so_state (opaque exScanBegun))) true)
    = Some (values, isnull) /\
    let fp := computeFingerprint (so_state (opaque exScanBegun))
                                 values isnull in
    ckgetbitmap exIndex2 (ckrescan exScanBegun (Some [key42])) []
    = (Z.of_nat (length (matching fp (storedTuples exIndex2))),
       [] ++ matching fp (storedTuples exIndex2), scan') /\
    forall index2 tbm2, relation_wf index2 ->
      ckgetbitmap index2 scan' tbm2
      = (Z.of_nat (length (matching fp (storedTuples index2))),
         tbm2 ++ matching fp (storedTuples index2), scan').
Proof.
  apply (@ckgetbitmap_exact BLCKSZ_default exIndex2 exScanBegun [] [key42]).
  - exact exIndex2_wf.
  - reflexivity.
  - intros k Hk. apply list_elem_of_singleton in Hk as ->. reflexivity.
Defined.

Lemma ckbulkdelete_removes_dead_witness :
  storedTuples exVacuumed = survivors exCallback (storedTuples exIndex1b) /\
  1 = default 0 None
      + (Z.of_nat (length (storedTuples exIndex1b))
         - Z.of_nat (length (storedTuples exVacuumed))) /\
  forall scan tbm n tbm' scan' tid,
    ckgetbitmap exVacuumed scan tbm = (n, tbm', scan') ->
    tid ∈ drop (length tbm) tbm' -> exCallback tid = false.
Proof.
  apply (@ckbulkdelete_removes_dead BLCKSZ_default
           ltac:(unfold BLCKSZ, BLCKSZ_default; lia)
           exIndex1b exVacuumed None exCallback 1).
  - exact exIndex1b_wf.
  - vm_compute. reflexivity.
Defined.

Lemma ckbulkdelete_idempotent_witness :
  ckbulkdelete exVacuumed (Some 1) exCallback = Ok (exVacuumed, 1).
Proof.
  apply (@ckbulkdelete_idempotent BLCKSZ_default
           ltac:(unfold BLCKSZ, BLCKSZ_default; lia)
           exIndex1b exVacuumed None exCallback 1).
  - exact exIndex1b_wf.
  - vm_compute. reflexivity.
Defined.

Lemma ckvacuumcleanup_stats_witness :
  ckvacuumcleanup exIndex2 true None = (exIndex2, None) /\
  exists added st,
    ckvacuumcleanup exIndex2 false None
    = (setFsm exIndex2 (rd_fsm exIndex2 ++ added), Some st) /\
    num_pages st = RelationGetNumberOfBlocks exIndex2 /\
    pages_free st = Z.of_nat (length added) /\
    num_index_tuples st = Z.of_nat (length (storedTuples exIndex2)) /\
    (length added + length (List.filter pageLive (dataBlocks exIndex2))
     = length (dataBlocks exIndex2))%nat /\
    forall b, b ∈ added <->
      exists page, 1 <= b /\
        dataBlocks exIndex2 !! Z.to_nat (b - 1) = Some page /\
        pageLive page = false.
Proof.
  apply (@ckvacuumcleanup_stats BLCKSZ_default exIndex2 None).
  exact exIndex2_wf.
Defined.

Lemma ckinsert_adds_one_witness :
  exists state before after,
    initCuckooState exIndex1 = Ok state /\
    storedTuples exIndex1 = before ++ after /\
    storedTuples exIndex1b
    = before ++ CuckooFormTuple state tid2 [7] [false] :: after /\
    (length (rd_pages exIndex1) <= length (rd_pages exIndex1b)
     <= length (rd_pages exIndex1) + 1)%nat.
Proof.
  apply (@ckinsert_adds_one BLCKSZ_default
           ltac:(unfold BLCKSZ, BLCKSZ_default; lia)
           exIndex1 exIndex1b [7] [false] tid2).
  - exact exIndex1_wf.
  - vm_compute. reflexivity.
Defined.

Lemma runOps_succeeds_witness :
  exists index', runOps exIndex1 exOps = Ok index' /\ relation_ok index'.
Proof.
  apply (@runOps_succeeds BLCKSZ_default
           ltac:(unfold BLCKSZ, BLCKSZ_default; lia) exIndex1 exOps).
  exact exIndex1_in_order.
Defined.

Lemma ckbuild_spec_witness :
  exists built state,
    ckbuild exHeap exRelation = Ok (built, Z.of_nat (length exHeap)) /\
    initCuckooState built = Ok state /\
    relation_ok built /\
    storedTuples built = map (formRow state) exHeap /\
    Z.of_nat (length (rd_pages built))
    = (Z.of_nat (length exHeap) + Z.of_nat pageCapacity - 1)
      / Z.of_nat pageCapacity /\
    rd_meta built = Some (CuckooFillMetapage exRelation) /\
    rd_fsm built = [] /\
    rd_natts built = rd_natts exRelation /\
    rd_hashproc built = rd_hashproc exRelation.
Proof.
  apply (@ckbuild_spec BLCKSZ_default
           ltac:(unfold BLCKSZ, BLCKSZ_default; lia) exHeap exRelation).
  - reflexivity.
  - reflexivity.
  - change (0 <= 12 < 32). lia.
Defined.

(** The probe [(42)] finds the first and the third row of [exHeap]. *)
Example exBuiltHeap_scan :
  fst (ckgetbitmap exBuiltHeap (ckrescan exScan0 (Some [key42])) [])
  = (2, [tid1; tid3]).
Proof. vm_compute. reflexivity. Qed.

Lemma ckbuild_scan_exact_witness :
  exists state scan',
    initCuckooState exBuiltHeap = Ok state /\
    let found :=
      map row_tid
        (List.filter
           (fun r => computeFingerprint state (row_values r) (row_isnull r)
                     =? computeFingerprint state [42] [false]) exHeap) in
    ckgetbitmap exBuiltHeap (ckrescan exScan0 (Some [key42])) []
    = (Z.of_nat (length found), [] ++ found, scan').
Proof.
  apply (@ckbuild_scan_exact BLCKSZ_default
           ltac:(unfold BLCKSZ, BLCKSZ_default; lia)
           exHeap exRelation exBuiltHeap 3 [42] [false] 1 [nullKey] [key42]
           exScan0 []).
  - vm_compute. reflexivity.
  - reflexivity.
  - vm_compute. reflexivity.
  - reflexivity.
  - split.
    + intros k Hk. apply list_elem_of_singleton in Hk as ->.
      vm_compute. repeat split; congruence.
    + intros j Hj _. exists key42.
      split; [apply list_elem_of_singleton; reflexivity|].
      simpl in Hj. assert (j = 0%nat) as -> by lia. reflexivity.
Defined.

Lemma CuckooNewBuffer_spec_witness :
  exists skipped,
    (forall b, b ∈ skipped ->
       exists p, readPage exIndex1 b = Ok p /\ pageLive p = true) /\
    ((rd_fsm exIndex1 = skipped ++ 2 :: rd_fsm exExtended /\
      rd_pages exExtended = rd_pages exIndex1) \/
     (rd_fsm exIndex1 = skipped /\ rd_fsm exExtended = [] /\
      rd_pages exExtended = rd_pages exIndex1 ++ [zeroPage] /\
      2 = 1 + Z.of_nat (length (rd_pages exIndex1)))) /\
    (exists p, readPage exExtended 2 = Ok p /\ pageLive p = false) /\
    storedTuples exExtended = storedTuples exIndex1 /\
    rd_meta exExtended = Some exMeta1.
Proof.
  apply (@CuckooNewBuffer_spec BLCKSZ_default exIndex1 exExtended exMeta1 2).
  - vm_compute. reflexivity.
  - vm_compute. reflexivity.
Defined.

Lemma ckinsert_freelist_head_witness :
  exists state,
    initCuckooState exBuilt = Ok state /\
    headHolds exIndex1 (CuckooFormTuple state tid1 [42] [false]).
Proof.
  apply (@ckinsert_freelist_head BLCKSZ_default
           ltac:(unfold BLCKSZ, BLCKSZ_default; lia)
           exBuilt exIndex1 [42] [false] tid1).
  - exact exBuilt_in_order.
  - vm_compute. reflexivity.
Defined.

Lemma vacuum_then_insert_reuses_witness :
  length (rd_pages exReused)
  = length (rd_pages (fst (ckvacuumcleanup exVacuumed false None))).
Proof.
  apply (@vacuum_then_insert_reuses BLCKSZ_default
           ltac:(unfold BLCKSZ, BLCKSZ_default; lia)
           exIndex1b exVacuumed exReused None exCallback 1 None
           [9] [false] tid3 exPageVacuumed).
  - exact exIndex1b_in_order.
  - vm_compute. reflexivity.
  - apply (list_elem_of_lookup_2 _ 0%nat). vm_compute. reflexivity.
  - right. vm_compute. split; [discriminate|reflexivity].
  - vm_compute. reflexivity.
Defined.

Lemma CuckooPageAddItem_capacity_witness :
  Z.of_nat pageCapacity = (BLCKSZ - 32) / 12 /\
  (fst (CuckooPageAddItem exState exPage1 exTuple2) = true <->
   maxoff exPage1 < Z.of_nat pageCapacity).
Proof.
  apply (@CuckooPageAddItem_capacity BLCKSZ_default
           ltac:(unfold BLCKSZ, BLCKSZ_default; lia)
           exState exPage1 exTuple2).
  - reflexivity.
  - exact exPage1_wf.
Defined.

Lemma insert_then_delete_restores_witness :
  storedTuples exVacuumed = storedTuples exIndex1 /\
  1 = default 0 None + 1.
Proof.
  apply (@insert_then_delete_restores BLCKSZ_default
           ltac:(unfold BLCKSZ, BLCKSZ_default; lia)
           exIndex1 exIndex1b exVacuumed [7] [false] tid2 None exCallback 1).
  - exact exIndex1_wf.
  - vm_compute. reflexivity.
  - intros t Ht. apply list_elem_of_In in Ht. vm_compute in Ht.
    destruct Ht as [<-|[]]. reflexivity.
  - reflexivity.
  - vm_compute. reflexivity.
Defined.

Lemma runOps_descriptor_and_size_witness :
  sameIndex exIndex1 exIndex2 /\
  initCuckooState exIndex2 = initCuckooState exIndex1 /\
  (length (rd_pages exIndex1) <= length (rd_pages exIndex2)
   <= length (rd_pages exIndex1) + length (List.filter isInsert exOps))%nat.
Proof.
  apply (@runOps_descriptor_and_size BLCKSZ_default
           ltac:(unfold BLCKSZ, BLCKSZ_default; lia)
           exIndex1 exIndex2 exOps).
  - exact exIndex1_wf.
  - vm_compute. reflexivity.
Defined.

Lemma page_headers_consistent_witness :
  headerOk exPageVacuumed /\
  pd_lower exPageVacuumed <= pd_upper exPageVacuumed /\
  forall state, initCuckooState exVacuumed = Ok state ->
    pd_upper exPageVacuumed - pd_lower exPageVacuumed
    = CuckooPageGetFreeSpace state exPageVacuumed.
Proof.
  apply (@page_headers_consistent BLCKSZ_default
           ltac:(unfold BLCKSZ, BLCKSZ_default; lia)
           [] exRelation exBuilt exVacuumed 0
           [OpInsert [42] [false] tid1; OpInsert [7] [false] tid2;
            OpBulkDelete exCallback]
           exPageVacuumed).
  - vm_compute. reflexivity.
  - vm_compute. reflexivity.
  - apply (list_elem_of_lookup_2 _ 0%nat). vm_compute. reflexivity.
  - vm_compute. reflexivity.
Defined.

(** The loop on the two-tuple page of [exIndex1b], told that the second
    row is dead. *)
Lemma vacuumLoop_assertion_witness :
  tupleLocation exState (Z.of_nat 1 + 1)
  = tupleLocation exState (CuckooPageGetMaxOffset exPageWork + 1) /\
  0 <= CuckooPageGetMaxOffset exPageWork
    <= CuckooPageGetMaxOffset exPage1b /\
  1 - 0
  = CuckooPageGetMaxOffset exPage1b - CuckooPageGetMaxOffset exPageWork /\
  (1%nat <> 2%nat <-> 1 <> 0).
Proof.
  apply (@vacuumLoop_assertion BLCKSZ_default
           ltac:(unfold BLCKSZ, BLCKSZ_default; lia)
           exState exCallback exPage1b exPageWork 2%nat 1%nat 0 1).
  - split; [reflexivity|vm_compute; split; discriminate].
  - vm_compute. reflexivity.
Defined.

(** The first row of [exHeap], still found after the build was followed
    by inserts, a bulk delete and a clean-up. *)
Lemma ckgetbitmap_no_false_negative_witness :
  exists found scan',
    ckgetbitmap exIndexHeap2 (ckrescan exScan0 (Some [key42])) []
    = (Z.of_nat (length found), [] ++ found, scan') /\
    tid1 ∈ found.
Proof.
  apply (@ckgetbitmap_no_false_negative BLCKSZ_default
           ltac:(unfold BLCKSZ, BLCKSZ_default; lia)
           exBuiltHeap exIndexHeap2 [42] [false] tid1 exOps 1 [nullKey]
           [key42] exScan0 []).
  - apply (added_by_build [42] [false] tid1 exHeap exRelation exBuiltHeap 3).
    + vm_compute. reflexivity.
    + unfold exHeap. left.
  - vm_compute. reflexivity.
  - intros callback H. unfold exOps in H.
    repeat (apply elem_of_cons in H as [H|H]; [try discriminate H|]).
    + injection H as ->. reflexivity.
    + by apply elem_of_nil in H.
  - vm_compute. reflexivity.
  - reflexivity.
  - split.
    + intros k Hk. apply list_elem_of_singleton in Hk as ->.
      vm_compute. repeat split; congruence.
    + intros j Hj _. exists key42.
      split; [apply list_elem_of_singleton; reflexivity|].
      change (rd_natts exIndexHeap2) with 1%nat in Hj.
      assert (j = 0%nat) as -> by lia. reflexivity.
Defined.

(** In [exTail] the free list is blocks 1 and 2; block 1, at the head,
    is full again, block 2 has room. *)
Example exTail_freelist :
  option_map (fun mp => (nStart (mp_meta mp), nEnd (mp_meta mp),
                         freeListEntries (mp_meta mp))) (rd_meta exTail)
  = Some (0, 2, [1; 2]) /\
  map (fun page => (maxoff page, CuckooPageGetFreeSpace exState page))
      (rd_pages exTail)
  = [(680, 0); (1, 8148)].
Proof. vm_compute. split; reflexivity. Qed.

Lemma freelist_has_room_past_head_witness :
  (exists state mp,
     initCuckooState exTail = Ok state /\ rd_meta exTail = Some mp /\
     forall n, nStart (mp_meta mp) < n < nEnd (mp_meta mp) ->
       exists blkno page,
         notFullPage (mp_meta mp) !! Z.to_nat n = Some blkno /\
         readPage exTail blkno = Ok page /\
         maxoff page <> 0 /\
         sizeOfCuckooTuple state <= CuckooPageGetFreeSpace state page) /\
  (forall stats callback index' removed,
     ckbulkdelete exTail stats callback = Ok (index', removed) ->
     exists state mp,
       initCuckooState index' = Ok state /\ rd_meta index' = Some mp /\
       nStart (mp_meta mp) = 0 /\
       forall blkno, blkno ∈ freeListEntries (mp_meta mp) ->
         exists page, readPage index' blkno = Ok page /\
           maxoff page <> 0 /\
           sizeOfCuckooTuple state <= CuckooPageGetFreeSpace state page).
Proof.
  apply (@freelist_has_room_past_head BLCKSZ_default
           ltac:(unfold BLCKSZ, BLCKSZ_default; lia) exTail).
  exists [], exRelation, exBuilt, 0, exTailOps.
  split; [vm_compute; reflexivity|].
  split; [vm_compute; reflexivity|]. vm_compute. reflexivity.
Defined.

Example rowAdded_by_insert : rowAdded [42] [false] tid1 exIndex1.
Proof.
  apply (added_by_insert [42] [false] tid1 exBuilt exIndex1).
  - exact exBuilt_wf.
  - vm_compute. reflexivity.
Qed.

End WorkedIndexProperties.
